(** * Regtest fixture generator: boundary scheduler, process lifecycle,
      phased generation engine, exit codes and wallet statistics.

    A shallow embedding of [generate.py], [generator/dashd_manager.py] and
    [generator/wallet_export.py].  Python integers are [Z] (floor division
    is [Z.div]), dictionaries keyed by integers are [gmap Z _], exceptions
    are an explicit outcome type, and every interaction with the node, the
    operating system or the random generator is an explicit answer taken
    from an environment. *)

From Stdlib Require Import ZArith List Bool Lia String Ascii QArith.
From stdpp Require Import base option gmap strings pretty.
Import ListNotations.
Local Open Scope Z_scope.
Set Warnings "-register-all".

(* ================================================================== *)
(** ** Python built-ins used by the sources *)
(* ================================================================== *)

Module Py.

(** [n] values [start, start+step, ...]. *)
Fixpoint range_from (start step : Z) (n : nat) : list Z :=
  match n with
  | O => []
  | S k => start :: range_from (start + step) step k
  end.

(** [range(start, stop, step)] for a positive [step]; its length is
    [ceil((stop - start) / step)], or 0 when [stop <= start]. *)
Definition range3 (start stop step : Z) : list Z :=
  range_from start step (Z.to_nat ((stop - start + step - 1) / step)).

(** [range(n)]. *)
Definition range (n : Z) : list Z := range3 0 n 1.

(** [l.remove(x)]: drops the first element equal to [x] (the sources
    only call it on an element that is present). *)
Fixpoint list_remove (x : Z) (l : list Z) : list Z :=
  match l with
  | [] => []
  | y :: l' => if Z.eqb x y then l' else y :: list_remove x l'
  end.

End Py.

(* ================================================================== *)
(** ** Boundary scheduler: [WalletSyncGenerator._calculate_batch_boundaries] *)
(* ================================================================== *)

Module Boundaries.

(** The body of the [for boundary in range(...)] loop: one pass extends
    the accumulated [boundaries] list. *)
Definition boundary_step (current_height target : Z)
    (boundaries : list Z) (boundary : Z) : list Z :=
  let height := boundary - 1 in
  if (height >? current_height) && (height <? target)
  then boundaries ++ [height]
  else boundaries.

Definition _calculate_batch_boundaries (current_height target : Z) : list Z :=
  let first_boundary := (current_height / 5000 + 1) * 5000 in
  fold_left (boundary_step current_height target)
            (Py.range3 first_boundary (target + 1) 5000) [].

(** Consecutive elements differ by exactly [d]. *)
Inductive spaced (d : Z) : list Z -> Prop :=
| spaced_nil : spaced d []
| spaced_one x : spaced d [x]
| spaced_cons x y l : y = x + d -> spaced d (y :: l) -> spaced d (x :: y :: l).

(** Strictly increasing, as adjacent comparisons. *)
Inductive increasing : list Z -> Prop :=
| incr_nil : increasing []
| incr_one x : increasing [x]
| incr_cons x y l : x < y -> increasing (y :: l) -> increasing (x :: y :: l).

(** A height one below a multiple of the batch size 5000. *)
Definition before_multiple (h : Z) : Prop := (h + 1) mod 5000 = 0.

Definition keep (current_height target h : Z) : bool :=
  (h >? current_height) && (h <? target).

End Boundaries.

(* ================================================================== *)
(** ** Exceptions *)
(* ================================================================== *)

Module Errors.

Local Open Scope string_scope.

(** Modelled from the spec: [generator/errors.py] is not among the
    sources.  The classes are those the sources import and raise; per the
    error taxonomy every one of [ConfigError], [DashdConnectionError],
    [InsufficientFundsError] and [RPCError] is a kind of the generic
    [GeneratorError], and they are otherwise unrelated to each other.
    [str(e)] of each is its message.  [KeyboardInterrupt], [KeyError] and
    the rest are Python built-ins. *)
Inductive exn : Type :=
| GeneratorError (msg : string)
| ConfigError (msg : string)
| DashdConnectionError (msg : string)
| InsufficientFundsError (msg : string)
| RPCError (msg : string)
| KeyboardInterrupt
| KeyError (key : string)
| NotImplementedError
| OtherException (name msg : string).

Inductive exn_class : Type :=
| CGeneratorError | CConfigError | CDashdConnectionError
| CInsufficientFundsError | CRPCError | CKeyboardInterrupt | CException.

(** [isinstance(e, cls)]. *)
Definition isinstance (e : exn) (cls : exn_class) : bool :=
  match cls, e with
  | CGeneratorError, (GeneratorError _ | ConfigError _ | DashdConnectionError _
                      | InsufficientFundsError _ | RPCError _) => true
  | CConfigError, ConfigError _ => true
  | CDashdConnectionError, DashdConnectionError _ => true
  | CInsufficientFundsError, InsufficientFundsError _ => true
  | CRPCError, RPCError _ => true
  | CKeyboardInterrupt, KeyboardInterrupt => true
  | CException, KeyboardInterrupt => false
  | CException, _ => true
  | _, _ => false
  end.

(** [str(e)]. *)
Definition str (e : exn) : string :=
  match e with
  | GeneratorError m | ConfigError m | DashdConnectionError m
  | InsufficientFundsError m | RPCError m => m
  | KeyboardInterrupt => ""
  | KeyError k => k
  | NotImplementedError => ""
  | OtherException _ m => m
  end.

(** What a call does: return a value or raise. *)
Inductive outcome (A : Type) : Type :=
| Ok (a : A)
| Raise (e : exn).
Arguments Ok {A} a.
Arguments Raise {A} e.

End Errors.

(* ================================================================== *)
(** ** Process lifecycle manager: [generator/dashd_manager.py] *)
(* ================================================================== *)

Module DashdManager.

Import Errors.
Local Open Scope string_scope.

Definition nl : string := String "010"%char EmptyString.

(** [str(n)] for an [int]. *)
Definition str_of_int (n : Z) : string := pretty n.

(** The fields of a [DashdManager] object.  A running [subprocess.Popen]
    is identified by its pid; a [Path] by its text. *)
Record t : Type := mk {
  dashd_executable : string;
  requested_port : option Z;
  extra_args : list string;
  actual_port : option Z;
  p2p_port : option Z;
  temp_dir : option string;
  process : option Z;
  should_cleanup : bool
}.

(** [DashdManager(dashd_executable, rpc_port, extra_args)]. *)
Definition __init__ (dashd_executable : string) (rpc_port : option Z)
    (extra_args : list string) : t :=
  {| dashd_executable := dashd_executable;
     requested_port := rpc_port;
     extra_args := extra_args;
     actual_port := None;
     p2p_port := None;
     temp_dir := None;
     process := None;
     should_cleanup := true |}.

Definition set_actual_port (v : option Z) (m : t) : t :=
  mk (dashd_executable m) (requested_port m) (extra_args m) v (p2p_port m)
     (temp_dir m) (process m) (should_cleanup m).
Definition set_p2p_port (v : option Z) (m : t) : t :=
  mk (dashd_executable m) (requested_port m) (extra_args m) (actual_port m) v
     (temp_dir m) (process m) (should_cleanup m).
Definition set_temp_dir (v : option string) (m : t) : t :=
  mk (dashd_executable m) (requested_port m) (extra_args m) (actual_port m)
     (p2p_port m) v (process m) (should_cleanup m).
Definition set_process (v : option Z) (m : t) : t :=
  mk (dashd_executable m) (requested_port m) (extra_args m) (actual_port m)
     (p2p_port m) (temp_dir m) v (should_cleanup m).
Definition set_should_cleanup (v : bool) (m : t) : t :=
  mk (dashd_executable m) (requested_port m) (extra_args m) (actual_port m)
     (p2p_port m) (temp_dir m) (process m) v.

(** *** The operating system as seen by the manager *)

(** Calls that reach the operating system, in the order they are made. *)
Inductive os_action : Type :=
| ProbePort (port : Z)                       (* bind 127.0.0.1:port, then close *)
| Mkdtemp (path : string)                    (* tempfile.mkdtemp *)
| Mkdir (path : string)                      (* Path.mkdir(exist_ok=True) *)
| Popen (cmd : list string) (cwd : string)   (* subprocess.Popen *)
| AtexitRegisterStop                         (* atexit.register(self.stop) *)
| Poll (pid : Z)                             (* process.poll() *)
| ReadStderr (pid : Z)                       (* process.stderr.read() *)
| RpcGetblockcount (datadir : option string) (rpc_port : option Z)
| SleepHalfSecond                            (* time.sleep(0.5) *)
| Terminate (pid : Z)                        (* process.terminate() *)
| WaitTimeout (pid : Z) (seconds : Z)        (* process.wait(timeout=..) *)
| Kill (pid : Z)                             (* process.kill() *)
| Wait (pid : Z)                             (* process.wait() *)
| Rmtree (path : string).                    (* shutil.rmtree(.., ignore_errors=True) *)

(** Live processes, existing directories and the trace of calls. *)
Record world : Type := mk_world {
  live : gset Z;
  dirs : gset string;
  trace : list os_action
}.

Definition log (a : os_action) (w : world) : world :=
  mk_world (live w) (dirs w) (trace w ++ [a]).
Definition set_dead (pid : Z) (w : world) : world :=
  mk_world (live w ∖ {[pid]}) (dirs w) (trace w).
Definition set_live (pid : Z) (w : world) : world :=
  mk_world (live w ∪ {[pid]}) (dirs w) (trace w).
Definition add_dir (d : string) (w : world) : world :=
  mk_world (live w) (dirs w ∪ {[d]}) (trace w).

(** [p] is [d] or lies beneath it. *)
Definition beneath (d p : string) : bool :=
  String.eqb d p || String.prefix (d ++ "/") p.

(** The tree rooted at [d] is gone. *)
Definition remove_tree (d : string) (w : world) : world :=
  mk_world (live w) (filter (fun p => beneath d p = false) (dirs w)) (trace w).

(** What [subprocess.Popen] does. *)
Inductive popen_result : Type :=
| Launched (pid : Z)
| FileNotFound
| PopenRaises (e : exn).

(** How the [try] block of [stop] ends. *)
Inductive stop_result : Type :=
| Exited            (* terminate(), then wait(timeout=10) returns *)
| TimedOut          (* wait(timeout=10) raises TimeoutExpired *)
| TerminateFailed   (* terminate() raises another Exception *)
| WaitFailed.       (* wait(timeout=10) raises another Exception *)

(** What one pass of the readiness loop observes: whether the clock test
    [time.time() - start_time < timeout] holds, the answer of [poll()],
    the bytes on the error stream, and the failure of the liveness call
    ([None] when it succeeds). *)
Record observation : Type := mk_obs {
  in_time : bool;
  poll : option Z;
  stderr : string;
  rpc_error : option string
}.

(** The answers of the operating system. *)
Record os_env : Type := mk_env {
  is_file : string -> bool;
  access_x : string -> bool;
  which : string -> bool;          (* shutil.which(name) is not None *)
  port_free : Z -> bool;           (* the probe bind succeeds *)
  mkdtemp : string;
  popen : popen_result;
  ready : list observation;
  stop_try : stop_result;
  rmtree_removes : bool            (* rmtree removed the tree (errors are ignored) *)
}.

(** [Path(p).is_absolute()] on POSIX. *)
Definition is_absolute (p : string) : bool := String.prefix "/" p.

(** *** Methods *)

(** The ports [bind] accepts. *)
Definition port_in_range (port : Z) : bool := (0 <=? port)%Z && (port <=? 65535)%Z.

(** What [bind] raises for any other port; it is not an [OSError]. *)
Definition port_overflow : exn :=
  OtherException "OverflowError" "bind(): port must be 0-65535.".

(** [is_port_available] catches [OSError] only: a failed bind answers
    [False], while the [OverflowError] for a port outside 0..65535 escapes. *)
Definition is_port_available (e : os_env) (port : Z) (w : world)
  : outcome bool * world :=
  let w1 := log (ProbePort port) w in
  if port_in_range port then (Ok (port_free e port), w1)
  else (Raise port_overflow, w1).

Fixpoint find_free_port_loop (e : os_env) (ports : list Z) (w : world)
  : outcome (option Z) * world :=
  match ports with
  | [] => (Ok None, w)
  | port :: rest =>
      match is_port_available e port w with
      | (Ok free, w1) =>
          if free then (Ok (Some port), w1) else find_free_port_loop e rest w1
      | (Raise ex, w1) => (Raise ex, w1)
      end
  end.

Definition find_free_port (e : os_env) (start_port max_attempts : Z) (w : world)
  : outcome Z * world :=
  match find_free_port_loop e
          (Py.range3 start_port (start_port + max_attempts) 1) w with
  | (Ok (Some port), w1) => (Ok port, w1)
  | (Ok None, w1) =>
      (Raise (DashdConnectionError
                ("No free RPC port found in range " ++ str_of_int start_port ++ "-"
                 ++ str_of_int (start_port + max_attempts - 1))), w1)
  | (Raise ex, w1) => (Raise ex, w1)
  end.

Definition verify_dashd_executable (e : os_env) (m : t) : bool :=
  let path := dashd_executable m in
  if is_absolute path
  then is_file e path && access_x e path
  else which e path.

(** The readiness loop of [_wait_for_ready]; an exhausted list of
    observations stands for the clock test having failed. *)
Fixpoint wait_loop (m : t) (obs : list observation) (w : world) : bool * world :=
  match obs with
  | [] => (false, w)
  | o :: rest =>
      if negb (in_time o) then (false, w) else
      let try_rpc (w0 : world) :=
        let w1 := log (RpcGetblockcount (temp_dir m) (actual_port m)) w0 in
        match rpc_error o with
        | None => (true, w1)
        | Some _ => wait_loop m rest (log SleepHalfSecond w1)
        end in
      match process m with
      | Some pid =>
          let w1 := log (Poll pid) w in
          match poll o with
          | Some _ => (false, log (ReadStderr pid) (set_dead pid w1))
          | None => try_rpc w1
          end
      | None => try_rpc w
      end
  end.

Definition _wait_for_ready (e : os_env) (m : t) (w : world) : bool * world :=
  wait_loop m (ready e) w.

Definition stop (e : os_env) (m : t) (w : world) : t * world :=
  let '(m1, w1) :=
    match process m with
    | Some pid =>
        let w1 := log (Terminate pid) w in
        let w2 :=
          match stop_try e with
          | Exited => set_dead pid (log (WaitTimeout pid 10) w1)
          | TimedOut =>
              set_dead pid (log (Wait pid) (log (Kill pid) (log (WaitTimeout pid 10) w1)))
          | TerminateFailed => w1
          | WaitFailed => log (WaitTimeout pid 10) w1
          end in
        (set_process None m, w2)
    | None => (m, w)
    end in
  match temp_dir m1 with
  | Some d =>
      if should_cleanup m1
      then (set_temp_dir None m1,
            let w2 := log (Rmtree d) w1 in
            if rmtree_removes e then remove_tree d w2 else w2)
      else (m1, w1)
  | None => (m1, w1)
  end.

Definition dashd_command (m : t) (temp_dir : string) (p2p_port actual_port : Z)
  : list string :=
  [ dashd_executable m;
    "-regtest";
    "-datadir=" ++ temp_dir;
    "-port=" ++ str_of_int p2p_port;
    "-rpcport=" ++ str_of_int actual_port;
    "-server=1";
    "-daemon=0";
    "-fallbackfee=0.00001";
    "-rpcbind=127.0.0.1";
    "-rpcallowip=127.0.0.1";
    "-listen=1";
    "-txindex=0";
    "-addressindex=0";
    "-spentindex=0";
    "-timestampindex=0" ] ++ extra_args m.

(** The error [start] raises when [_wait_for_ready] answers [False]. *)
Definition not_ready_error : exn :=
  DashdConnectionError
    "dashd failed to start within 30 seconds. Check dashd installation.".

(** The part of [start] after the ports are known. *)
Definition launch (e : os_env) (keep_temp : bool) (actual p2p : Z) (m : t) (w : world)
  : outcome (Z * string) * t * world :=
  let d := mkdtemp e in
  let m1 := set_should_cleanup (negb keep_temp) (set_temp_dir (Some d) m) in
  let w1 := add_dir d (log (Mkdtemp d) w) in
  let regtest_dir := d ++ "/regtest" in
  let w2 := add_dir regtest_dir (log (Mkdir regtest_dir) w1) in
  let w3 := log (Popen (dashd_command m1 d p2p actual) d) w2 in
  match popen e with
  | FileNotFound =>
      (Raise (DashdConnectionError
                ("Failed to execute dashd: " ++ dashd_executable m1 ++ nl
                 ++ "Please check the path or install Dash Core")), m1, w3)
  | PopenRaises ex => (Raise ex, m1, w3)
  | Launched pid =>
      let m2 := set_process (Some pid) m1 in
      let w4 := log AtexitRegisterStop (set_live pid w3) in
      let '(ready, w5) := _wait_for_ready e m2 w4 in
      if ready then (Ok (actual, d), m2, w5)
      else
        let '(m3, w6) := stop e m2 w5 in
        (Raise not_ready_error, m3, w6)
  end.

(** The "Determine RPC port" block of [start]; [if self.requested_port:]
    is false for [None] and for 0. *)
Definition resolve_rpc_port (e : os_env) (m : t) (w : world) : outcome Z * world :=
  match requested_port m with
  | Some port =>
      if Z.eqb port 0 then find_free_port e 19998 20 w
      else
        match is_port_available e port w with
        | (Ok free, w1) =>
            if free then (Ok port, w1)
            else (Raise (DashdConnectionError
                           ("Requested RPC port " ++ str_of_int port
                            ++ " is not available")),
                  w1)
        | (Raise ex, w1) => (Raise ex, w1)
        end
  | None => find_free_port e 19998 20 w
  end.

Definition start (e : os_env) (keep_temp : bool) (m : t) (w : world)
  : outcome (Z * string) * t * world :=
  if negb (verify_dashd_executable e m) then
    (Raise (DashdConnectionError
              ("dashd executable not found or not runnable: " ++ dashd_executable m ++ nl
               ++ "Please ensure dashd is installed and accessible, or use --dashd-path to specify location")),
     m, w)
  else
    match resolve_rpc_port e m w with
    | (Raise ex, w1) => (Raise ex, m, w1)
    | (Ok actual, w1) =>
        let m1 := set_actual_port (Some actual) m in
        match find_free_port e (actual + 1) 20 w1 with
        | (Raise ex, w2) => (Raise ex, m1, w2)
        | (Ok p2p, w2) => launch e keep_temp actual p2p (set_p2p_port (Some p2p) m1) w2
        end
    end.

(** [n] passes of the readiness loop in which the process is alive and
    the liveness call fails: poll, call, sleep. *)
Fixpoint idle_rounds (m : t) (pid : Z) (n : nat) (w : world) : world :=
  match n with
  | O => w
  | S k =>
      idle_rounds m pid k
        (log SleepHalfSecond
           (log (RpcGetblockcount (temp_dir m) (actual_port m)) (log (Poll pid) w)))
  end.

(** An observation of a live process that does not answer yet. *)
Definition waiting (o : observation) : Prop :=
  in_time o = true /\ poll o = None /\ rpc_error o <> None.

(** Scenarios used to exercise the manager. *)
Definition world0 : world := mk_world ∅ ∅ [].

Definition busy : observation :=
  mk_obs true None "" (Some "error: could not connect to the server").

Definition died : observation :=
  mk_obs true (Some 1) "Error: Cannot obtain a lock on data directory" None.

Definition env_ready : os_env :=
  mk_env (fun _ => true) (fun _ => true) (fun _ => true) (fun _ => true)
    "/tmp/dash-testdata-k3" (Launched 4242)
    [busy; mk_obs true None "" None] Exited true.

Definition env_missing : os_env :=
  mk_env (fun _ => false) (fun _ => false) (fun _ => false) (fun _ => true)
    "/tmp/dash-testdata-k3" FileNotFound [] Exited true.

Definition env_early_exit : os_env :=
  mk_env (fun _ => true) (fun _ => true) (fun _ => true) (fun _ => true)
    "/tmp/dash-testdata-k3" (Launched 4242)
    [busy; died;
     busy; busy]
    Exited true.

Definition env_timeout : os_env :=
  mk_env (fun _ => true) (fun _ => true) (fun _ => true) (fun _ => true)
    "/tmp/dash-testdata-k3" (Launched 4242)
    (repeat busy 60 ++ [mk_obs false None "" None]) TimedOut true.

Definition fresh : t := __init__ "dashd" None [].

(** The reading of the claim that an early exit is reported by an error of
    its own: on the same handle, the failure of [start] after an early exit
    differs from its failure after a timeout. *)
Definition reports_exit_distinctly (e_exit e_timeout : os_env) (m : t) (w : world)
  : Prop :=
  (start e_exit false m w).1.1 <> (start e_timeout false m w).1.1.

(** The control port 19998 is taken, every other port is free. *)
Definition env_port_taken : os_env :=
  mk_env (fun _ => true) (fun _ => true) (fun _ => true)
    (fun q => negb (Z.eqb q 19998)) "/tmp/dash-testdata-k3"
    (Launched 4242) [] Exited true.

(** The executable is found, but launching it fails. *)
Definition env_launch_fails : os_env :=
  mk_env (fun _ => true) (fun _ => true) (fun _ => true) (fun _ => true)
    "/tmp/dash-testdata-k3" FileNotFound [] Exited true.

(** The node is ready at once and later ignores the termination signal. *)
Definition env_stubborn : os_env :=
  mk_env (fun _ => true) (fun _ => true) (fun _ => true) (fun _ => true)
    "/tmp/dash-testdata-k3" (Launched 4242)
    [mk_obs true None "" None] TimedOut true.

End DashdManager.

(* ================================================================== *)
(** ** JSON values exchanged with the node *)
(* ================================================================== *)

Module Json.

Import Errors.
Local Open Scope string_scope.

(** What [rpc.call] returns and accepts: parsed JSON.  A Python [float] is
    an exact rational here; no definition below depends on rounding
    except [round8], which rounds a rational. *)
Inductive value : Type :=
| Null
| Bool (b : bool)
| Int (n : Z)
| Float (q : Q)
| Str (s : string)
| List (l : list value)
| Dict (items : list (string * value)).

Definition type_error (what : string) : exn := OtherException "TypeError" what.

Fixpoint assoc (k : string) (items : list (string * value)) : option value :=
  match items with
  | [] => None
  | (k', v) :: rest => if String.eqb k k' then Some v else assoc k rest
  end.

(** [d[k]]. *)
Definition getitem (d : value) (k : string) : outcome value :=
  match d with
  | Dict items =>
      match assoc k items with
      | Some v => Ok v
      | None => Raise (KeyError k)
      end
  | _ => Raise (type_error "indices must be integers")
  end.

(** [d.get(k, default)]. *)
Definition get (d : value) (k : string) (default : value) : outcome value :=
  match d with
  | Dict items =>
      match assoc k items with
      | Some v => Ok v
      | None => Ok default
      end
  | _ => Raise (OtherException "AttributeError" "object has no attribute 'get'")
  end.

(** [d[k] = v] on a dictionary with string keys: an existing key keeps its
    place. *)
Fixpoint setitem (k : string) (v : value) (items : list (string * value))
  : list (string * value) :=
  match items with
  | [] => [(k, v)]
  | (k', v') :: rest =>
      if String.eqb k k' then (k, v) :: rest else (k', v') :: setitem k v rest
  end.

(** Iterating over a value ([for x in v], [len(v)]). *)
Definition as_list (v : value) : outcome (list value) :=
  match v with
  | List l => Ok l
  | Dict items => Ok (map (fun kv => Str (fst kv)) items)
  | Str _ => Raise (type_error "string iteration is not modelled")
  | _ => Raise (type_error "object is not iterable")
  end.

(** [len(v)]. *)
Definition len (v : value) : outcome Z :=
  match v with
  | List l => Ok (Z.of_nat (length l))
  | Dict items => Ok (Z.of_nat (length items))
  | Str s => Ok (Z.of_nat (String.length s))
  | _ => Raise (type_error "object has no len()")
  end.

(** A value used as the key of a dictionary sent to the node.  Lists and
    dictionaries are unhashable; the node returns an address as a string,
    and other scalars are rejected here as well. *)
Definition dict_key (v : value) : outcome string :=
  match v with
  | Str s => Ok s
  | _ => Raise (type_error "unhashable or non-string key")
  end.

Definition as_int (v : value) : outcome Z :=
  match v with
  | Int n => Ok n
  | Bool b => Ok (if b then 1 else 0)%Z
  | _ => Raise (type_error "an integer is required")
  end.

Definition as_str (v : value) : outcome string :=
  match v with
  | Str s => Ok s
  | _ => Raise (type_error "a string is required")
  end.

(** The number behind a value, if it is one. *)
Definition as_number (v : value) : outcome Q :=
  match v with
  | Int n => Ok (inject_Z n)
  | Float q => Ok q
  | Bool b => Ok (if b then 1 else 0)%Q
  | _ => Raise (type_error "unsupported operand type(s)")
  end.

(** [a + b] on numbers: two integers give an integer, otherwise a float. *)
Definition add (a b : value) : outcome value :=
  match a, b with
  | Int x, Int y => Ok (Int (x + y))
  | _, _ =>
      match as_number a, as_number b with
      | Ok x, Ok y => Ok (Float (x + y)%Q)
      | Raise e, _ => Raise e
      | _, Raise e => Raise e
      end
  end.

(** [sum(l)]: starts from the integer 0 and adds from the left. *)
Fixpoint sum_from (acc : value) (l : list value) : outcome value :=
  match l with
  | [] => Ok acc
  | x :: rest =>
      match add acc x with
      | Ok acc' => sum_from acc' rest
      | Raise e => Raise e
      end
  end.

Definition sum (l : list value) : outcome value := sum_from (Int 0) l.

(** [a == b] on numbers. *)
Definition num_eqb (a b : value) : bool :=
  match as_number a, as_number b with
  | Ok x, Ok y => Qeq_bool x y
  | _, _ => false
  end.

(** Truthiness of a value ([if v:]). *)
Definition truthy (v : value) : bool :=
  match v with
  | Null => false
  | Bool b => b
  | Int n => negb (Z.eqb n 0)
  | Float q => negb (Qeq_bool q 0)
  | Str s => negb (String.eqb s "")
  | List l => match l with [] => false | _ => true end
  | Dict items => match items with [] => false | _ => true end
  end.

(** [round(q, 8)]: nearest multiple of 10^-8, ties to even. *)
Definition round8 (q : Q) : Q :=
  let scaled := (q * inject_Z 100000000)%Q in
  let n := Qnum scaled in
  let d := Zpos (Qden scaled) in
  let fl := (n / d)%Z in
  let twice_rem := (2 * (n - fl * d))%Z in
  let r := if (twice_rem <? d)%Z then fl
           else if (d <? twice_rem)%Z then (fl + 1)%Z
           else if Z.even fl then fl else (fl + 1)%Z in
  Qred (r # 100000000).

End Json.

(* ================================================================== *)
(** ** Strings: [str.lower] and the substring test *)
(* ================================================================== *)

Module Text.

Local Open Scope string_scope.

(** [c.lower()] for an ASCII character; messages of the node are ASCII. *)
Definition lower_ascii (c : ascii) : ascii :=
  let n := nat_of_ascii c in
  if (65 <=? n)%nat && (n <=? 90)%nat then ascii_of_nat (n + 32) else c.

Fixpoint lower (s : string) : string :=
  match s with
  | EmptyString => EmptyString
  | String c rest => String (lower_ascii c) (lower rest)
  end.

(** [needle in hay]. *)
Fixpoint contains (needle hay : string) : bool :=
  String.prefix needle hay ||
  match hay with
  | EmptyString => false
  | String _ rest => contains needle rest
  end.

End Text.

(* ================================================================== *)
(** ** Computations that raise and change a state *)
(* ================================================================== *)

Module Run.

Import Errors.

(** A computation reads answers from an environment [E], changes a state
    [S], and returns or raises; the state reached when it raises is kept,
    as in Python. *)
Definition M (E S A : Type) : Type := E -> S -> outcome A * S.

Section Ops.
Context {E S : Type}.

Definition ret {A} (a : A) : M E S A := fun _ s => (Ok a, s).

Definition bind {A B} (m : M E S A) (k : A -> M E S B) : M E S B :=
  fun e s =>
    match m e s with
    | (Ok a, s1) => k a e s1
    | (Raise ex, s1) => (Raise ex, s1)
    end.

Definition raise {A} (ex : exn) : M E S A := fun _ s => (Raise ex, s).

(** A pure step that may raise. *)
Definition lift {A} (o : outcome A) : M E S A := fun _ s => (o, s).

Definition gets {A} (f : S -> A) : M E S A := fun _ s => (Ok (f s), s).

Definition modify (f : S -> S) : M E S unit := fun _ s => (Ok tt, f s).

(** [try: body  except cls as ex: handler ex]. *)
Definition try_except {A} (body : M E S A) (cls : exn_class)
    (handler : exn -> M E S A) : M E S A :=
  fun e s =>
    match body e s with
    | (Ok a, s1) => (Ok a, s1)
    | (Raise ex, s1) =>
        if isinstance ex cls then handler ex e s1 else (Raise ex, s1)
    end.

(** [for x in l: body x], threading the loop variables [acc]. *)
Fixpoint for_each {A B} (l : list A) (body : A -> B -> M E S B) (acc : B)
  : M E S B :=
  match l with
  | [] => ret acc
  | x :: rest => bind (body x acc) (for_each rest body)
  end.

(** [[f x for x in l]]. *)
Fixpoint map_m {A B} (f : A -> M E S B) (l : list A) : M E S (list B) :=
  match l with
  | [] => ret []
  | x :: rest =>
      bind (f x) (fun y => bind (map_m f rest) (fun ys => ret (y :: ys)))
  end.

End Ops.

(** Run a computation on a part of a larger state and environment. *)
Definition zoom {E E' S S' A} (env_of : E' -> E) (get : S' -> S)
    (set : S -> S' -> S') (m : M E S A) : M E' S' A :=
  fun e s => let '(r, part) := m (env_of e) (get s) in (r, set part s).

Module Notations.
Notation "x <- c1 ;; c2" := (bind c1 (fun x => c2))
  (at level 100, c1 at next level, right associativity).
Notation "c1 ;; c2" := (bind c1 (fun _ => c2))
  (at level 100, right associativity).
End Notations.

End Run.

(* ================================================================== *)
(** ** Command client: the interface of [generator/rpc_client.py] *)
(* ================================================================== *)

Module Rpc.

Import Errors Run.

(** One round-trip: command name, positional arguments, wallet scope. *)
Record call : Type := mk_call {
  command : string;
  args : list Json.value;
  wallet : option string
}.

Inductive response : Type :=
| Returns (v : Json.value)
| Raises (ex : exn).

(** Modelled from the spec: [generator/rpc_client.py] is not among the
    sources.  A call is a single blocking round-trip that returns the
    node's result or raises; there are no implicit retries.  The node is a
    function of the calls made before and of the call. *)
Definition node : Type := list call -> call -> response.

(** [DashRPCClient(dashcli_path, datadir, rpc_port)]. *)
Record DashRPCClient : Type := mk_client {
  dashcli_path : string;
  datadir : option string;
  rpc_port : option Z
}.

(** [rpc.call(command, *args, wallet=wallet)]; the state is the list of
    calls made so far. *)
Definition rpc_call (command : string) (args : list Json.value)
    (wallet : option string) : M node (list call) Json.value :=
  fun nd log =>
    let c := mk_call command args wallet in
    match nd log c with
    | Returns v => (Ok v, log ++ [c])
    | Raises ex => (Raise ex, log ++ [c])
    end.

End Rpc.

(* ================================================================== *)
(** ** Wallet statistics: [generator/wallet_export.py] *)
(* ================================================================== *)

Module WalletExport.

Import Errors Run Run.Notations Rpc.
Local Open Scope string_scope.

(** The dictionary [collect_wallet_stats] returns. *)
Record wallet_stats : Type := mk_stats {
  wallet_name : string;
  mnemonic : Json.value;
  transactions : list Json.value;
  utxos : list Json.value;
  balance : Json.value
}.

Definition R (A : Type) : Type := M node (list call) A.

(** The dictionary appended for one entry of [listtransactions]. *)
Definition transaction_entry (tx : Json.value) : R Json.value :=
  txid <- lift (Json.getitem tx "txid") ;;
  address <- lift (Json.get tx "address" (Json.Str "")) ;;
  amount <- lift (Json.getitem tx "amount") ;;
  confirmations <- lift (Json.get tx "confirmations" (Json.Int 0)) ;;
  blockhash <- lift (Json.get tx "blockhash" (Json.Str "")) ;;
  time <- lift (Json.get tx "time" (Json.Int 0)) ;;
  ret (Json.Dict [("txid", txid); ("address", address); ("amount", amount);
                  ("confirmations", confirmations); ("blockhash", blockhash);
                  ("time", time)]).

(** The dictionary built for one entry of [listunspent]. *)
Definition utxo_entry (u : Json.value) : R Json.value :=
  txid <- lift (Json.getitem u "txid") ;;
  vout <- lift (Json.getitem u "vout") ;;
  address <- lift (Json.get u "address" Json.Null) ;;
  amount <- lift (Json.getitem u "amount") ;;
  confirmations <- lift (Json.get u "confirmations" (Json.Int 0)) ;;
  ret (Json.Dict [("txid", txid); ("vout", vout); ("address", address);
                  ("amount", amount); ("confirmations", confirmations)]).

(** [u["amount"]], the summand of the balance. *)
Definition amount_of (u : Json.value) : R Json.value :=
  lift (Json.getitem u "amount").

(** First [try] block: the transaction history, empty on an [RPCError]. *)
Definition collect_transactions (wallet_name : string) : R (list Json.value) :=
  try_except
    (txs <- rpc_call "listtransactions"
              [Json.Str "*"; Json.Int 999999999; Json.Int 0; Json.Bool true]
              (Some wallet_name) ;;
     l <- lift (Json.as_list txs) ;;
     map_m transaction_entry l)
    CRPCError
    (fun _ => ret []).

(** Second [try] block: the UTXO list and the balance; [([], 0.0)] on an
    [RPCError]. *)
Definition collect_utxos (wallet_name : string) : R (list Json.value * Json.value) :=
  try_except
    (wallet_utxos <- rpc_call "listunspent"
                       [Json.Int 1; Json.Int 9999999; Json.List []]
                       (Some wallet_name) ;;
     l <- lift (Json.as_list wallet_utxos) ;;
     utxos <- map_m utxo_entry l ;;
     amounts <- map_m amount_of l ;;
     balance <- lift (Json.sum amounts) ;;
     ret (utxos, balance))
    CRPCError
    (fun _ => ret ([], Json.Float 0)).

(** Third [try] block: the recovery phrase, [""] on an [RPCError]. *)
Definition collect_mnemonic (wallet_name : string) : R Json.value :=
  try_except
    (hd_info <- rpc_call "dumphdinfo" [] (Some wallet_name) ;;
     lift (Json.get hd_info "mnemonic" (Json.Str "")))
    CRPCError
    (fun _ => ret (Json.Str "")).

Definition collect_wallet_stats (wallet_name : string) : R wallet_stats :=
  transactions <- collect_transactions wallet_name ;;
  ub <- collect_utxos wallet_name ;;
  mnemonic <- collect_mnemonic wallet_name ;;
  ret (mk_stats wallet_name mnemonic transactions (fst ub) (snd ub)).

(** The [amount] fields of a list of UTXO dictionaries. *)
Fixpoint amounts_of (l : list Json.value) : outcome (list Json.value) :=
  match l with
  | [] => Ok []
  | u :: rest =>
      match Json.getitem u "amount", amounts_of rest with
      | Ok a, Ok l' => Ok (a :: l')
      | Raise e, _ => Raise e
      | _, Raise e => Raise e
      end
  end.

(** The balance equals the sum of the [amount] fields of the list. *)
Definition balance_consistent (d : wallet_stats) : Prop :=
  exists amounts total,
    amounts_of (utxos d) = Ok amounts /\
    Json.sum amounts = Ok total /\
    Json.num_eqb (balance d) total = true.

(** A node for trying the function out. *)
Definition utxo (txid : string) (amount : Q) : Json.value :=
  Json.Dict [("txid", Json.Str txid); ("vout", Json.Int 0);
             ("address", Json.Str "yTestAddress"); ("amount", Json.Float amount);
             ("confirmations", Json.Int 6)].

Definition sample_node : node :=
  fun _ c =>
    if String.eqb (command c) "listunspent"
    then Returns (Json.List [utxo "aa" (1 # 2); utxo "bb" (1 # 100); utxo "cc" 3])
    else if String.eqb (command c) "listtransactions" then Returns (Json.List [])
    else Returns (Json.Dict [("mnemonic", Json.Str "abandon ability able")]).

Definition failing_node : node :=
  fun _ c => Raises (RPCError "Requested wallet does not exist or is not loaded").

End WalletExport.

(* ================================================================== *)
(** ** Generation engine: [generate.py] *)
(* ================================================================== *)

Module Generate.

Import Errors Run Run.Notations.
Local Open Scope string_scope.

Record Config : Type := mk_config {
  target_blocks : Z;
  dashcli_path : string;
  dashd_executable : string;
  auto_start_dashd : bool;
  dashd_datadir : option string;
  dashd_wallet : string;
  rpc_port : option Z;
  output_base : string;
  extra_dashd_args : list string
}.

(** An entry of [self.wallets]. *)
Record wallet : Type := mk_wallet {
  wallet_name : string;
  mnemonic : Json.value;
  addresses : list (Json.value * Z);     (* {"address": a, "index": i} *)
  tier : string;
  transactions : list Json.value;
  utxos : list Json.value;
  balance : Json.value
}.

(** [self.stats]. *)
Record Stats : Type := mk_counters {
  blocks_generated : Z;
  transactions_created : Z;
  coinbase_rewards : Z;
  utxo_replenishments : Z
}.

(** Calls of [_export_data] that reach the file system, or the clock. *)
Inductive fs_action : Type :=
| PathExists (path : string)                 (* Path.exists() *)
| IsDir (path : string)                      (* Path.is_dir() *)
| RmtreeStrict (path : string)               (* shutil.rmtree(path) *)
| MkdirParents (path : string)               (* Path.mkdir(parents=True, exist_ok=True) *)
| SaveWalletFile (path : string) (w : wallet)  (* save_wallet_file(w, path) *)
| Copytree (src dst : string)                (* shutil.copytree(src, dst, symlinks=False) *)
| Sleep (seconds : Z).                       (* time.sleep(seconds) *)

(** What the file system answers: done, a truth value, or an error. *)
Inductive fs_answer : Type :=
| Done
| Answer (b : bool)
| Fails (ex : exn).

(** The generator object ([config] to [wallet_addresses]) together with
    the world it acts on: the calls made to the node so far, the number of
    random draws so far, the operating system as the process manager sees
    it, and the file-system calls made so far.  [self.utxo_count] is never
    written after construction and is left out. *)
Record state : Type := mk_state {
  config : Config;
  keep_temp : bool;
  dashd_manager : option DashdManager.t;
  rpc : option Rpc.DashRPCClient;
  wallets : list wallet;
  output_dir : option string;
  mining_address : option Json.value;
  stats : Stats;
  wallet_addresses : gmap Z Json.value;
  calls : list Rpc.call;
  draws : nat;
  os : DashdManager.world;
  files : list fs_action
}.

Definition set_config (v : Config) (s : state) : state :=
  mk_state v (keep_temp s) (dashd_manager s) (rpc s) (wallets s) (output_dir
    s) (mining_address s) (stats s) (wallet_addresses s) (calls s) (draws s)
    (os s) (files s).
Definition set_keep_temp (v : bool) (s : state) : state :=
  mk_state (config s) v (dashd_manager s) (rpc s) (wallets s) (output_dir s)
    (mining_address s) (stats s) (wallet_addresses s) (calls s) (draws s) (os
    s) (files s).
Definition set_dashd_manager (v : option DashdManager.t) (s : state) : state :=
  mk_state (config s) (keep_temp s) v (rpc s) (wallets s) (output_dir s)
    (mining_address s) (stats s) (wallet_addresses s) (calls s) (draws s) (os
    s) (files s).
Definition set_rpc (v : option Rpc.DashRPCClient) (s : state) : state :=
  mk_state (config s) (keep_temp s) (dashd_manager s) v (wallets s)
    (output_dir s) (mining_address s) (stats s) (wallet_addresses s) (calls s)
    (draws s) (os s) (files s).
Definition set_wallets (v : list wallet) (s : state) : state :=
  mk_state (config s) (keep_temp s) (dashd_manager s) (rpc s) v (output_dir s)
    (mining_address s) (stats s) (wallet_addresses s) (calls s) (draws s) (os
    s) (files s).
Definition set_output_dir (v : option string) (s : state) : state :=
  mk_state (config s) (keep_temp s) (dashd_manager s) (rpc s) (wallets s) v
    (mining_address s) (stats s) (wallet_addresses s) (calls s) (draws s) (os
    s) (files s).
Definition set_mining_address (v : option Json.value) (s : state) : state :=
  mk_state (config s) (keep_temp s) (dashd_manager s) (rpc s) (wallets s)
    (output_dir s) v (stats s) (wallet_addresses s) (calls s) (draws s) (os s)
    (files s).
Definition set_stats (v : Stats) (s : state) : state :=
  mk_state (config s) (keep_temp s) (dashd_manager s) (rpc s) (wallets s)
    (output_dir s) (mining_address s) v (wallet_addresses s) (calls s) (draws
    s) (os s) (files s).
Definition set_wallet_addresses (v : gmap Z Json.value) (s : state) : state :=
  mk_state (config s) (keep_temp s) (dashd_manager s) (rpc s) (wallets s)
    (output_dir s) (mining_address s) (stats s) v (calls s) (draws s) (os s)
    (files s).
Definition set_calls (v : list Rpc.call) (s : state) : state :=
  mk_state (config s) (keep_temp s) (dashd_manager s) (rpc s) (wallets s)
    (output_dir s) (mining_address s) (stats s) (wallet_addresses s) v (draws
    s) (os s) (files s).
Definition set_draws (v : nat) (s : state) : state :=
  mk_state (config s) (keep_temp s) (dashd_manager s) (rpc s) (wallets s)
    (output_dir s) (mining_address s) (stats s) (wallet_addresses s) (calls s)
    v (os s) (files s).
Definition set_os (v : DashdManager.world) (s : state) : state :=
  mk_state (config s) (keep_temp s) (dashd_manager s) (rpc s) (wallets s)
    (output_dir s) (mining_address s) (stats s) (wallet_addresses s) (calls s)
    (draws s) v (files s).
Definition set_files (v : list fs_action) (s : state) : state :=
  mk_state (config s) (keep_temp s) (dashd_manager s) (rpc s) (wallets s)
    (output_dir s) (mining_address s) (stats s) (wallet_addresses s) (calls s)
    (draws s) (os s) v.

(** The answers of the world. *)
Record env : Type := mk_env {
  node : Rpc.node;
  random_below : nat -> bool;    (* the n-th [random.random() < 0.01] *)
  os_env : DashdManager.os_env;
  fs : list fs_action -> fs_action -> fs_answer;
  interrupt_in_cleanup : bool    (* Ctrl-C arrives as the [finally] block starts *)
}.

Definition G (A : Type) : Type := M env state A.

Definition WALLET_NAME : string := "wallet".
Definition NUM_ADDRESSES : Z := 50.

Definition initial_stats : Stats := mk_counters 0 0 0 0.

(** [Generator.__init__] followed by [WalletSyncGenerator.__init__], in a
    world [w] where nothing has been called yet. *)
Definition __init__ (config : Config) (keep_temp : bool) (w : DashdManager.world)
  : state :=
  mk_state config keep_temp None None [] None None initial_stats ∅ [] 0%nat w [].

(** [self.rpc.call(...)]. *)
Definition call (command : string) (args : list Json.value) (wallet : option string)
  : G Json.value :=
  fun e s =>
    match rpc s with
    | None =>
        (Raise (OtherException "AttributeError"
                  "'NoneType' object has no attribute 'call'"), s)
    | Some _ => zoom node calls set_calls (Rpc.rpc_call command args wallet) e s
    end.

Definition faucet : G string := gets (fun s => dashd_wallet (config s)).

Definition bump_transactions_created : G unit :=
  modify (fun s =>
    let st := stats s in
    set_stats (mk_counters (blocks_generated st) (transactions_created st + 1)
                 (coinbase_rewards st) (utxo_replenishments st)) s).

Definition add_coinbase_rewards (n : Z) : G unit :=
  modify (fun s =>
    let st := stats s in
    set_stats (mk_counters (blocks_generated st) (transactions_created st)
                 (coinbase_rewards st + n) (utxo_replenishments st)) s).

Definition set_blocks_generated (n : Z) : G unit :=
  modify (fun s =>
    let st := stats s in
    set_stats (mk_counters n (transactions_created st)
                 (coinbase_rewards st) (utxo_replenishments st)) s).

(** *** Start-up *)

Definition _initialize_rpc_client : G unit :=
  modify (fun s =>
    set_rpc (Some (Rpc.mk_client (dashcli_path (config s))
                     (dashd_datadir (config s)) (rpc_port (config s)))) s).

(** The second [try] block of [_verify_dashd]: load the faucet wallet. *)
Definition load_faucet_wallet : G unit :=
  w <- faucet ;;
  try_except
    (_ <- call "loadwallet" [Json.Str w] None ;; ret tt)
    CRPCError
    (fun ex =>
       let error_msg := Text.lower (str ex) in
       if Text.contains "already loaded" error_msg then ret tt
       else if Text.contains "not found" error_msg
               || Text.contains "does not exist" error_msg
       then _ <- call "createwallet" [Json.Str w] None ;; ret tt
       else raise ex).

Definition _verify_dashd : G unit :=
  try_except
    (_ <- call "getblockcount" [] None ;; ret tt)
    CDashdConnectionError
    (fun ex => raise ex) ;;
  load_faucet_wallet.

Definition empty_wallet (name : string) (mnemonic : Json.value)
    (addresses : list (Json.value * Z)) (tier : string) : wallet :=
  mk_wallet name mnemonic addresses tier [] [] (Json.Int 0).

(** The [try] block of [_load_addresses]: create the test wallet. *)
Definition create_test_wallet : G unit :=
  try_except
    (_ <- call "createwallet" [Json.Str WALLET_NAME] None ;; ret tt)
    CRPCError
    (fun ex =>
       let error_msg := Text.lower (str ex) in
       if Text.contains "already exists" error_msg
          || Text.contains "already loaded" error_msg
       then ret tt
       else raise ex).

(** One pass of the address loop of [_load_addresses]. *)
Definition pregenerate_address (i : Z) (addresses : list (Json.value * Z))
  : G (list (Json.value * Z)) :=
  address <- call "getnewaddress" [Json.Str ("addr_" ++ DashdManager.str_of_int i)]
               (Some WALLET_NAME) ;;
  modify (fun s => set_wallet_addresses (<[i := address]> (wallet_addresses s)) s) ;;
  ret (addresses ++ [(address, i)])%list.

Definition _load_addresses : G unit :=
  w <- faucet ;;
  modify (fun s => set_wallets (wallets s ++ [empty_wallet w (Json.Str "") [] "faucet"])%list s) ;;
  create_test_wallet ;;
  hd_info <- call "dumphdinfo" [] (Some WALLET_NAME) ;;
  mnemonic <- lift (Json.get hd_info "mnemonic" (Json.Str "")) ;;
  addresses <- for_each (Py.range NUM_ADDRESSES) pregenerate_address [] ;;
  modify (fun s =>
    set_wallets (wallets s ++ [empty_wallet WALLET_NAME mnemonic addresses "test"])%list s).

Definition mining_address_arg (s : state) : Json.value :=
  match mining_address s with
  | Some a => a
  | None => Json.Null
  end.

(** One pass of the loop that collects the 50 faucet recipients. *)
Definition add_recipient (_ : Z) (recipients : list (string * Json.value))
  : G (list (string * Json.value)) :=
  w <- faucet ;;
  addr <- call "getnewaddress" [] (Some w) ;;
  key <- lift (Json.dict_key addr) ;;
  ret (Json.setitem key (Json.Float 10) recipients).

Definition _initialize_utxo_pool : G unit :=
  w <- faucet ;;
  a <- call "getnewaddress" [] (Some w) ;;
  modify (set_mining_address (Some a)) ;;
  _ <- call "generatetoaddress" [Json.Int 110; a] None ;;
  _ <- call "getblockcount" [] None ;;
  recipients <- for_each (Py.range 50) add_recipient [] ;;
  _ <- call "sendmany" [Json.Str ""; Json.Dict recipients] (Some w) ;;
  m <- gets mining_address_arg ;;
  _ <- call "generatetoaddress" [Json.Int 1; m] None ;;
  unspent <- call "listunspent" [Json.Int 1] (Some w) ;;
  _ <- lift (Json.len unspent) ;;
  ret tt.

(** *** Sending and mining *)

(** [self.wallet_addresses[index]]. *)
Definition address_at (index : Z) : G Json.value :=
  fun _ s =>
    match wallet_addresses s !! index with
    | Some a => (Ok a, s)
    | None => (Raise (KeyError (DashdManager.str_of_int index)), s)
    end.

Definition _send_to_wallet (index : Z) (amount : Q) : G unit :=
  address <- address_at index ;;
  w <- faucet ;;
  _ <- call "sendtoaddress" [address; Json.Float amount] (Some w) ;;
  bump_transactions_created.

Definition _mine_blocks (count : Z) (address : option Json.value) : G unit :=
  a <- match address with
       | Some a => ret a
       | None => gets mining_address_arg
       end ;;
  _ <- call "generatetoaddress" [Json.Int count; a] None ;;
  ret tt.

Definition _mine_and_log (count : Z) : G unit :=
  _mine_blocks count None ;;
  _ <- call "getblockcount" [] None ;;
  ret tt.

(** *** Phases 2 to 5 *)

Definition _phase_normal_activity : G unit :=
  _send_to_wallet 0 0.00001 ;;
  _mine_blocks 2 None ;;
  _send_to_wallet 2 0.05 ;;
  _send_to_wallet 5 0.5 ;;
  _mine_blocks 2 None ;;
  _send_to_wallet 8 1.0 ;;
  _send_to_wallet 12 2.5 ;;
  _mine_blocks 2 None ;;
  _send_to_wallet 15 100.0 ;;
  _send_to_wallet 20 0.1 ;;
  _mine_blocks 2 None ;;
  _send_to_wallet 5 0.25 ;;
  _mine_blocks 1 None ;;
  a3 <- address_at 3 ;;
  k3 <- lift (Json.dict_key a3) ;;
  a7 <- address_at 7 ;;
  k7 <- lift (Json.dict_key a7) ;;
  a14 <- address_at 14 ;;
  k14 <- lift (Json.dict_key a14) ;;
  let recipients :=
    Json.setitem k14 (Json.Float 0.3)
      (Json.setitem k7 (Json.Float 0.2)
         (Json.setitem k3 (Json.Float 0.1) [])) in
  w <- faucet ;;
  _ <- call "sendmany" [Json.Str ""; Json.Dict recipients] (Some w) ;;
  bump_transactions_created ;;
  _mine_blocks 1 None ;;
  _mine_and_log 10 ;;
  _ <- call "getblockcount" [] None ;;
  ret tt.

Definition _phase_gap_limit_boundary : G unit :=
  _send_to_wallet 27 0.3 ;;
  _mine_blocks 3 None ;;
  _send_to_wallet 28 0.4 ;;
  _mine_blocks 3 None ;;
  _send_to_wallet 29 0.5 ;;
  _mine_blocks 3 None ;;
  _mine_and_log 10 ;;
  _ <- call "getblockcount" [] None ;;
  ret tt.

Definition _phase_beyond_gap_limit : G unit :=
  _send_to_wallet 32 0.6 ;;
  _mine_blocks 5 None ;;
  _send_to_wallet 35 0.7 ;;
  _mine_blocks 5 None ;;
  _mine_and_log 10 ;;
  _ <- call "getblockcount" [] None ;;
  ret tt.

(** [sorted(l, key=...)] on keys that are numbers: a stable insertion. *)
Fixpoint insert_by_key (x : Q * Json.value) (l : list (Q * Json.value))
  : list (Q * Json.value) :=
  match l with
  | [] => [x]
  | y :: rest =>
      if Qle_bool (fst y) (fst x) then y :: insert_by_key x rest
      else x :: y :: rest
  end.

Definition sorted_by_key (l : list (Q * Json.value)) : list (Q * Json.value) :=
  fold_left (fun acc x => insert_by_key x acc) l [].

Definition keyed_by_amount (u : Json.value) : G (Q * Json.value) :=
  a <- lift (Json.getitem u "amount") ;;
  q <- lift (Json.as_number a) ;;
  ret (q, u).

Definition raw_input (u : Json.value) : G Json.value :=
  txid <- lift (Json.getitem u "txid") ;;
  vout <- lift (Json.getitem u "vout") ;;
  ret (Json.Dict [("txid", txid); ("vout", vout)]).

(** The body of the consolidation [try] block of phase 5. *)
Definition consolidate : G unit :=
  wallet_utxos <- call "listunspent" [Json.Int 1; Json.Int 9999999; Json.List []]
                    (Some WALLET_NAME) ;;
  n <- lift (Json.len wallet_utxos) ;;
  if (n >=? 2)%Z then
    l <- lift (Json.as_list wallet_utxos) ;;
    keyed <- map_m keyed_by_amount l ;;
    let selected := map snd (firstn 2 (sorted_by_key keyed)) in
    amounts <- map_m (fun u => lift (Json.getitem u "amount")) selected ;;
    total_v <- lift (Json.sum amounts) ;;
    total <- lift (Json.as_number total_v) ;;
    let fee := 0.0001%Q in
    if Qle_bool total fee then ret tt
    else
      inputs <- map_m raw_input selected ;;
      dest <- call "getnewaddress" [] (Some WALLET_NAME) ;;
      key <- lift (Json.dict_key dest) ;;
      let outputs := Json.Dict [(key, Json.Float (Json.round8 (total - fee)))] in
      raw_tx <- call "createrawtransaction" [Json.List inputs; outputs] None ;;
      signed <- call "signrawtransactionwithwallet" [raw_tx] (Some WALLET_NAME) ;;
      complete <- lift (Json.get signed "complete" (Json.Bool false)) ;;
      if Json.truthy complete then
        hex <- lift (Json.getitem signed "hex") ;;
        _ <- call "sendrawtransaction" [hex] None ;;
        bump_transactions_created
      else ret tt
  else ret tt.

Definition _phase_transaction_variety : G unit :=
  _send_to_wallet 0 5.0 ;;
  _mine_blocks 1 None ;;
  w <- faucet ;;
  faucet_addr <- call "getnewaddress" [] (Some w) ;;
  try_except
    (_ <- call "sendtoaddress" [faucet_addr; Json.Float 1.0] (Some WALLET_NAME) ;;
     bump_transactions_created)
    CRPCError (fun _ => ret tt) ;;
  _mine_blocks 3 None ;;
  try_except consolidate CRPCError (fun _ => ret tt) ;;
  _mine_blocks 3 None ;;
  _mine_and_log 10 ;;
  _ <- call "getblockcount" [] None ;;
  ret tt.

(** *** Phase 6: bulk generation *)

(** The loop variables of [_phase_bulk_generation]. *)
Record bulk : Type := mk_bulk {
  current_height : Z;
  batch_boundaries : list Z;
  boundary_addr_index : Z;
  next_periodic_height : Z;
  periodic_counter : Z
}.

Definition periodic_interval : Z := 1000.
Definition periodic_addresses : list Z :=
  [1; 4; 6; 9; 10; 13; 16; 18; 21; 23; 25; 30; 33; 36; 38]%Z.
Definition periodic_amounts : list Q :=
  [0.02; 0.15; 0.5; 1.0; 0.001; 3.0; 0.08; 0.25; 0.75; 2.0; 0.005; 0.4; 1.5; 0.03; 0.1]%Q.
Definition batch_size : Z := 500.

(** [l[i % len(l)]]. *)
Definition rotating {A} (l : list A) (i : Z) (default : A) : A :=
  nth (Z.to_nat (i mod Z.of_nat (length l))) l default.

(** The first loop of an iteration: the nearest scheduled boundary above
    the current height, capped by the target. *)
Definition nearest_boundary (target cur : Z) (boundaries : list Z) : Z :=
  fold_left
    (fun next_important_height boundary =>
       if (boundary >? cur)%Z then Z.min next_important_height boundary
       else next_important_height)
    boundaries target.

Definition next_important_height (target cur : Z) (boundaries : list Z) : Z :=
  let mature_coinbase_start := (target - 200)%Z in
  let mature_coinbase_end := (target - 101)%Z in
  let immature_coinbase_start := (target - 99)%Z in
  let n0 := nearest_boundary target cur boundaries in
  let n1 := if (cur <? mature_coinbase_start)%Z && (mature_coinbase_start <? n0)%Z
            then mature_coinbase_start else n0 in
  let n2 := if (cur <? mature_coinbase_end)%Z && (mature_coinbase_end <? n1)%Z
            then mature_coinbase_end else n1 in
  if (cur <? immature_coinbase_start)%Z && (immature_coinbase_start <? n2)%Z
  then immature_coinbase_start else n2.

(** The body of [for boundary in list(batch_boundaries)]. *)
Definition place_boundary (boundary : Z) (b : bulk) : G bulk :=
  if (boundary <=? current_height b)%Z then
    b1 <- (if (boundary_addr_index b <? NUM_ADDRESSES)%Z then
             _send_to_wallet (boundary_addr_index b) 0.01 ;;
             _mine_blocks 1 None ;;
             ret (mk_bulk (current_height b + 1) (batch_boundaries b)
                    (boundary_addr_index b + 1) (next_periodic_height b)
                    (periodic_counter b))
           else ret b) ;;
    ret (mk_bulk (current_height b1) (Py.list_remove boundary (batch_boundaries b1))
           (boundary_addr_index b1) (next_periodic_height b1) (periodic_counter b1))
  else ret b.

(** "Place batch boundary transaction if we just passed one". *)
Definition place_boundaries (b : bulk) : G bulk :=
  for_each (batch_boundaries b) place_boundary b.

(** "Periodic send to test wallet". *)
Definition periodic_send (b : bulk) : G bulk :=
  if (current_height b >=? next_periodic_height b)%Z then
    let idx := rotating periodic_addresses (periodic_counter b) 0%Z in
    let amt := rotating periodic_amounts (periodic_counter b) 0%Q in
    cur <- try_except
             (_send_to_wallet idx amt ;;
              _mine_blocks 1 None ;;
              ret (current_height b + 1)%Z)
             CRPCError (fun _ => ret (current_height b)) ;;
    ret (mk_bulk cur (batch_boundaries b) (boundary_addr_index b)
           (cur + periodic_interval) (periodic_counter b + 1))
  else ret b.

(** [random.random() < 0.01]. *)
Definition draw : G bool :=
  fun e s => (Ok (random_below e (draws s)), set_draws (S (draws s)) s).

(** "Occasional faucet self-send for filter variety". *)
Definition occasional_self_send (b : bulk) : G bulk :=
  hit <- draw ;;
  if hit : bool then
    cur <- try_except
             (w <- faucet ;;
              faucet_addr <- call "getnewaddress" [] (Some w) ;;
              _ <- call "sendtoaddress" [faucet_addr; Json.Float 1.0] (Some w) ;;
              _mine_blocks 1 None ;;
              ret (current_height b + 1)%Z)
             CRPCError (fun _ => ret (current_height b)) ;;
    ret (mk_bulk cur (batch_boundaries b) (boundary_addr_index b)
           (next_periodic_height b) (periodic_counter b))
  else ret b.

Definition with_height (cur : Z) (b : bulk) : bulk :=
  mk_bulk cur (batch_boundaries b) (boundary_addr_index b)
    (next_periodic_height b) (periodic_counter b).

(** Mine [wallet_blocks] to the test wallet, then the rest up to [upto]
    to the faucet: the body shared by the two coinbase branches. *)
Definition coinbase_blocks (coinbase_wallet_addr : Json.value) (upto : Z) (b : bulk)
  : G bulk :=
  let cur := current_height b in
  let wallet_blocks := Z.min 5 (upto - cur) in
  _mine_blocks wallet_blocks (Some coinbase_wallet_addr) ;;
  add_coinbase_rewards wallet_blocks ;;
  let cur1 := (cur + wallet_blocks)%Z in
  let remaining := (upto - cur1)%Z in
  if (remaining >? 0)%Z then
    _mine_blocks remaining None ;;
    ret (with_height (cur1 + remaining) b)
  else ret (with_height cur1 b).

(** One pass of [while current_height < target]. *)
Definition bulk_iteration (target : Z) (coinbase_wallet_addr : Json.value) (b : bulk)
  : G bulk :=
  let cur := current_height b in
  let mature_coinbase_start := (target - 200)%Z in
  let mature_coinbase_end := (target - 101)%Z in
  let immature_coinbase_start := (target - 99)%Z in
  let blocks_to_mine :=
    Z.max (Z.min (next_important_height target cur (batch_boundaries b) - cur) batch_size) 1 in
  let batch_end := (cur + blocks_to_mine)%Z in
  if (mature_coinbase_start <=? cur)%Z && (cur <? mature_coinbase_end)%Z then
    coinbase_blocks coinbase_wallet_addr batch_end b
  else if (immature_coinbase_start <=? cur)%Z then
    coinbase_blocks coinbase_wallet_addr target b
  else
    _mine_blocks blocks_to_mine None ;;
    b1 <- place_boundaries (with_height (cur + blocks_to_mine) b) ;;
    b2 <- periodic_send b1 ;;
    occasional_self_send b2.

(** The [while] loop; [fuel] bounds the number of passes. *)
Fixpoint bulk_loop (fuel : nat) (target : Z) (coinbase_wallet_addr : Json.value)
    (b : bulk) : G bulk :=
  match fuel with
  | O => ret b
  | S k =>
      if (current_height b <? target)%Z then
        b1 <- bulk_iteration target coinbase_wallet_addr b ;;
        bulk_loop k target coinbase_wallet_addr b1
      else ret b
  end.

(** [_phase_bulk_generation] up to the end of its loop; [None] when the
    phase is skipped.  Every pass raises the height by at least one, so
    [blocks_remaining] passes are enough. *)
Definition bulk_generation_loop : G (option bulk) :=
  v <- call "getblockcount" [] None ;;
  current_height <- lift (Json.as_int v) ;;
  target <- gets (fun s => target_blocks (config s)) ;;
  let blocks_remaining := (target - current_height)%Z in
  if (blocks_remaining <=? 0)%Z then ret None
  else
    let batch_boundaries :=
      Boundaries._calculate_batch_boundaries current_height target in
    coinbase_wallet_addr <- address_at 0 ;;
    b <- bulk_loop (Z.to_nat blocks_remaining) target coinbase_wallet_addr
           (mk_bulk current_height batch_boundaries 40
              (current_height + periodic_interval) 0) ;;
    ret (Some b).

Definition _phase_bulk_generation : G unit :=
  r <- bulk_generation_loop ;;
  match r with
  | None => ret tt
  | Some _ =>
      target <- gets (fun s => target_blocks (config s)) ;;
      v <- call "getblockcount" [] None ;;
      actual <- lift (Json.as_int v) ;;
      if (actual >? target)%Z then ret tt
      else if (actual <? target)%Z then
        _mine_blocks (target - actual) None ;;
        _ <- call "getblockcount" [] None ;;
        ret tt
      else ret tt
  end.

Definition _generate_blocks : G unit :=
  v0 <- call "getblockcount" [] None ;;
  _phase_normal_activity ;;
  _phase_gap_limit_boundary ;;
  _phase_beyond_gap_limit ;;
  _phase_transaction_variety ;;
  _phase_bulk_generation ;;
  v1 <- call "getblockcount" [] None ;;
  final_height <- lift (Json.as_int v1) ;;
  current_height <- lift (Json.as_int v0) ;;
  set_blocks_generated (final_height - current_height).

(** *** Starting the node *)

Definition _ensure_dashd_running : G unit :=
  fun e s =>
    if negb (auto_start_dashd (config s)) then (Ok tt, s)
    else
      let c := config s in
      let m0 := DashdManager.__init__ (dashd_executable c) (rpc_port c)
                  (extra_dashd_args c) in
      let '(r, m1, w1) := DashdManager.start (os_env e) (keep_temp s) m0 (os s) in
      let s1 := set_os w1 (set_dashd_manager (Some m1) s) in
      match r with
      | Raise ex => (Raise ex, s1)
      | Ok (port, temp_dir) =>
          (Ok tt,
           set_config
             (mk_config (target_blocks c) (dashcli_path c) (dashd_executable c)
                (auto_start_dashd c) (Some temp_dir) (dashd_wallet c) (Some port)
                (output_base c) (extra_dashd_args c)) s1)
      end.

(** *** Export *)

(** A query or an action on the file system. *)
Definition fs_call (a : fs_action) : G bool :=
  fun e s =>
    let s1 := set_files (files s ++ [a])%list s in
    match fs e (files s) a with
    | Done => (Ok true, s1)
    | Answer b => (Ok b, s1)
    | Fails ex => (Raise ex, s1)
    end.

(** [Path(a) / b]. *)
Definition joinpath (a b : string) : string := a ++ "/" ++ b.

(** [collect_wallet_stats(self.rpc, wallet_name)]. *)
Definition collect_stats (name : string) : G WalletExport.wallet_stats :=
  fun e s =>
    match rpc s with
    | None =>
        (Raise (OtherException "AttributeError"
                  "'NoneType' object has no attribute 'call'"), s)
    | Some _ =>
        zoom node calls set_calls (WalletExport.collect_wallet_stats name) e s
    end.

(** One pass of the loop of [_collect_wallet_statistics]: the wallet at
    position [i] of [self.wallets] is updated in place. *)
Definition collect_into_wallet (i : nat) (_ : unit) : G unit :=
  ws <- gets wallets ;;
  match nth_error ws i with
  | None => ret tt
  | Some w =>
      st <- collect_stats (wallet_name w) ;;
      let m := if Json.truthy (WalletExport.mnemonic st)
               then WalletExport.mnemonic st else mnemonic w in
      let w1 := mk_wallet (wallet_name w) m (addresses w) (tier w)
                  (WalletExport.transactions st) (WalletExport.utxos st)
                  (WalletExport.balance st) in
      modify (fun s => set_wallets (<[i := w1]> (wallets s)) s)
  end.

Definition _collect_wallet_statistics : G unit :=
  ws <- gets wallets ;;
  for_each (seq 0 (length ws)) collect_into_wallet tt.

Definition output_dir_text (s : state) : string :=
  match output_dir s with
  | Some d => d
  | None => ""
  end.

Definition save_one_wallet (wallets_dir : string) (w : wallet) (_ : unit) : G unit :=
  _ <- fs_call (SaveWalletFile (joinpath wallets_dir (wallet_name w ++ ".json")) w) ;;
  ret tt.

Definition _save_wallet_files : G unit :=
  out <- gets output_dir_text ;;
  let wallets_dir := joinpath out "wallets" in
  _ <- fs_call (MkdirParents wallets_dir) ;;
  ws <- gets wallets ;;
  for_each ws (save_one_wallet wallets_dir) tt.

(** The look for one wallet directory in the copied data; its result is
    only printed. *)
Definition look_for_wallet_dir (regtest_dest : string) (w : wallet) (_ : unit)
  : G unit :=
  present <- fs_call (PathExists (joinpath regtest_dest (wallet_name w))) ;;
  if present : bool then
    _ <- fs_call (IsDir (joinpath regtest_dest (wallet_name w))) ;; ret tt
  else ret tt.

Definition _copy_dashd_datadir (output_dir : string) : G unit :=
  datadir <- gets (fun s => dashd_datadir (config s)) ;;
  match datadir with
  | None => ret tt
  | Some source_dir =>
      if String.eqb source_dir "" then ret tt
      else
        present <- fs_call (PathExists source_dir) ;;
        if negb present then ret tt
        else
          let regtest_source := joinpath source_dir "regtest" in
          has_regtest <- fs_call (PathExists regtest_source) ;;
          if has_regtest : bool then
            let regtest_dest := joinpath output_dir "regtest" in
            stale <- fs_call (PathExists regtest_dest) ;;
            (if stale : bool
             then _ <- fs_call (RmtreeStrict regtest_dest) ;; ret tt
             else ret tt) ;;
            _ <- fs_call (Copytree regtest_source regtest_dest) ;;
            ws <- gets wallets ;;
            for_each ws (look_for_wallet_dir regtest_dest) tt
          else ret tt
  end.

(** "Stop dashd process but don't cleanup temp dir yet": any [Exception]
    of [terminate] or [wait], a timeout included, is only reported. *)
Definition stop_for_copy : G unit :=
  fun e s =>
    match dashd_manager s with
    | None => (Ok tt, s)
    | Some m =>
        let s1 :=
          match DashdManager.process m with
          | None => s
          | Some pid =>
              let w1 := DashdManager.log (DashdManager.Terminate pid) (os s) in
              let w2 :=
                match DashdManager.stop_try (os_env e) with
                | DashdManager.Exited =>
                    DashdManager.set_dead pid
                      (DashdManager.log (DashdManager.WaitTimeout pid 10) w1)
                | DashdManager.TimedOut | DashdManager.WaitFailed =>
                    DashdManager.log (DashdManager.WaitTimeout pid 10) w1
                | DashdManager.TerminateFailed => w1
                end in
              set_os w2 (set_dashd_manager (Some (DashdManager.set_process None m)) s)
          end in
        bind (fs_call (Sleep 2)) (fun _ => ret tt) e s1
    end.

(** Remove the temporary directory when it is set and marked for cleanup;
    [clear] tells whether the reference is reset afterwards. *)
Definition remove_temp_dir (clear : bool) : G unit :=
  fun e s =>
    match dashd_manager s with
    | None => (Ok tt, s)
    | Some m =>
        match DashdManager.temp_dir m with
        | Some d =>
            if DashdManager.should_cleanup m then
              let w1 := DashdManager.log (DashdManager.Rmtree d) (os s) in
              let w2 := if DashdManager.rmtree_removes (os_env e)
                        then DashdManager.remove_tree d w1 else w1 in
              let m1 := if clear then DashdManager.set_temp_dir None m else m in
              (Ok tt, set_os w2 (set_dashd_manager (Some m1) s))
            else (Ok tt, s)
        | None => (Ok tt, s)
        end
    end.

Definition _export_data : G unit :=
  _ <- call "getblockcount" [] None ;;
  modify (fun s =>
    set_output_dir
      (Some (joinpath (output_base (config s))
               ("regtest-" ++ DashdManager.str_of_int (target_blocks (config s))))) s) ;;
  out <- gets output_dir_text ;;
  present <- fs_call (PathExists out) ;;
  (if present : bool then _ <- fs_call (RmtreeStrict out) ;; ret tt else ret tt) ;;
  _ <- fs_call (MkdirParents out) ;;
  _collect_wallet_statistics ;;
  _save_wallet_files ;;
  stop_for_copy ;;
  _copy_dashd_datadir out ;;
  remove_temp_dir true.

(** *** The workflow and its guard *)

(** The body of the [try] block of [generate]. *)
Definition workflow : G unit :=
  _ensure_dashd_running ;;
  _initialize_rpc_client ;;
  _verify_dashd ;;
  _load_addresses ;;
  _initialize_utxo_pool ;;
  _generate_blocks ;;
  _export_data.

(** The [finally] block of [generate]. *)
Definition cleanup : G unit :=
  fun e s =>
    match dashd_manager s with
    | None => (Ok tt, s)
    | Some m =>
        match DashdManager.process m with
        | Some _ =>
            let '(m1, w1) := DashdManager.stop (os_env e) m (os s) in
            (Ok tt, set_os w1 (set_dashd_manager (Some m1) s))
        | None => remove_temp_dir false e s
        end
    end.

(** [try: body  except KeyboardInterrupt: raise GeneratorError(...)
    finally: cleanup].  An interrupt that arrives as the [finally] block
    starts replaces whatever was on its way out. *)
Definition guarded (body : G unit) : G unit :=
  fun e s =>
    let '(r, s1) :=
      try_except body CKeyboardInterrupt
        (fun _ => raise (GeneratorError "User interrupted")) e s in
    if interrupt_in_cleanup e then (Raise KeyboardInterrupt, s1)
    else
      let '(_, s2) := cleanup e s1 in
      (r, s2).

Definition generate : G unit := guarded workflow.

(** *** The command line *)

(** The parsed arguments of [main]. *)
Record Args : Type := mk_args {
  blocks : Z;
  dashd_path : option string;
  no_auto_start : bool;
  arg_rpc_port : option Z;
  arg_keep_temp : bool;
  arg_output_dir : option string
}.

(** [str(Path(p).parent / name)] for a path without redundant slashes. *)
Fixpoint parent_of (p : string) : option string :=
  match p with
  | EmptyString => None
  | String c rest =>
      match parent_of rest with
      | Some d => Some (String c d)
      | None => if Ascii.eqb c "/" then Some EmptyString else None
      end
  end.

Definition sibling (p name : string) : string :=
  match parent_of p with
  | None => name                         (* parent is "." *)
  | Some d => d ++ "/" ++ name           (* parent "" stands for the root *)
  end.

(** The [try ... except] chain of [main] as an exit code; an exception
    that no clause catches ends the interpreter with code 1. *)
Definition exit_code (r : outcome unit) : Z :=
  match r with
  | Ok _ => 0
  | Raise ex =>
      if isinstance ex CConfigError then 1
      else if isinstance ex CDashdConnectionError then 2
      else if isinstance ex CInsufficientFundsError then 3
      else if isinstance ex CGeneratorError then 4
      else if isinstance ex CKeyboardInterrupt then 130
      else 1
  end%Z.

Definition config_of_args (script_dir : string) (a : Args) : Config :=
  let use_path := match dashd_path a with
                  | Some p => negb (String.eqb p "")
                  | None => false
                  end in
  let given := match dashd_path a with Some p => p | None => "" end in
  mk_config (blocks a)
    (if use_path then sibling given "dash-cli" else "dash-cli")
    (if use_path then given else "dashd")
    (negb (no_auto_start a))
    None
    "default"
    (arg_rpc_port a)
    (match arg_output_dir a with
     | Some d => if String.eqb d "" then joinpath script_dir "data" else d
     | None => joinpath script_dir "data"
     end)
    ["-blockfilterindex=1"; "-peerblockfilters=1"].

(** [main]: the exit code and, when the generator ran, its final state. *)
Definition main (script_dir : string) (a : Args) (e : env) (w : DashdManager.world)
  : Z * option state :=
  if (blocks a <? 120)%Z then (1%Z, None)
  else
    let '(r, s) := generate e (__init__ (config_of_args script_dir a) (arg_keep_temp a) w) in
    (exit_code r, Some s).

(** *** Properties stated about the engine *)

(** A computation that leaves the index-to-address mapping as it was,
    whether it returns or raises. *)
Definition keeps_addresses {A} (m : G A) : Prop :=
  forall e s, wallet_addresses (m e s).2 = wallet_addresses s.

(** The call [_send_to_wallet] makes for an address [a]. *)
Definition send_call (s : state) (a : Json.value) (amount : Q) : Rpc.call :=
  Rpc.mk_call "sendtoaddress" [a; Json.Float amount] (Some (dashd_wallet (config s))).

(** The calls of the wallet set-up. *)
Definition load_wallet_call (s : state) : Rpc.call :=
  Rpc.mk_call "loadwallet" [Json.Str (dashd_wallet (config s))] None.
Definition create_faucet_call (s : state) : Rpc.call :=
  Rpc.mk_call "createwallet" [Json.Str (dashd_wallet (config s))] None.
Definition create_wallet_call : Rpc.call :=
  Rpc.mk_call "createwallet" [Json.Str WALLET_NAME] None.

(** The state after one more call. *)
Definition called (c : Rpc.call) (s : state) : state :=
  set_calls (calls s ++ [c])%list s.

(** The call that pre-generates the address of index [i]. *)
Definition new_address_call (i : Z) : Rpc.call :=
  Rpc.mk_call "getnewaddress" [Json.Str ("addr_" ++ DashdManager.str_of_int i)]
    (Some WALLET_NAME).

(** The two calls of [_load_addresses] that precede the address loop. *)
Definition wallet_setup_calls : list Rpc.call :=
  [create_wallet_call; Rpc.mk_call "dumphdinfo" [] (Some WALLET_NAME)].

(** The call that mines one block to the faucet. *)
Definition mine_one_call (s : state) : Rpc.call :=
  Rpc.mk_call "generatetoaddress" [Json.Int 1; mining_address_arg s] None.

(** The calls of [k] boundary markers starting at address index [idx]:
    a send of 0.01 to the address stored at the index, then one block. *)
Definition marker_calls (s : state) (idx : Z) (k : nat) : list Rpc.call :=
  flat_map
    (fun i =>
       match wallet_addresses s !! i with
       | Some a => [send_call s a 0.01; mine_one_call s]
       | None => []
       end)
    (Py.range_from idx 1 k).

(** The state after [stats["transactions_created"] += 1]. *)
Definition bumped (s : state) : state :=
  set_stats (mk_counters (blocks_generated (stats s)) (transactions_created (stats s) + 1)
               (coinbase_rewards (stats s)) (utxo_replenishments (stats s))) s.

(** The state after one boundary marker to the address [a]. *)
Definition after_marker (a : Json.value) (s : state) : state :=
  called (mine_one_call s) (bumped (called (send_call s a 0.01) s)).

(** A node that answers every call. *)
Definition answering (e : env) : Prop :=
  forall log c, exists v, node e log c = Rpc.Returns v.

(** The marker sends (0.01 to the test wallet) among a list of calls. *)
Definition is_marker (c : Rpc.call) : bool :=
  String.eqb (Rpc.command c) "sendtoaddress" &&
  match Rpc.args c with
  | [_; Json.Float q] => Qeq_bool q 0.01
  | _ => false
  end.

Definition markers (l : list Rpc.call) : list Rpc.call := List.filter is_marker l.

(** *** A node and a world to run the engine against *)

Fixpoint mined (log : list Rpc.call) : Z :=
  match log with
  | [] => 0
  | c :: rest =>
      (if String.eqb (Rpc.command c) "generatetoaddress"
       then match Rpc.args c with
            | Json.Int n :: _ => n
            | _ => 0
            end
       else 0) + mined rest
  end%Z.

(** A node that starts at [start_height], counts the blocks it is asked to
    mine, hands out fresh addresses and accepts everything else. *)
Definition regtest_node (start_height : Z) : Rpc.node :=
  fun log c =>
    let cmd := Rpc.command c in
    if String.eqb cmd "getblockcount" then Rpc.Returns (Json.Int (start_height + mined log))
    else if String.eqb cmd "getnewaddress"
    then Rpc.Returns (Json.Str ("yAddr" ++ DashdManager.str_of_int (Z.of_nat (length log))))
    else if String.eqb cmd "dumphdinfo"
    then Rpc.Returns (Json.Dict [("mnemonic", Json.Str "abandon ability able about above absent absorb abstract absurd abuse access accident")])
    else if String.eqb cmd "listunspent" then Rpc.Returns (Json.List [])
    else if String.eqb cmd "listtransactions" then Rpc.Returns (Json.List [])
    else Rpc.Returns (Json.Str "0f3c").

Definition quiet_fs : list fs_action -> fs_action -> fs_answer :=
  fun _ a =>
    match a with
    | PathExists _ | IsDir _ => Answer false
    | _ => Done
    end.

(** A node on which both wallets are there already. *)
Definition node_with_wallets : Rpc.node :=
  fun log c =>
    if String.eqb (Rpc.command c) "loadwallet"
    then Rpc.Raises (RPCError "error code: -35 Wallet default is Already Loaded.")
    else if String.eqb (Rpc.command c) "createwallet"
    then Rpc.Raises (RPCError "error code: -4 Wallet wallet already exists.")
    else regtest_node 0 log c.

(** A node that refuses the wallet calls for another reason. *)
Definition node_refusing : Rpc.node :=
  fun log c =>
    if String.eqb (Rpc.command c) "loadwallet"
       || String.eqb (Rpc.command c) "createwallet"
    then Rpc.Raises (RPCError "error code: -18 Wallet file verification failed.")
    else regtest_node 0 log c.

(** No random self-send, no interrupt. *)
Definition quiet_env (nd : Rpc.node) : env :=
  mk_env nd (fun _ => false) DashdManager.env_ready quiet_fs false.

(** A generator after address pre-generation: a client, the faucet's
    mining address, and fifty addresses. *)
Definition test_addresses : gmap Z Json.value :=
  list_to_map (map (fun i => (i, Json.Str ("yTest" ++ DashdManager.str_of_int i)))
                 (Py.range 50)).

Definition prepared (target : Z) : state :=
  mk_state
    (mk_config target "dash-cli" "dashd" false None "default" None "/tmp/out" [])
    false None (Some (Rpc.mk_client "dash-cli" None None)) [] None
    (Some (Json.Str "yMining")) initial_stats test_addresses [] 0%nat
    DashdManager.world0 [].

(** *** The claims about phase 6 and about interrupts, as stated *)


(** A node that answers like [nd] for the first [n] calls and then lets a
    user interrupt through. *)
Definition interrupted_after (n : nat) (nd : Rpc.node) : Rpc.node :=
  fun log c => if (length log <? n)%nat then nd log c else Rpc.Raises KeyboardInterrupt.

(** The initial generator of [main]. *)
Definition initial (script_dir : string) (a : Args) (w : DashdManager.world) : state :=
  __init__ (config_of_args script_dir a) (arg_keep_temp a) w.

(** The exit code as claimed: an interrupt during the workflow ends the
    program with code 130. *)
Definition interrupt_exits_130 (script_dir : string) (a : Args) (e : env)
    (w : DashdManager.world) : Prop :=
  (workflow e (initial script_dir a w)).1 = Raise KeyboardInterrupt ->
  (main script_dir a e w).1 = 130%Z.

Definition sample_args : Args := mk_args 200 None true None false None.

(** A command line that starts the node itself. *)
Definition auto_start_args : Args := mk_args 200 None false None false None.

(** The world of a run whose node cannot be launched. *)
Definition env_no_launch : env :=
  mk_env (regtest_node 0) (fun _ => false) DashdManager.env_launch_fails quiet_fs false.

(** The world of a run whose node ignores the termination signal. *)
Definition env_stubborn_node : env :=
  mk_env (regtest_node 0) (fun _ => false) DashdManager.env_stubborn quiet_fs false.

(** The generator once that node has been started, and its manager. *)
Definition started : state :=
  (_ensure_dashd_running env_stubborn_node
     (initial "/repo" auto_start_args DashdManager.world0)).2.

Definition started_manager : DashdManager.t :=
  (DashdManager.start DashdManager.env_stubborn false
     (DashdManager.__init__ "dashd" None ["-blockfilterindex=1"; "-peerblockfilters=1"])
     DashdManager.world0).1.2.

(** *** Further properties stated about the engine *)

(** A computation that leaves an aspect [f] of the state as it was,
    whether it returns or raises. *)
Definition preserves {A B} (f : state -> B) (m : G A) : Prop :=
  forall e s, f (m e s).2 = f s.

(** What identifies a wallet record: its name, its pre-generated
    addresses and its role. *)
Definition identity (w : wallet) : string * list (Json.value * Z) * string :=
  (wallet_name w, addresses w, tier w).


(** What the export leaves alone. *)
Definition kept_by_export (s : state) :=
  (map identity (wallets s), stats s, config s, mining_address s,
   wallet_addresses s, rpc s, draws s, keep_temp s).



(** A generator with a client and the fifty addresses loaded. *)
Definition ready (s : state) : Prop :=
  rpc s <> None /\ forall i, 0 <= i < 50 -> is_Some (wallet_addresses s !! i).






End Generate.
(* ------------------------------------------------------------------ *)
(** *** Facts about [range] and the scheduler *)
(* ------------------------------------------------------------------ *)

Section RangeFacts.

Lemma range_from_In start step n x :
  In x (Py.range_from start step n) <->
  exists k, 0 <= k < Z.of_nat n /\ x = start + step * k.
Proof.
  revert start. induction n as [|n IH]; intros start; simpl.
  - split; [tauto | intros (k & Hk & _); lia].
  - rewrite IH. split.
    + intros [<- | (k & Hk & ->)].
      * exists 0. lia.
      * exists (k + 1). lia.
    + intros (k & Hk & ->).
      destruct (Z.eq_dec k 0) as [-> | Hne].
      * left. lia.
      * right. exists (k - 1). lia.
Qed.

Lemma range_from_spaced start step n :
  Boundaries.spaced step (Py.range_from start step n).
Proof.
  revert start. induction n as [|n IH]; intros start; simpl.
  - constructor.
  - destruct n as [|n]; simpl.
    + constructor.
    + constructor; [reflexivity | apply (IH (start + step))].
Qed.

Lemma range3_In start stop step x :
  0 < step ->
  In x (Py.range3 start stop step) <->
  exists k, 0 <= k /\ x = start + step * k /\ x < stop.
Proof.
  intros Hstep. unfold Py.range3. rewrite range_from_In.
  set (q := (stop - start + step - 1) / step).
  assert (Hq : step * q <= stop - start + step - 1 < step * (q + 1)).
  { unfold q. pose proof (Z.mul_div_le (stop - start + step - 1) step Hstep).
    pose proof (Z.mul_succ_div_gt (stop - start + step - 1) step Hstep). lia. }
  split.
  - intros (k & Hk & ->). exists k. repeat split; try lia.
    assert (k < q) by lia. nia.
  - intros (k & Hk & -> & Hlt). exists k. split; [|reflexivity].
    split; [lia|].
    assert (k < q) by nia. lia.
Qed.

End RangeFacts.

Section SchedulerFacts.

Import Boundaries.

Variables current_height target : Z.

Lemma fold_boundary_step l acc :
  fold_left (boundary_step current_height target) l acc =
  acc ++ List.filter (keep current_height target) (map (fun b => b - 1) l).
Proof.
  revert acc. induction l as [|b l IH]; intros acc; simpl.
  - now rewrite app_nil_r.
  - rewrite IH. unfold boundary_step, keep.
    destruct ((b - 1 >? current_height) && (b - 1 <? target)); simpl.
    + now rewrite <- app_assoc.
    + reflexivity.
Qed.

Lemma map_pred_range_from start step n :
  map (fun b => b - 1) (Py.range_from start step n) =
  Py.range_from (start - 1) step n.
Proof.
  revert start. induction n as [|n IH]; intros start; simpl; [reflexivity|].
  rewrite IH. do 2 f_equal. lia.
Qed.

(** The scheduler as a filter over the shifted range. *)
Lemma calculate_batch_boundaries_filter :
  _calculate_batch_boundaries current_height target =
  List.filter (keep current_height target)
    (map (fun b => b - 1)
       (Py.range3 ((current_height / 5000 + 1) * 5000) (target + 1) 5000)).
Proof. unfold _calculate_batch_boundaries. now rewrite fold_boundary_step. Qed.

Lemma spaced_tail d x l : spaced d (x :: l) -> spaced d l.
Proof. inversion 1; subst; [constructor | assumption]. Qed.

Lemma spaced_lower_bound d x l y :
  0 < d -> spaced d (x :: l) -> In y l -> x + d <= y.
Proof.
  intros Hd. revert x. induction l as [|z l IH]; intros x Hs Hy; [destruct Hy|].
  inversion Hs; subst. destruct Hy as [<- | Hy]; [lia|].
  specialize (IH (x + d) H3 Hy). lia.
Qed.

Lemma filter_all_false {A} (p : A -> bool) l :
  (forall x, In x l -> p x = false) -> List.filter p l = [].
Proof.
  induction l as [|a l IH]; intros H; simpl; [reflexivity|].
  rewrite (H a (or_introl eq_refl)). apply IH. intros x Hx. apply H. now right.
Qed.

(** Filtering an evenly spaced list by an open interval keeps a
    contiguous run of it, so the spacing survives. *)
Lemma filter_interval_spaced d l :
  0 < d -> spaced d l ->
  spaced d (List.filter (keep current_height target) l).
Proof.
  intros Hd. induction l as [|x l IH]; intros Hs; simpl; [constructor|].
  pose proof (IH (spaced_tail _ _ _ Hs)) as IHl.
  destruct (keep current_height target x) eqn:Hx; [|exact IHl].
  destruct l as [|y l]; simpl in *; [constructor|].
  inversion Hs; subst.
  destruct (keep current_height target (x + d)) eqn:Hy.
  - constructor; [reflexivity | exact IHl].
  - rewrite filter_all_false; [constructor|].
    intros z Hz. pose proof (spaced_lower_bound d (x + d) l z Hd H3 Hz).
    unfold keep in *.
    apply andb_true_iff in Hx. destruct Hx as [Hx1 Hx2].
    apply andb_false_iff in Hy. apply andb_false_iff.
    destruct Hy as [Hy | Hy]; [lia | right; lia].
Qed.

Lemma spaced_increasing d l : 0 < d -> spaced d l -> increasing l.
Proof.
  intros Hd. induction 1; constructor; [lia | assumption].
Qed.

(** Membership: exactly the heights of the form [5000 * j - 1] strictly
    between the two arguments. *)
Lemma calculate_batch_boundaries_In h :
  In h (_calculate_batch_boundaries current_height target) <->
  current_height < h < target /\ before_multiple h.
Proof.
  rewrite calculate_batch_boundaries_filter, filter_In, in_map_iff.
  unfold keep, before_multiple. rewrite andb_true_iff.
  pose proof (Z.div_mod current_height 5000 ltac:(lia)) as Hdm.
  pose proof (Z.mod_pos_bound current_height 5000 ltac:(lia)) as Hmb.
  split.
  - intros ((b & <- & Hb) & Hk). split; [lia|].
    apply range3_In in Hb; [|lia]. destruct Hb as (k & _ & -> & _).
    replace ((current_height / 5000 + 1) * 5000 + 5000 * k - 1 + 1)
      with ((current_height / 5000 + 1 + k) * 5000) by lia.
    apply Z.mod_mul. lia.
  - intros (Hlt & Hm). split; [|lia].
    exists (h + 1). split; [lia|].
    apply range3_In; [lia|].
    apply Z.mod_divide in Hm; [|lia]. destruct Hm as (j & Hj).
    exists (j - (current_height / 5000 + 1)). split; [nia | split; lia].
Qed.

Lemma calculate_batch_boundaries_spaced :
  spaced 5000 (_calculate_batch_boundaries current_height target).
Proof.
  rewrite calculate_batch_boundaries_filter. unfold Py.range3.
  rewrite map_pred_range_from.
  apply filter_interval_spaced; [lia | apply range_from_spaced].
Qed.

End SchedulerFacts.

(** C1. For [target > current_height] the scheduler returns a strictly
    increasing list; every returned height lies strictly between
    [current_height] and [target] and is one less than a multiple of 5000;
    consecutive returned heights differ by exactly 5000; and the list is
    empty when no height of that form lies in the open interval. *)
Theorem calculate_batch_boundaries_spec (current_height target : Z) :
  target > current_height ->
  let bs := Boundaries._calculate_batch_boundaries current_height target in
  Boundaries.increasing bs /\
  (forall h, In h bs -> current_height < h < target) /\
  (forall h, In h bs -> Boundaries.before_multiple h) /\
  Boundaries.spaced 5000 bs /\
  ((forall h, current_height < h < target -> ~ Boundaries.before_multiple h) ->
   bs = []).
Proof.
  intros _ bs. subst bs.
  pose proof (calculate_batch_boundaries_spaced current_height target) as Hs.
  split; [|split; [|split; [|split]]].
  - apply (spaced_increasing 5000); [lia | exact Hs].
  - intros h Hin. apply calculate_batch_boundaries_In in Hin. tauto.
  - intros h Hin. apply calculate_batch_boundaries_In in Hin. tauto.
  - exact Hs.
  - intros Hnone.
    destruct (Boundaries._calculate_batch_boundaries current_height target)
      as [|h l] eqn:E; [reflexivity|].
    assert (Hin : In h (Boundaries._calculate_batch_boundaries current_height target))
      by (rewrite E; now left).
    apply calculate_batch_boundaries_In in Hin. destruct Hin as [Hi Hm].
    destruct (Hnone h Hi Hm).
Qed.

Lemma calculate_batch_boundaries_spec_witness :
  40000 > 200 /\
  let bs := Boundaries._calculate_batch_boundaries 200 40000 in
  Boundaries.increasing bs /\
  (forall h, In h bs -> 200 < h < 40000) /\
  (forall h, In h bs -> Boundaries.before_multiple h) /\
  Boundaries.spaced 5000 bs /\
  ((forall h, 200 < h < 40000 -> ~ Boundaries.before_multiple h) -> bs = []).
Proof.
  split; [lia | apply (calculate_batch_boundaries_spec 200 40000); lia].
Defined.

(** C2. The worked examples of the scheduler. *)
Theorem calculate_batch_boundaries_examples :
  Boundaries._calculate_batch_boundaries 200 40000 =
    [4999; 9999; 14999; 19999; 24999; 29999; 34999; 39999] /\
  length (Boundaries._calculate_batch_boundaries 200 40000) = 8%nat /\
  hd_error (Boundaries._calculate_batch_boundaries 200 40000) = Some 4999 /\
  last (Boundaries._calculate_batch_boundaries 200 40000) = Some 39999 /\
  Boundaries._calculate_batch_boundaries 200 10000 = [4999; 9999] /\
  Boundaries._calculate_batch_boundaries 200 1000 = [] /\
  Boundaries._calculate_batch_boundaries 5000 15000 = [9999; 14999].
Proof. repeat split; vm_compute; reflexivity. Qed.


(* ------------------------------------------------------------------ *)
(** *** Facts about the process lifecycle manager *)
(* ------------------------------------------------------------------ *)

Section ManagerFacts.

Import Errors DashdManager.

Lemma stop_process_cleared e m w : process (stop e m w).1 = None.
Proof.
  unfold stop. destruct m as [ex rp ea ap pp td pr sc]; simpl.
  destruct pr; simpl; destruct td; simpl; try reflexivity; destruct sc; reflexivity.
Qed.

(** A handle with no process and nothing to clean up is left alone. *)
Lemma stop_nothing_to_do e m w :
  process m = None ->
  (temp_dir m = None \/ should_cleanup m = false) ->
  stop e m w = (m, w).
Proof.
  intros Hp Ht. unfold stop. rewrite Hp.
  destruct (temp_dir m) eqn:Etd; [|reflexivity].
  destruct Ht as [Ht | Ht]; [discriminate | now rewrite Ht].
Qed.

Lemma stop_settled e m w :
  process (stop e m w).1 = None /\
  (temp_dir (stop e m w).1 = None \/ should_cleanup (stop e m w).1 = false).
Proof.
  split; [apply stop_process_cleared|].
  unfold stop. destruct m as [ex rp ea ap pp td pr sc]; simpl.
  destruct pr, td, sc; simpl; auto.
Qed.

Lemma beneath_refl d : beneath d d = true.
Proof. unfold beneath. now rewrite String.eqb_refl. Qed.

Lemma remove_tree_gone d w : d ∉ dirs (remove_tree d w).
Proof.
  unfold remove_tree; simpl. rewrite elem_of_filter.
  intros [Hb _]. rewrite beneath_refl in Hb. discriminate.
Qed.

Lemma stop_removes_dir e m w d :
  temp_dir m = Some d -> should_cleanup m = true ->
  In (Rmtree d) (trace (stop e m w).2) /\
  (rmtree_removes e = true -> d ∉ dirs (stop e m w).2).
Proof.
  intros Htd Hsc. unfold stop.
  destruct m as [ex rp ea ap pp td pr sc]; simpl in *. subst td sc.
  destruct pr; simpl.
  - split.
    + destruct (rmtree_removes e); simpl; apply in_or_app; right; now left.
    + intros ->. apply remove_tree_gone.
  - split.
    + destruct (rmtree_removes e); simpl; apply in_or_app; right; now left.
    + intros ->. apply remove_tree_gone.
Qed.

Lemma stop_kills e m w pid :
  process m = Some pid ->
  stop_try e = Exited \/ stop_try e = TimedOut ->
  pid ∉ live (stop e m w).2.
Proof.
  intros Hp Hs. unfold stop. rewrite Hp.
  assert (Hdead : forall L : gset Z, pid ∉ L ∖ {[pid]}).
  { intros L Hin. apply elem_of_difference in Hin as [_ Hn].
    apply Hn, elem_of_singleton. reflexivity. }
  destruct Hs as [-> | ->]; simpl;
    destruct (temp_dir m); simpl; try apply Hdead;
    destruct (should_cleanup m); simpl; try apply Hdead;
    destruct (rmtree_removes e); simpl; apply Hdead.
Qed.

End ManagerFacts.

(** C4. [stop] is idempotent: a second call after a completed one changes
    neither the handle nor the world; a call on a manager that was never
    started changes nothing; after [stop] the handle tracks no process, and
    with cleanup enabled the directory reference is cleared, the removal of
    the directory has been issued, and the directory is gone once the
    operating system has carried the removal out; a process that exited or
    was killed is no longer alive. *)
Theorem stop_idempotent (e1 e2 : DashdManager.os_env)
    (m : DashdManager.t) (w : DashdManager.world) :
  let m1 := (DashdManager.stop e1 m w).1 in
  let w1 := (DashdManager.stop e1 m w).2 in
  DashdManager.stop e2 m1 w1 = (m1, w1) /\
  (forall exe port args w0,
     DashdManager.stop e1 (DashdManager.__init__ exe port args) w0 =
     (DashdManager.__init__ exe port args, w0)) /\
  DashdManager.process m1 = None /\
  (DashdManager.should_cleanup m = true -> DashdManager.temp_dir m1 = None) /\
  (forall d, DashdManager.temp_dir m = Some d ->
             DashdManager.should_cleanup m = true ->
             In (DashdManager.Rmtree d) (DashdManager.trace w1) /\
             (DashdManager.rmtree_removes e1 = true -> d ∉ DashdManager.dirs w1)) /\
  (forall pid, DashdManager.process m = Some pid ->
               DashdManager.stop_try e1 = DashdManager.Exited \/
               DashdManager.stop_try e1 = DashdManager.TimedOut ->
               pid ∉ DashdManager.live w1).
Proof.
  intros m1 w1. subst m1 w1.
  destruct (stop_settled e1 m w) as [Hp Ht].
  split; [|split; [|split; [|split; [|split]]]].
  - now apply stop_nothing_to_do.
  - intros exe port args w0. apply stop_nothing_to_do; simpl; auto.
  - exact Hp.
  - intros Hsc. destruct Ht as [Ht | Ht]; [exact Ht|].
    exfalso. revert Ht Hsc. unfold DashdManager.stop.
    destruct m as [ex rp ea ap pp td pr sc]; simpl.
    destruct pr, td, sc; simpl; congruence.
  - intros d Htd Hsc. now apply stop_removes_dir.
  - intros pid Hpid Hs. now apply stop_kills.
Qed.

(** C5. With an executable that is absent or not executable, [start]
    raises the manager's start-up error (class [DashdConnectionError])
    and leaves the handle and the world exactly as they were: no port is
    probed, no directory created, no process launched, nothing removed,
    and the directory reference of a fresh handle stays unset. *)
Theorem start_unreachable_executable (e : DashdManager.os_env) (keep_temp : bool)
    (m : DashdManager.t) (w : DashdManager.world) :
  DashdManager.verify_dashd_executable e m = false ->
  (exists msg, DashdManager.start e keep_temp m w =
               (Errors.Raise (Errors.DashdConnectionError msg), m, w)) /\
  DashdManager.trace (DashdManager.start e keep_temp m w).2 = DashdManager.trace w /\
  DashdManager.dirs (DashdManager.start e keep_temp m w).2 = DashdManager.dirs w /\
  DashdManager.live (DashdManager.start e keep_temp m w).2 = DashdManager.live w /\
  DashdManager.temp_dir (DashdManager.start e keep_temp m w).1.2 = DashdManager.temp_dir m /\
  DashdManager.process (DashdManager.start e keep_temp m w).1.2 = DashdManager.process m.
Proof.
  intros Hv. unfold DashdManager.start. rewrite Hv. simpl.
  split; [eexists; reflexivity | repeat split].
Qed.

Lemma start_unreachable_executable_witness :
  DashdManager.verify_dashd_executable DashdManager.env_missing
    (DashdManager.__init__ "/nonexistent/dashd" None []) = false /\
  DashdManager.temp_dir
    (DashdManager.start DashdManager.env_missing false
       (DashdManager.__init__ "/nonexistent/dashd" None [])
       DashdManager.world0).1.2 = None.
Proof.
  split; [reflexivity|].
  exact (proj1 (proj2 (proj2 (proj2 (proj2
    (start_unreachable_executable DashdManager.env_missing false
       (DashdManager.__init__ "/nonexistent/dashd" None [])
       DashdManager.world0 eq_refl)))))).
Defined.

Section ReadinessFacts.

Import Errors DashdManager.

(** Passes in which the process is alive and silent only add their three
    calls to the trace. *)
Lemma wait_loop_idle m pid pre rest w :
  process m = Some pid -> Forall waiting pre ->
  wait_loop m (pre ++ rest) w = wait_loop m rest (idle_rounds m pid (length pre) w).
Proof.
  intros Hp Hpre. revert w.
  induction Hpre as [|o pre (Ht & Hpoll & Hrpc) _ IH]; intros w; [reflexivity|].
  simpl. rewrite Ht, Hp, Hpoll. simpl.
  destruct (rpc_error o); [|contradiction]. apply IH.
Qed.

(** A pass that finds the process gone ends the loop at once. *)
Lemma wait_loop_exit m pid o rest w code :
  process m = Some pid -> in_time o = true -> poll o = Some code ->
  wait_loop m (o :: rest) w =
  (false, log (ReadStderr pid) (set_dead pid (log (Poll pid) w))).
Proof. intros Hp Ht Hpoll. simpl. now rewrite Ht, Hp, Hpoll. Qed.

(** A pass whose clock test fails ends the loop as well. *)
Lemma wait_loop_expired m o rest w :
  in_time o = false -> wait_loop m (o :: rest) w = (false, w).
Proof. intros Ht. simpl. now rewrite Ht. Qed.

Lemma find_free_port_first e s w :
  port_in_range s = true -> port_free e s = true ->
  find_free_port e s 20 w = (Ok s, log (ProbePort s) w).
Proof.
  intros Hr Hf. unfold find_free_port, Py.range3.
  replace ((s + 20 - s + 1 - 1) / 1) with 20 by (rewrite Z.div_1_r; lia).
  simpl. unfold is_port_available. now rewrite Hr, Hf.
Qed.

(** Once both ports are found, [start] goes on to the launch. *)
Lemma start_reaches_launch e keep_temp m w actual p2p w1 w2 :
  verify_dashd_executable e m = true ->
  resolve_rpc_port e m w = (Ok actual, w1) ->
  find_free_port e (actual + 1) 20 w1 = (Ok p2p, w2) ->
  start e keep_temp m w =
  launch e keep_temp actual p2p
    (set_p2p_port (Some p2p) (set_actual_port (Some actual) m)) w2.
Proof.
  intros Hv Hrpc Hp2p. unfold start. rewrite Hv. simpl. now rewrite Hrpc, Hp2p.
Qed.

(** With free ports and a requested port that leaves room for the peer
    port, both ports are found. *)
Lemma ports_found e m w :
  (forall p, port_free e p = true) ->
  match requested_port m with
  | Some port => 0 <= port < 65535
  | None => True
  end ->
  exists actual w1 p2p w2,
    resolve_rpc_port e m w = (Ok actual, w1) /\
    find_free_port e (actual + 1) 20 w1 = (Ok p2p, w2).
Proof.
  intros Hfree Hreq.
  assert (Hrpc : exists actual w1,
             resolve_rpc_port e m w = (Ok actual, w1) /\ 0 < actual < 65535).
  { unfold resolve_rpc_port. destruct (requested_port m) as [port|].
    - destruct (Z.eqb_spec port 0).
      + rewrite find_free_port_first by (auto; reflexivity).
        eexists. eexists. split; [reflexivity | lia].
      + unfold is_port_available, port_in_range.
        destruct (Z.leb_spec 0 port); [|lia].
        destruct (Z.leb_spec port 65535); [|lia]. simpl. rewrite Hfree.
        eexists. eexists. split; [reflexivity | lia].
    - rewrite find_free_port_first by (auto; reflexivity).
      eexists. eexists. split; [reflexivity | lia]. }
  destruct Hrpc as (actual & w1 & Hrpc & Hact).
  exists actual, w1, (actual + 1), (log (ProbePort (actual + 1)) w1).
  split; [exact Hrpc|]. apply find_free_port_first; [|apply Hfree].
  unfold port_in_range.
  destruct (Z.leb_spec 0 (actual + 1)); [|lia].
  destruct (Z.leb_spec (actual + 1) 65535); [reflexivity | lia].
Qed.

(** Whenever the readiness wait of a launched process answers [False],
    [start] raises one and the same error. *)
Lemma launch_not_ready e keep_temp actual p2p m w pid :
  popen e = Launched pid ->
  (forall m' w', process m' = Some pid -> (_wait_for_ready e m' w').1 = false) ->
  (launch e keep_temp actual p2p m w).1.1 = Raise not_ready_error /\
  process (launch e keep_temp actual p2p m w).1.2 = None.
Proof.
  intros Hpo Hw. unfold launch. rewrite Hpo.
  match goal with |- context [_wait_for_ready e ?m2 ?w4] =>
    pose proof (Hw m2 w4 eq_refl) as Hr;
    destruct (_wait_for_ready e m2 w4) as [r w5] eqn:E end.
  simpl in Hr. subst r.
  match goal with |- context [stop e ?m2 ?w5] =>
    pose proof (stop_process_cleared e m2 w5) as Hs;
    destruct (stop e m2 w5) as [m3 w6] end.
  simpl in *. auto.
Qed.

End ReadinessFacts.

(** C6 (as the code has it). The readiness poll checks the process at the
    start of every pass: when a pass finds that the process has exited,
    [_wait_for_ready] answers [False] in that very pass, after reading the
    error stream, with no further liveness call and no further sleep, however
    many passes the clock would still allow.  When [start] has found its two
    ports and launched the process, it then stops the handle and raises the
    same [DashdConnectionError] as it raises when the clock runs out; the
    error is a fixed message and does not depend on the captured error
    output.  (A port outside 0..65535 makes the port search raise
    [OverflowError] before anything is launched; then no port is found.) *)
Theorem start_early_exit_fails_fast (e : DashdManager.os_env) (keep_temp : bool)
    (m : DashdManager.t) (w w1 w2 : DashdManager.world) (actual p2p pid code : Z)
    (pre rest : list DashdManager.observation) (o : DashdManager.observation) :
  DashdManager.verify_dashd_executable e m = true ->
  DashdManager.resolve_rpc_port e m w = (Errors.Ok actual, w1) ->
  DashdManager.find_free_port e (actual + 1) 20 w1 = (Errors.Ok p2p, w2) ->
  DashdManager.popen e = DashdManager.Launched pid ->
  DashdManager.ready e = pre ++ o :: rest ->
  Forall DashdManager.waiting pre ->
  DashdManager.in_time o = true ->
  DashdManager.poll o = Some code ->
  (forall m' w', DashdManager.process m' = Some pid ->
     DashdManager._wait_for_ready e m' w' =
     (false,
      DashdManager.log (DashdManager.ReadStderr pid)
        (DashdManager.set_dead pid
           (DashdManager.log (DashdManager.Poll pid)
              (DashdManager.idle_rounds m' pid (length pre) w'))))) /\
  (DashdManager.start e keep_temp m w).1.1 =
    Errors.Raise DashdManager.not_ready_error /\
  DashdManager.process (DashdManager.start e keep_temp m w).1.2 = None /\
  (forall e' pre' o' rest' actual' p2p' w1' w2',
     DashdManager.verify_dashd_executable e' m = true ->
     DashdManager.resolve_rpc_port e' m w = (Errors.Ok actual', w1') ->
     DashdManager.find_free_port e' (actual' + 1) 20 w1' = (Errors.Ok p2p', w2') ->
     DashdManager.popen e' = DashdManager.Launched pid ->
     DashdManager.ready e' = pre' ++ o' :: rest' ->
     Forall DashdManager.waiting pre' ->
     DashdManager.in_time o' = false ->
     (DashdManager.start e' keep_temp m w).1.1 = (DashdManager.start e keep_temp m w).1.1).
Proof.
  intros Hv Hrpc Hp2p Hpo Hready Hpre Ht Hpoll.
  assert (Hwait : forall m' w', DashdManager.process m' = Some pid ->
     DashdManager._wait_for_ready e m' w' =
     (false,
      DashdManager.log (DashdManager.ReadStderr pid)
        (DashdManager.set_dead pid
           (DashdManager.log (DashdManager.Poll pid)
              (DashdManager.idle_rounds m' pid (length pre) w'))))).
  { intros m' w' Hp. unfold DashdManager._wait_for_ready. rewrite Hready.
    rewrite (wait_loop_idle m' pid pre _ w' Hp Hpre).
    now apply (wait_loop_exit m' pid o rest _ code). }
  assert (Hstart : (DashdManager.start e keep_temp m w).1.1 =
                   Errors.Raise DashdManager.not_ready_error /\
                   DashdManager.process (DashdManager.start e keep_temp m w).1.2 = None).
  { rewrite (start_reaches_launch e keep_temp m w actual p2p w1 w2 Hv Hrpc Hp2p).
    apply (launch_not_ready e keep_temp actual p2p _ w2 pid Hpo).
    intros m' w' Hp. now rewrite Hwait. }
  split; [exact Hwait | split; [apply Hstart | split; [apply Hstart|]]].
  intros e' pre' o' rest' actual' p2p' w1' w2' Hv' Hrpc' Hp2p' Hpo' Hready' Hpre' Ht'.
  rewrite (proj1 Hstart).
  rewrite (start_reaches_launch e' keep_temp m w actual' p2p' w1' w2' Hv' Hrpc' Hp2p').
  apply (launch_not_ready e' keep_temp actual' p2p' _ w2' pid Hpo').
  intros m' w' Hp. unfold DashdManager._wait_for_ready. rewrite Hready'.
  rewrite (wait_loop_idle m' pid pre' _ w' Hp Hpre').
  now rewrite wait_loop_expired.
Qed.

Lemma start_early_exit_fails_fast_witness :
  DashdManager.ready DashdManager.env_early_exit =
    [DashdManager.busy] ++ DashdManager.died :: [DashdManager.busy; DashdManager.busy] /\
  (DashdManager.start DashdManager.env_early_exit false
     DashdManager.fresh DashdManager.world0).1.1 =
  Errors.Raise DashdManager.not_ready_error.
Proof.
  split; [reflexivity|].
  refine (proj1 (proj2 (start_early_exit_fails_fast DashdManager.env_early_exit false
    DashdManager.fresh DashdManager.world0
    (DashdManager.log (DashdManager.ProbePort 19998) DashdManager.world0)
    (DashdManager.log (DashdManager.ProbePort 19999)
       (DashdManager.log (DashdManager.ProbePort 19998) DashdManager.world0))
    19998 19999 4242 1
    [DashdManager.busy] [DashdManager.busy; DashdManager.busy] DashdManager.died
    eq_refl eq_refl eq_refl eq_refl eq_refl _ eq_refl eq_refl))).
  constructor; [|constructor].
  split; [reflexivity | split; [reflexivity | discriminate]].
Defined.

(** C6, as stated, fails: after an early exit with output on the error
    stream, [start] raises exactly the error it raises after a timeout. *)
Lemma early_exit_not_reported_distinctly :
  ~ DashdManager.reports_exit_distinctly
      DashdManager.env_early_exit DashdManager.env_timeout
      DashdManager.fresh DashdManager.world0.
Proof.
  unfold DashdManager.reports_exit_distinctly. intros H. apply H.
  vm_compute. reflexivity.
Qed.

(** The early exit on the same scenario: one idle pass, then the loop ends
    in the second pass although two more passes were within the time limit. *)
Example early_exit_trace :
  DashdManager.trace
    (DashdManager.start DashdManager.env_early_exit false
       DashdManager.fresh DashdManager.world0).2 =
  [ DashdManager.ProbePort 19998; DashdManager.ProbePort 19999;
    DashdManager.Mkdtemp "/tmp/dash-testdata-k3";
    DashdManager.Mkdir "/tmp/dash-testdata-k3/regtest";
    DashdManager.Popen
      (DashdManager.dashd_command DashdManager.fresh "/tmp/dash-testdata-k3" 19999 19998)
      "/tmp/dash-testdata-k3";
    DashdManager.AtexitRegisterStop;
    DashdManager.Poll 4242;
    DashdManager.RpcGetblockcount (Some "/tmp/dash-testdata-k3") (Some 19998);
    DashdManager.SleepHalfSecond;
    DashdManager.Poll 4242;
    DashdManager.ReadStderr 4242;
    DashdManager.Terminate 4242;
    DashdManager.WaitTimeout 4242 10;
    DashdManager.Rmtree "/tmp/dash-testdata-k3" ].
Proof. vm_compute. reflexivity. Qed.

(* ------------------------------------------------------------------ *)
(** *** Facts about the wallet statistics *)
(* ------------------------------------------------------------------ *)

Section WalletExportFacts.

Import Errors Run Rpc WalletExport.

(** Pure steps leave the call log alone. *)
Lemma lift_run {A} (o : outcome A) (nd : node) (log : list call) :
  lift o nd log = (o, log).
Proof. reflexivity. Qed.

Lemma bind_run {E S A B} (m : M E S A) (k : A -> M E S B) e s :
  bind m k e s =
  match m e s with
  | (Ok a, s1) => k a e s1
  | (Raise ex, s1) => (Raise ex, s1)
  end.
Proof. reflexivity. Qed.

(** Building the entry of one UTXO makes no call, and the entry carries
    the [amount] of the UTXO it was built from. *)
Lemma utxo_entry_amount u nd log d log' :
  utxo_entry u nd log = (Ok d, log') ->
  log' = log /\
  exists a, Json.getitem u "amount" = Ok a /\ Json.getitem d "amount" = Ok a.
Proof.
  unfold utxo_entry, bind, lift, ret.
  destruct (Json.getitem u "txid"); [|discriminate].
  destruct (Json.getitem u "vout"); [|discriminate].
  destruct (Json.get u "address" Json.Null); [|discriminate].
  destruct (Json.getitem u "amount") as [amt|]; [|discriminate].
  destruct (Json.get u "confirmations" (Json.Int 0)); [|discriminate].
  intros H. inversion H; subst. split; [reflexivity|].
  exists amt. split; reflexivity.
Qed.

Lemma utxo_entry_log u nd log r log' :
  utxo_entry u nd log = (r, log') -> log' = log.
Proof.
  unfold utxo_entry, bind, lift, ret.
  destruct (Json.getitem u "txid"); [|intros H; now inversion H].
  destruct (Json.getitem u "vout"); [|intros H; now inversion H].
  destruct (Json.get u "address" Json.Null); [|intros H; now inversion H].
  destruct (Json.getitem u "amount"); [|intros H; now inversion H].
  destruct (Json.get u "confirmations" (Json.Int 0)); intros H; now inversion H.
Qed.

Lemma map_m_utxo_entry l nd log us log' :
  map_m utxo_entry l nd log = (Ok us, log') ->
  log' = log /\
  forall am log2 log3,
    map_m amount_of l nd log2 = (Ok am, log3) ->
    amounts_of us = Ok am.
Proof.
  revert us log'. induction l as [|u l IH]; intros us log' H.
  - simpl in H. inversion H; subst. split; [reflexivity|].
    intros am log2 log3 Ham. simpl in Ham. now inversion Ham.
  - simpl in H. unfold bind in H at 1.
    destruct (utxo_entry u nd log) as [[d|ex] log1] eqn:Eu; [|discriminate].
    destruct (utxo_entry_amount _ _ _ _ _ Eu) as (-> & a & Hua & Hda).
    unfold bind in H at 1.
    destruct (map_m utxo_entry l nd log) as [[us'|ex] log1] eqn:El; [|discriminate].
    destruct (IH _ _ eq_refl) as (-> & IHam).
    unfold ret in H. inversion H; subst. split; [reflexivity|].
    intros am log2 log3 Ham. simpl in Ham. rewrite bind_run in Ham.
    unfold amount_of in Ham at 1. rewrite lift_run, Hua in Ham.
    rewrite bind_run in Ham.
    destruct (map_m amount_of l nd log2)
      as [[am'|ex] log4] eqn:Eam; [|discriminate].
    unfold ret in Ham. inversion Ham; subst.
    simpl. rewrite Hda, (IHam _ _ _ Eam). reflexivity.
Qed.

Definition is_number (v : Json.value) : Prop :=
  match v with Json.Int _ | Json.Float _ => True | _ => False end.

Lemma add_number a b c : Json.add a b = Ok c -> is_number c.
Proof.
  unfold Json.add.
  destruct a, b; simpl; intros H; inversion H; subst; exact I.
Qed.

Lemma sum_from_number acc l t :
  is_number acc -> Json.sum_from acc l = Ok t -> is_number t.
Proof.
  revert acc. induction l as [|x l IH]; intros acc Hacc H; simpl in H.
  - now inversion H; subst.
  - destruct (Json.add acc x) as [acc'|] eqn:Ea; [|discriminate].
    apply (IH acc'); [now apply add_number in Ea | exact H].
Qed.

Lemma num_eqb_refl v : is_number v -> Json.num_eqb v v = true.
Proof.
  destruct v; simpl; try contradiction; intros _; unfold Json.num_eqb; simpl;
    apply Qeq_bool_iff; reflexivity.
Qed.

(** What the second [try] block returns. *)
Lemma collect_utxos_consistent name nd log us bal log' :
  collect_utxos name nd log = (Ok (us, bal), log') ->
  exists amounts total,
    amounts_of us = Ok amounts /\ Json.sum amounts = Ok total /\
    Json.num_eqb bal total = true.
Proof.
  unfold collect_utxos, try_except.
  match goal with |- context [bind ?c ?k nd log] =>
    destruct (bind c k nd log) as [[r|ex] log1] eqn:Eb end.
  - intros H. inversion H; subst. clear H.
    unfold bind in Eb at 1.
    destruct (rpc_call _ _ _ nd log) as [[wu|ex] log2]; [|discriminate].
    unfold bind in Eb at 1. rewrite lift_run in Eb.
    destruct (Json.as_list wu) as [l|]; [|discriminate].
    unfold bind in Eb at 1.
    destruct (map_m utxo_entry l nd log2) as [[us'|ex] log3] eqn:Eus; [|discriminate].
    destruct (map_m_utxo_entry _ _ _ _ _ Eus) as (-> & Ham).
    unfold bind in Eb at 1.
    destruct (map_m amount_of l nd log2)
      as [[am|ex] log4] eqn:Eam; [|discriminate].
    unfold bind in Eb. rewrite lift_run in Eb.
    destruct (Json.sum am) as [total|] eqn:Es; [|discriminate].
    unfold ret in Eb. inversion Eb; subst.
    exists am, bal. repeat split; eauto.
    apply num_eqb_refl. unfold Json.sum in Es.
    apply (sum_from_number (Json.Int 0) am); [exact I | exact Es].
  - destruct (isinstance ex CRPCError); [|discriminate].
    unfold ret. intros H. inversion H; subst.
    exists [], (Json.Int 0). repeat split.
Qed.

(** An [RPCError] from [listunspent] gives the empty list and 0.0. *)
Lemma collect_utxos_rpc_error name nd log msg :
  nd log
     (mk_call "listunspent" [Json.Int 1; Json.Int 9999999; Json.List []] (Some name))
    = Raises (RPCError msg) ->
  collect_utxos name nd log =
  (Ok ([], Json.Float 0),
   log ++ [mk_call "listunspent" [Json.Int 1; Json.Int 9999999; Json.List []] (Some name)]).
Proof.
  intros H. unfold collect_utxos, try_except, bind at 1, rpc_call. rewrite H.
  reflexivity.
Qed.

(** The first block makes exactly one call. *)
Lemma collect_transactions_log name nd log r log' :
  collect_transactions name nd log = (r, log') ->
  log' = log ++ [mk_call "listtransactions"
                   [Json.Str "*"; Json.Int 999999999; Json.Int 0; Json.Bool true]
                   (Some name)].
Proof.
  unfold collect_transactions, try_except, bind at 1, rpc_call.
  destruct (nd log _) as [v|ex].
  - unfold bind at 1. rewrite lift_run.
    destruct (Json.as_list v) as [l|ex].
    + assert (Hm : forall l0 lg r0 lg', map_m transaction_entry l0 nd lg = (r0, lg') -> lg' = lg).
      { clear. induction l0 as [|tx l0 IH]; intros lg r0 lg' H; simpl in H.
        - now inversion H.
        - unfold bind in H at 1.
          assert (Ht : forall r1 lg1, transaction_entry tx nd lg = (r1, lg1) -> lg1 = lg).
          { unfold transaction_entry, bind, lift, ret. intros r1 lg1.
            destruct (Json.getitem tx "txid"); [|intros E; now inversion E].
            destruct (Json.get tx "address" _); [|intros E; now inversion E].
            destruct (Json.getitem tx "amount"); [|intros E; now inversion E].
            destruct (Json.get tx "confirmations" _); [|intros E; now inversion E].
            destruct (Json.get tx "blockhash" _); [|intros E; now inversion E].
            destruct (Json.get tx "time" _); intros E; now inversion E. }
          destruct (transaction_entry tx nd lg) as [[d|ex] lg1] eqn:Et;
            pose proof (Ht _ _ eq_refl); subst lg1; [|now inversion H].
          unfold bind in H at 1.
          destruct (map_m transaction_entry l0 nd lg) as [[ds|ex] lg2] eqn:El;
            pose proof (IH _ _ _ El); subst lg2; unfold ret in H; now inversion H. }
      destruct (map_m transaction_entry l nd _) as [[ds|ex] lg2] eqn:El;
        pose proof (Hm _ _ _ _ El); subst lg2.
      * intros H; now inversion H.
      * destruct (isinstance ex CRPCError); unfold ret; intros H; now inversion H.
    + destruct (isinstance ex CRPCError); unfold ret; intros H; now inversion H.
  - destruct (isinstance ex CRPCError); unfold ret; intros H; now inversion H.
Qed.

End WalletExportFacts.

(** C10. Whenever [collect_wallet_stats] returns, the balance it reports
    equals the sum of the [amount] fields of the UTXO list it reports; and
    when the UTXO query raises an application error, that list is empty
    and the balance is 0.0.  The second [try] block returns in that case,
    and the function returns on the two sample nodes. *)
Theorem collect_wallet_stats_balance (name : string) (nd : Rpc.node)
    (log : list Rpc.call) :
  (forall d log', WalletExport.collect_wallet_stats name nd log = (Errors.Ok d, log') ->
     WalletExport.balance_consistent d) /\
  (forall d log' msg,
     WalletExport.collect_wallet_stats name nd log = (Errors.Ok d, log') ->
     nd (log ++ [Rpc.mk_call "listtransactions"
                   [Json.Str "*"; Json.Int 999999999; Json.Int 0; Json.Bool true]
                   (Some name)])
        (Rpc.mk_call "listunspent"
           [Json.Int 1; Json.Int 9999999; Json.List []] (Some name))
       = Rpc.Raises (Errors.RPCError msg) ->
     WalletExport.utxos d = [] /\ WalletExport.balance d = Json.Float 0) /\
  (forall log1 msg,
     nd log1
        (Rpc.mk_call "listunspent"
           [Json.Int 1; Json.Int 9999999; Json.List []] (Some name))
       = Rpc.Raises (Errors.RPCError msg) ->
     (WalletExport.collect_utxos name nd log1).1 = Errors.Ok ([], Json.Float 0)) /\
  (exists d log', WalletExport.collect_wallet_stats name WalletExport.sample_node log
                  = (Errors.Ok d, log')) /\
  (exists d log', WalletExport.collect_wallet_stats name WalletExport.failing_node log
                  = (Errors.Ok d, log')).
Proof.
  split; [|split; [|split; [|split]]].
  - intros d log' H. unfold WalletExport.collect_wallet_stats in H.
    unfold Run.bind in H at 1.
    destruct (WalletExport.collect_transactions name nd log) as [[txs|ex] log1];
      [|discriminate].
    unfold Run.bind in H at 1.
    destruct (WalletExport.collect_utxos name nd log1) as [[[us bal]|ex] log2] eqn:Eu;
      [|discriminate].
    unfold Run.bind in H at 1.
    destruct (WalletExport.collect_mnemonic name nd log2) as [[mn|ex] log3];
      [|discriminate].
    unfold Run.ret in H. inversion H; subst.
    unfold WalletExport.balance_consistent; simpl.
    apply (collect_utxos_consistent _ _ _ _ _ _ Eu).
  - intros d log' msg H Hnd. unfold WalletExport.collect_wallet_stats in H.
    unfold Run.bind in H at 1.
    destruct (WalletExport.collect_transactions name nd log) as [[txs|ex] log1] eqn:Et;
      [|discriminate].
    apply collect_transactions_log in Et. subst log1.
    unfold Run.bind in H at 1.
    rewrite (collect_utxos_rpc_error name nd _ msg) in H.
    + unfold Run.bind in H at 1.
      destruct (WalletExport.collect_mnemonic name nd _) as [[mn|ex] log3];
        [|discriminate].
      unfold Run.ret in H. inversion H; subst. split; reflexivity.
    + exact Hnd.
  - intros log1 msg Hnd. now rewrite (collect_utxos_rpc_error name nd log1 msg Hnd).
  - eexists. eexists. reflexivity.
  - eexists. eexists. reflexivity.
Qed.

(** The sample wallet: three UTXOs of 0.5, 0.01 and 3. *)
Example collect_wallet_stats_sample :
  (WalletExport.collect_wallet_stats "wallet" WalletExport.sample_node []).1 =
  Errors.Ok
    (WalletExport.mk_stats "wallet" (Json.Str "abandon ability able") []
       [ WalletExport.utxo "aa" (1 # 2); WalletExport.utxo "bb" (1 # 100);
         WalletExport.utxo "cc" 3 ]
       (Json.Float (0 + (1 # 2) + (1 # 100) + 3))).
Proof. reflexivity. Qed.

(* ------------------------------------------------------------------ *)
(** *** Facts about the generation engine *)
(* ------------------------------------------------------------------ *)

Section EngineSteps.

Import Errors Run Generate.

Lemma call_run e s cmd args w :
  call cmd args w e s =
  match rpc s with
  | None => (Raise (OtherException "AttributeError"
                      "'NoneType' object has no attribute 'call'"), s)
  | Some _ =>
      (match node e (calls s) (Rpc.mk_call cmd args w) with
       | Rpc.Returns v => Ok v
       | Rpc.Raises ex => Raise ex
       end,
       set_calls (calls s ++ [Rpc.mk_call cmd args w]) s)
  end.
Proof.
  unfold call. destruct (rpc s); [|reflexivity].
  unfold zoom, Rpc.rpc_call. destruct (node e (calls s) _); reflexivity.
Qed.

(** The mapping survives every building block of the engine. *)
Lemma keeps_ret {A} (a : A) : keeps_addresses (ret a).
Proof. intros e s. reflexivity. Qed.

Lemma keeps_raise {A} ex : keeps_addresses (raise ex : G A).
Proof. intros e s. reflexivity. Qed.

Lemma keeps_lift {A} (o : outcome A) : keeps_addresses (lift o).
Proof. intros e s. reflexivity. Qed.

Lemma keeps_gets {A} (f : state -> A) : keeps_addresses (gets f).
Proof. intros e s. reflexivity. Qed.

Lemma keeps_modify (f : state -> state) :
  (forall s, wallet_addresses (f s) = wallet_addresses s) ->
  keeps_addresses (modify f).
Proof. intros H e s. apply H. Qed.

Lemma keeps_bind {A B} (m : G A) (k : A -> G B) :
  keeps_addresses m -> (forall a, keeps_addresses (k a)) ->
  keeps_addresses (bind m k).
Proof.
  intros Hm Hk e s. unfold bind. specialize (Hm e s).
  destruct (m e s) as [[a|ex] s1]; simpl in *; [|exact Hm].
  now rewrite Hk.
Qed.

Lemma keeps_try {A} (body : G A) cls (handler : exn -> G A) :
  keeps_addresses body -> (forall ex, keeps_addresses (handler ex)) ->
  keeps_addresses (try_except body cls handler).
Proof.
  intros Hb Hh e s. unfold try_except. specialize (Hb e s).
  destruct (body e s) as [[a|ex] s1]; simpl in *; [exact Hb|].
  destruct (isinstance ex cls); [|exact Hb]. now rewrite Hh.
Qed.

Lemma keeps_for_each {A B} (l : list A) (body : A -> B -> G B) acc :
  (forall x b, keeps_addresses (body x b)) ->
  keeps_addresses (for_each l body acc).
Proof.
  intros Hb. revert acc. induction l as [|x l IH]; intros acc; simpl.
  - apply keeps_ret.
  - apply keeps_bind; [apply Hb | exact IH].
Qed.

Lemma keeps_map_m {A B} (f : A -> G B) (l : list A) :
  (forall x, keeps_addresses (f x)) -> keeps_addresses (map_m f l).
Proof.
  intros Hf. induction l as [|x l IH]; simpl.
  - apply keeps_ret.
  - apply keeps_bind; [apply Hf|]. intros y.
    apply keeps_bind; [exact IH|]. intros ys. apply keeps_ret.
Qed.

Lemma keeps_call cmd args w : keeps_addresses (call cmd args w).
Proof. intros e s. rewrite call_run. destruct (rpc s); reflexivity. Qed.

Lemma keeps_address_at i : keeps_addresses (address_at i).
Proof. intros e s. unfold address_at. destruct (wallet_addresses s !! i); reflexivity. Qed.

Lemma keeps_draw : keeps_addresses draw.
Proof. intros e s. reflexivity. Qed.

Lemma keeps_fs_call a : keeps_addresses (fs_call a).
Proof. intros e s. unfold fs_call. destruct (fs e (files s) a); reflexivity. Qed.

End EngineSteps.

Create HintDb keeps.

#[local] Hint Resolve keeps_ret keeps_raise keeps_lift keeps_gets keeps_call
  keeps_address_at keeps_draw keeps_fs_call : keeps.

(** Takes a computation apart along its binds, branches and loops. *)
Ltac keeps_step :=
  cbv zeta;
  match goal with
  | |- Generate.keeps_addresses (Run.bind _ _) => apply keeps_bind; [|intros]
  | |- Generate.keeps_addresses (Run.try_except _ _ _) => apply keeps_try; [|intros]
  | |- Generate.keeps_addresses (Run.for_each _ _ _) => apply keeps_for_each; intros
  | |- Generate.keeps_addresses (Run.map_m _ _) => apply keeps_map_m; intros
  | |- Generate.keeps_addresses (Run.modify _) =>
      apply keeps_modify; intros; reflexivity
  | |- Generate.keeps_addresses (if ?c then _ else _) => destruct c
  | |- Generate.keeps_addresses (match ?x with _ => _ end) => destruct x
  | |- Generate.keeps_addresses _ => solve [auto with keeps]
  end.

Ltac keeps := repeat keeps_step.

Section EngineKeepsAddresses.

Import Errors Run Generate.

Lemma keeps_faucet : keeps_addresses faucet.
Proof. unfold faucet. keeps. Qed.
Hint Resolve keeps_faucet : keeps.

Lemma keeps_bump : keeps_addresses bump_transactions_created.
Proof. unfold bump_transactions_created. keeps. Qed.
Hint Resolve keeps_bump : keeps.

Lemma keeps_send index amount : keeps_addresses (_send_to_wallet index amount).
Proof. unfold _send_to_wallet. keeps. Qed.
Hint Resolve keeps_send : keeps.

Lemma keeps_mine count address : keeps_addresses (_mine_blocks count address).
Proof. unfold _mine_blocks. keeps. Qed.
Hint Resolve keeps_mine : keeps.

Lemma keeps_mine_and_log count : keeps_addresses (_mine_and_log count).
Proof. unfold _mine_and_log. keeps. Qed.
Hint Resolve keeps_mine_and_log : keeps.

Lemma keeps_initialize_utxo_pool : keeps_addresses _initialize_utxo_pool.
Proof. unfold _initialize_utxo_pool, add_recipient. keeps. Qed.

Lemma keeps_phase_normal_activity : keeps_addresses _phase_normal_activity.
Proof. unfold _phase_normal_activity. keeps. Qed.

Lemma keeps_phase_gap_limit_boundary : keeps_addresses _phase_gap_limit_boundary.
Proof. unfold _phase_gap_limit_boundary. keeps. Qed.

Lemma keeps_phase_beyond_gap_limit : keeps_addresses _phase_beyond_gap_limit.
Proof. unfold _phase_beyond_gap_limit. keeps. Qed.

Lemma keeps_consolidate : keeps_addresses consolidate.
Proof. unfold consolidate, keyed_by_amount, raw_input. keeps. Qed.
Hint Resolve keeps_consolidate : keeps.

Lemma keeps_phase_transaction_variety : keeps_addresses _phase_transaction_variety.
Proof. unfold _phase_transaction_variety. keeps. Qed.

Lemma keeps_place_boundary x b : keeps_addresses (place_boundary x b).
Proof. unfold place_boundary. keeps. Qed.
Hint Resolve keeps_place_boundary : keeps.

Lemma keeps_bulk_iteration target a b : keeps_addresses (bulk_iteration target a b).
Proof.
  unfold bulk_iteration, coinbase_blocks, place_boundaries, periodic_send,
    occasional_self_send, add_coinbase_rewards.
  keeps.
Qed.
Hint Resolve keeps_bulk_iteration : keeps.

Lemma keeps_bulk_loop fuel target a b : keeps_addresses (bulk_loop fuel target a b).
Proof.
  revert b. induction fuel as [|k IH]; intros b; simpl; [apply keeps_ret|].
  destruct (current_height b <? target)%Z; [|apply keeps_ret].
  apply keeps_bind; [apply keeps_bulk_iteration | exact IH].
Qed.
Hint Resolve keeps_bulk_loop : keeps.

Lemma keeps_phase_bulk_generation : keeps_addresses _phase_bulk_generation.
Proof. unfold _phase_bulk_generation, bulk_generation_loop. keeps. Qed.

Hint Resolve keeps_phase_normal_activity keeps_phase_gap_limit_boundary
  keeps_phase_beyond_gap_limit keeps_phase_transaction_variety
  keeps_phase_bulk_generation : keeps.

Lemma keeps_generate_blocks : keeps_addresses _generate_blocks.
Proof. unfold _generate_blocks, set_blocks_generated. keeps. Qed.

Lemma keeps_zoom_calls {A} (m : M Rpc.node (list Rpc.call) A) :
  keeps_addresses (zoom node calls set_calls m).
Proof. intros e s. unfold zoom. destruct (m (node e) (calls s)). reflexivity. Qed.

Lemma keeps_collect_stats name : keeps_addresses (collect_stats name).
Proof.
  intros e s. unfold collect_stats. destruct (rpc s); [|reflexivity].
  apply keeps_zoom_calls.
Qed.
Hint Resolve keeps_collect_stats : keeps.

Lemma keeps_stop_for_copy : keeps_addresses stop_for_copy.
Proof.
  intros e s. unfold stop_for_copy.
  destruct (dashd_manager s) as [m|]; [|reflexivity].
  unfold bind, fs_call, ret.
  destruct (DashdManager.process m); simpl;
    match goal with |- context [fs e ?f ?a] => destruct (fs e f a) end; reflexivity.
Qed.

Lemma keeps_remove_temp_dir clear : keeps_addresses (remove_temp_dir clear).
Proof.
  intros e s. unfold remove_temp_dir.
  destruct (dashd_manager s) as [m|]; [|reflexivity].
  destruct (DashdManager.temp_dir m); [|reflexivity].
  destruct (DashdManager.should_cleanup m); reflexivity.
Qed.
Hint Resolve keeps_stop_for_copy keeps_remove_temp_dir : keeps.

Lemma keeps_export_data : keeps_addresses _export_data.
Proof.
  unfold _export_data, _collect_wallet_statistics, collect_into_wallet,
    _save_wallet_files, save_one_wallet, _copy_dashd_datadir, look_for_wallet_dir.
  keeps.
Qed.

Lemma keeps_cleanup : keeps_addresses cleanup.
Proof.
  intros e s. unfold cleanup.
  destruct (dashd_manager s) as [m|]; [|reflexivity].
  destruct (DashdManager.process m); [|apply keeps_remove_temp_dir].
  destruct (DashdManager.stop (os_env e) m (os s)). reflexivity.
Qed.

End EngineKeepsAddresses.

Section EngineAddresses.

Import Errors Run Generate.

Lemma bind_ok {A B} (m : G A) (k : A -> G B) e s b s' :
  bind m k e s = (Ok b, s') ->
  exists a s1, m e s = (Ok a, s1) /\ k a e s1 = (Ok b, s').
Proof.
  unfold bind. destruct (m e s) as [[a|ex] s1]; [|discriminate].
  intros H. eauto.
Qed.

(** [_send_to_wallet] issues at most one call, and it is the send to the
    address stored at the index. *)
Lemma send_to_wallet_calls e s index amount :
  calls (_send_to_wallet index amount e s).2 =
  calls s ++
  match wallet_addresses s !! index, rpc s with
  | Some a, Some _ => [send_call s a amount]
  | _, _ => []
  end.
Proof.
  unfold _send_to_wallet, bind, address_at, faucet, gets.
  destruct (wallet_addresses s !! index) as [a|]; simpl; [|now rewrite app_nil_r].
  rewrite call_run. destruct (rpc s); simpl; [|now rewrite app_nil_r].
  destruct (node e (calls s) _); reflexivity.
Qed.

Definition insert_pair (m : gmap Z Json.value) (ai : Json.value * Z)
  : gmap Z Json.value := <[ai.2 := ai.1]> m.

Lemma pregenerate_address_ok i acc e s acc' s' :
  pregenerate_address i acc e s = (Ok acc', s') ->
  exists a,
    node e (calls s) (new_address_call i) = Rpc.Returns a /\
    acc' = acc ++ [(a, i)] /\
    calls s' = calls s ++ [new_address_call i] /\
    wallet_addresses s' = <[i := a]> (wallet_addresses s) /\
    wallets s' = wallets s.
Proof.
  unfold pregenerate_address, bind. rewrite call_run.
  destruct (rpc s); [|discriminate].
  fold (new_address_call i).
  destruct (node e (calls s) (new_address_call i)) as [a|]; [|discriminate].
  simpl. unfold ret. intros H. inversion H; subst. exists a. repeat split.
Qed.

(** The address loop: one call per index, each answer stored at its index. *)
Lemma pregenerate_loop l : forall acc e s acc' s',
  for_each l pregenerate_address acc e s = (Ok acc', s') ->
  exists addrs,
    length addrs = length l /\
    acc' = acc ++ combine addrs l /\
    calls s' = calls s ++ map new_address_call l /\
    wallet_addresses s' = fold_left insert_pair (combine addrs l) (wallet_addresses s) /\
    wallets s' = wallets s /\
    (forall k i a, l !! k = Some i -> addrs !! k = Some a ->
       node e (calls s ++ map new_address_call (take k l)) (new_address_call i)
       = Rpc.Returns a).
Proof.
  induction l as [|i l IH]; intros acc e s acc' s' H; simpl in H.
  - unfold ret in H. inversion H; subst. exists []. simpl.
    rewrite !app_nil_r. repeat split. intros k i a Hk. destruct k; discriminate.
  - apply bind_ok in H. destruct H as (acc1 & s1 & H1 & H2).
    apply pregenerate_address_ok in H1.
    destruct H1 as (a & Hnode & -> & Hc1 & Hw1 & Hws1).
    apply IH in H2. destruct H2 as (addrs & Hlen & -> & Hc & Hw & Hws & Hans).
    exists (a :: addrs). simpl. split; [now rewrite Hlen|]. split.
    { now rewrite <- app_assoc. }
    split. { rewrite Hc, Hc1, <- app_assoc. reflexivity. }
    split. { rewrite Hw, Hw1. reflexivity. }
    split. { congruence. }
    intros k j b Hk Hb. destruct k as [|k]; simpl in *.
    + inversion Hk; inversion Hb; subst. now rewrite app_nil_r.
    + specialize (Hans k j b Hk Hb). rewrite Hc1, <- app_assoc in Hans. exact Hans.
Qed.

Lemma fold_insert_other (pairs : list (Json.value * Z)) : forall m i,
  (forall a, ~ In (a, i) pairs) ->
  fold_left insert_pair pairs m !! i = m !! i.
Proof.
  induction pairs as [|[a j] pairs IH]; intros m i Hnot; simpl; [reflexivity|].
  rewrite IH.
  - unfold insert_pair; simpl. apply lookup_insert_ne. intros ->.
    apply (Hnot a). now left.
  - intros b Hb. apply (Hnot b). now right.
Qed.

Lemma fold_insert_lookup (l : list Z) : forall addrs m k i a,
  NoDup l -> l !! k = Some i -> addrs !! k = Some a ->
  fold_left insert_pair (combine addrs l) m !! i = Some a.
Proof.
  induction l as [|j l IH]; intros addrs m k i a Hnd Hk Ha.
  - destruct k; discriminate.
  - destruct addrs as [|b addrs]; [destruct k; discriminate|].
    apply NoDup_cons in Hnd. destruct Hnd as [Hj Hnd].
    destruct k as [|k]; simpl in *.
    + inversion Hk; inversion Ha; subst.
      rewrite fold_insert_other.
      * unfold insert_pair; simpl. apply lookup_insert_eq.
      * intros c Hc. apply in_combine_r in Hc. apply Hj.
        now apply list_elem_of_In.
    + now apply (IH addrs _ k).
Qed.

Lemma range_50_NoDup : NoDup (Py.range 50).
Proof.
  apply NoDup_ListNoDup. apply List.NoDup_nth_error.
  vm_compute. intros i j Hi.
  do 50 (destruct i as [|i]; [do 50 (destruct j as [|j]; [intros Hij; first [reflexivity | discriminate]|]); intros Hij; destruct j; discriminate|]).
  exfalso. simpl in Hi. lia.
Qed.

End EngineAddresses.

Section EngineWalletSetup.

Import Errors Run Generate.

Lemma load_faucet_wallet_run e s :
  rpc s <> None ->
  load_faucet_wallet e s =
  match node e (calls s) (load_wallet_call s) with
  | Rpc.Returns _ => (Ok tt, called (load_wallet_call s) s)
  | Rpc.Raises ex =>
      if isinstance ex CRPCError then
        let error_msg := Text.lower (str ex) in
        if Text.contains "already loaded" error_msg
        then (Ok tt, called (load_wallet_call s) s)
        else if Text.contains "not found" error_msg
                || Text.contains "does not exist" error_msg
        then
          (match node e (calls s ++ [load_wallet_call s]) (create_faucet_call s) with
           | Rpc.Returns _ => Ok tt
           | Rpc.Raises ex2 => Raise ex2
           end,
           called (create_faucet_call s) (called (load_wallet_call s) s))
        else (Raise ex, called (load_wallet_call s) s)
      else (Raise ex, called (load_wallet_call s) s)
  end.
Proof.
  intros Hrpc. unfold load_faucet_wallet, faucet, gets, bind at 1.
  unfold try_except, bind at 1. rewrite call_run.
  destruct (rpc s) as [c|] eqn:Er; [|contradiction].
  fold (load_wallet_call s).
  destruct (node e (calls s) (load_wallet_call s)) as [v|ex]; [reflexivity|].
  fold (called (load_wallet_call s) s).
  destruct (isinstance ex CRPCError); [|reflexivity]. cbv zeta.
  destruct (Text.contains "already loaded" (Text.lower (str ex))); [reflexivity|].
  destruct (Text.contains "not found" (Text.lower (str ex))
            || Text.contains "does not exist" (Text.lower (str ex))); [|reflexivity].
  unfold bind. rewrite call_run. simpl. rewrite Er.
  fold (create_faucet_call s).
  destruct (node e (calls s ++ [load_wallet_call s]) (create_faucet_call s));
    reflexivity.
Qed.

Lemma create_test_wallet_run e s :
  rpc s <> None ->
  create_test_wallet e s =
  match node e (calls s) create_wallet_call with
  | Rpc.Returns _ => (Ok tt, called create_wallet_call s)
  | Rpc.Raises ex =>
      if isinstance ex CRPCError then
        let error_msg := Text.lower (str ex) in
        if Text.contains "already exists" error_msg
           || Text.contains "already loaded" error_msg
        then (Ok tt, called create_wallet_call s)
        else (Raise ex, called create_wallet_call s)
      else (Raise ex, called create_wallet_call s)
  end.
Proof.
  intros Hrpc. unfold create_test_wallet, try_except, bind. rewrite call_run.
  destruct (rpc s) as [c|] eqn:Er; [|contradiction].
  fold create_wallet_call.
  destruct (node e (calls s) create_wallet_call) as [v|ex]; [reflexivity|].
  fold (called create_wallet_call s).
  destruct (isinstance ex CRPCError); [|reflexivity]. cbv zeta.
  destruct (Text.contains "already exists" (Text.lower (str ex))
            || Text.contains "already loaded" (Text.lower (str ex))); reflexivity.
Qed.

(** What the [try ... finally] of [generate] lets through. *)
Lemma guarded_outcome (body : G unit) e s :
  interrupt_in_cleanup e = false ->
  (guarded body e s).1 =
  match (body e s).1 with
  | Ok a => Ok a
  | Raise ex =>
      if isinstance ex CKeyboardInterrupt
      then Raise (GeneratorError "User interrupted")
      else Raise ex
  end.
Proof.
  intros Hi. unfold guarded, try_except, raise. rewrite Hi.
  destruct (body e s) as [[a|ex] s1]; cbv beta iota zeta delta [fst].
  - destruct (cleanup e s1). reflexivity.
  - destruct (isinstance ex CKeyboardInterrupt); cbv beta iota zeta;
      destruct (cleanup e s1); reflexivity.
Qed.

End EngineWalletSetup.

(** C7. During wallet set-up an application error ([RPCError]) is judged
    by its lower-cased message.  Loading the faucet wallet: "already
    loaded" is absorbed and the step succeeds; "not found" or "does not
    exist" is absorbed and the wallet is created instead, the step ending
    as that creation ends; any other message is raised again unchanged.
    Creating the test wallet: "already exists" or "already loaded" is
    absorbed and the step succeeds; any other message is raised again
    unchanged.  An error raised again leaves [generate] unchanged, so it
    ends the run. *)
Theorem wallet_setup_errors (e : Generate.env) (s : Generate.state) (msg : string) :
  Generate.rpc s <> None ->
  let m := Text.lower msg in
  (Generate.node e (Generate.calls s) (Generate.load_wallet_call s)
     = Rpc.Raises (Errors.RPCError msg) ->
   (Text.contains "already loaded" m = true ->
    Generate.load_faucet_wallet e s
    = (Errors.Ok tt, Generate.called (Generate.load_wallet_call s) s)) /\
   (Text.contains "already loaded" m = false ->
    Text.contains "not found" m || Text.contains "does not exist" m = true ->
    Generate.load_faucet_wallet e s
    = (match Generate.node e (Generate.calls s ++ [Generate.load_wallet_call s])
               (Generate.create_faucet_call s) with
       | Rpc.Returns _ => Errors.Ok tt
       | Rpc.Raises ex => Errors.Raise ex
       end,
       Generate.called (Generate.create_faucet_call s)
         (Generate.called (Generate.load_wallet_call s) s))) /\
   (Text.contains "already loaded" m = false ->
    Text.contains "not found" m || Text.contains "does not exist" m = false ->
    Generate.load_faucet_wallet e s
    = (Errors.Raise (Errors.RPCError msg),
       Generate.called (Generate.load_wallet_call s) s))) /\
  (Generate.node e (Generate.calls s) Generate.create_wallet_call
     = Rpc.Raises (Errors.RPCError msg) ->
   (Text.contains "already exists" m || Text.contains "already loaded" m = true ->
    Generate.create_test_wallet e s
    = (Errors.Ok tt, Generate.called Generate.create_wallet_call s)) /\
   (Text.contains "already exists" m || Text.contains "already loaded" m = false ->
    Generate.create_test_wallet e s
    = (Errors.Raise (Errors.RPCError msg),
       Generate.called Generate.create_wallet_call s))) /\
  (forall (body : Generate.G unit) s0 s1,
     Generate.interrupt_in_cleanup e = false ->
     body e s0 = (Errors.Raise (Errors.RPCError msg), s1) ->
     (Generate.guarded body e s0).1 = Errors.Raise (Errors.RPCError msg)).
Proof.
  intros Hrpc m. subst m. split; [|split].
  - intros Hnode. rewrite (load_faucet_wallet_run e s Hrpc), Hnode. simpl.
    split; [|split].
    + now intros ->.
    + now intros -> ->.
    + now intros -> ->.
  - intros Hnode. rewrite (create_test_wallet_run e s Hrpc), Hnode. simpl.
    split; now intros ->.
  - intros body s0 s1 Hi Hb. rewrite (guarded_outcome body e s0 Hi), Hb.
    reflexivity.
Qed.

Lemma wallet_setup_errors_witness :
  Generate.load_faucet_wallet (Generate.quiet_env Generate.node_with_wallets)
    (Generate.prepared 200)
  = (Errors.Ok tt,
     Generate.called (Generate.load_wallet_call (Generate.prepared 200))
       (Generate.prepared 200)).
Proof.
  refine (proj1 (proj1 (wallet_setup_errors
    (Generate.quiet_env Generate.node_with_wallets) (Generate.prepared 200)
    "error code: -35 Wallet default is Already Loaded." _) eq_refl) eq_refl).
  discriminate.
Defined.

(** The set-up on a node where both wallets exist already, and on a node
    that refuses for another reason. *)
Example wallet_setup_runs :
  (Run.bind Generate._verify_dashd (fun _ => Generate._load_addresses)
     (Generate.quiet_env Generate.node_with_wallets) (Generate.prepared 200)).1
  = Errors.Ok tt /\
  (Generate._verify_dashd
     (Generate.quiet_env Generate.node_refusing) (Generate.prepared 200)).1
  = Errors.Raise (Errors.RPCError "error code: -18 Wallet file verification failed.") /\
  (Generate._load_addresses
     (Generate.quiet_env Generate.node_refusing) (Generate.prepared 200)).1
  = Errors.Raise (Errors.RPCError "error code: -18 Wallet file verification failed.").
Proof. repeat split; vm_compute; reflexivity. Qed.

Section EngineLoadAddresses.

Import Errors Run Generate.

Lemma call_ok e s cmd args w v s1 :
  call cmd args w e s = (Ok v, s1) ->
  rpc s <> None /\
  node e (calls s) (Rpc.mk_call cmd args w) = Rpc.Returns v /\
  s1 = called (Rpc.mk_call cmd args w) s.
Proof.
  rewrite call_run. destruct (rpc s); [|discriminate].
  destruct (node e (calls s) _); [|discriminate].
  intros H. inversion H; subst. repeat split. discriminate.
Qed.

Lemma create_test_wallet_ok e s s1 :
  create_test_wallet e s = (Ok tt, s1) ->
  rpc s <> None /\ s1 = called create_wallet_call s.
Proof.
  destruct (rpc s) as [c|] eqn:Er.
  - assert (Hr : rpc s <> None) by (rewrite Er; discriminate).
    rewrite (create_test_wallet_run e s Hr).
    destruct (node e (calls s) create_wallet_call) as [v|ex].
    + intros H. inversion H. auto.
    + destruct (isinstance ex CRPCError); [|discriminate]. cbv zeta.
      destruct (_ || _); [|discriminate]. intros H. inversion H. auto.
  - unfold create_test_wallet, try_except, bind. rewrite call_run, Er. simpl.
    discriminate.
Qed.

(** What a successful [_load_addresses] has done: two set-up calls, then
    one [getnewaddress] per index 0..49 in order; the answer to the call
    for index [i] is stored at [i] of the mapping and recorded, with [i],
    at position [i] of the test wallet's address list. *)
Lemma load_addresses_ok e s s' :
  _load_addresses e s = (Ok tt, s') ->
  exists mn addrs,
    length addrs = 50%nat /\
    wallets s' =
      wallets s ++
      [empty_wallet (dashd_wallet (config s)) (Json.Str "") [] "faucet";
       empty_wallet WALLET_NAME mn (combine addrs (Py.range 50)) "test"] /\
    calls s' = calls s ++ wallet_setup_calls ++ map new_address_call (Py.range 50) /\
    (forall k i a, Py.range 50 !! k = Some i -> addrs !! k = Some a ->
       wallet_addresses s' !! i = Some a /\
       node e (calls s ++ wallet_setup_calls ++ map new_address_call (take k (Py.range 50)))
         (new_address_call i) = Rpc.Returns a).
Proof.
  unfold _load_addresses. intros H.
  apply bind_ok in H. destruct H as (w & s1 & H1 & H).
  unfold faucet, gets in H1. inversion H1; subst w s1. clear H1.
  apply bind_ok in H. destruct H as ([] & s2 & H2 & H).
  unfold modify in H2. inversion H2; subst s2. clear H2.
  apply bind_ok in H. destruct H as ([] & s3 & H3 & H).
  apply create_test_wallet_ok in H3. destruct H3 as (_ & ->).
  apply bind_ok in H. destruct H as (hd & s4 & H4 & H).
  apply call_ok in H4. destruct H4 as (_ & _ & ->).
  apply bind_ok in H. destruct H as (mn & s5 & H5 & H).
  unfold lift in H5. inversion H5; subst s5. clear H5.
  apply bind_ok in H. destruct H as (acc & s6 & H6 & H).
  apply pregenerate_loop in H6.
  destruct H6 as (addrs & Hlen & -> & Hc & Hw & Hws & Hans).
  unfold modify in H. inversion H; subst s'. clear H.
  exists mn, addrs. simpl in *.
  split; [exact Hlen|]. split.
  { rewrite Hws. simpl. now rewrite <- app_assoc. }
  split.
  { rewrite Hc. simpl. rewrite <- !app_assoc. reflexivity. }
  intros k i a Hk Ha. split.
  - rewrite Hw. now apply (fold_insert_lookup _ _ _ k); [apply range_50_NoDup| |].
  - specialize (Hans k i a Hk Ha). simpl in Hans.
    rewrite <- !app_assoc in Hans. exact Hans.
Qed.

End EngineLoadAddresses.

(** C8. Every [_send_to_wallet] against an index issues one send, to the
    address the mapping holds at that index (and no call when the index is
    absent).  A successful [_load_addresses] stores at each index 0..49 the
    node's answer to that index's [getnewaddress] call.  No operation that
    follows it in the workflow (funding, the five generation phases, the
    export, the final clean-up) changes the mapping, whether it returns or
    raises. *)
Theorem address_index_stable :
  (forall e s index amount,
     Generate.calls (Generate._send_to_wallet index amount e s).2 =
     Generate.calls s ++
     match Generate.wallet_addresses s !! index, Generate.rpc s with
     | Some a, Some _ => [Generate.send_call s a amount]
     | _, _ => []
     end) /\
  (forall e s s', Generate._load_addresses e s = (Errors.Ok tt, s') ->
     forall i, 0 <= i < 50 ->
       exists a,
         Generate.wallet_addresses s' !! i = Some a /\
         Generate.node e
           (Generate.calls s ++ Generate.wallet_setup_calls ++
            map Generate.new_address_call (take (Z.to_nat i) (Py.range 50)))
           (Generate.new_address_call i) = Rpc.Returns a) /\
  (exists s', Generate._load_addresses
                (Generate.quiet_env (Generate.regtest_node 0))
                (Generate.set_wallet_addresses ∅ (Generate.prepared 200))
              = (Errors.Ok tt, s')) /\
  (forall index amount, Generate.keeps_addresses (Generate._send_to_wallet index amount)) /\
  Generate.keeps_addresses Generate._initialize_utxo_pool /\
  Generate.keeps_addresses Generate._phase_normal_activity /\
  Generate.keeps_addresses Generate._phase_gap_limit_boundary /\
  Generate.keeps_addresses Generate._phase_beyond_gap_limit /\
  Generate.keeps_addresses Generate._phase_transaction_variety /\
  Generate.keeps_addresses Generate._phase_bulk_generation /\
  Generate.keeps_addresses Generate._generate_blocks /\
  Generate.keeps_addresses Generate._export_data /\
  Generate.keeps_addresses Generate.cleanup.
Proof.
  split; [exact send_to_wallet_calls|].
  split.
  { intros e s s' H i Hi.
    destruct (load_addresses_ok e s s' H) as (mn & addrs & Hlen & _ & _ & Hk).
    assert (Hr : Py.range 50 !! Z.to_nat i = Some i).
    { assert (Hn : (Z.to_nat i < 50)%nat) by lia.
      replace i with (Z.of_nat (Z.to_nat i)) at 2 by lia.
      revert Hn. generalize (Z.to_nat i). intros n Hn.
      do 50 (destruct n as [|n]; [reflexivity|]). lia. }
    destruct (lookup_lt_is_Some_2 addrs (Z.to_nat i)) as [a Ha]; [lia|].
    exists a. apply (Hk _ _ _ Hr Ha). }
  split.
  { eexists. vm_compute. reflexivity. }
  split; [exact keeps_send|].
  split; [exact keeps_initialize_utxo_pool|].
  split; [exact keeps_phase_normal_activity|].
  split; [exact keeps_phase_gap_limit_boundary|].
  split; [exact keeps_phase_beyond_gap_limit|].
  split; [exact keeps_phase_transaction_variety|].
  split; [exact keeps_phase_bulk_generation|].
  split; [exact keeps_generate_blocks|].
  split; [exact keeps_export_data | exact keeps_cleanup].
Qed.

Section EngineBoundaryPass.

Import Errors Run Generate.

Lemma send_to_wallet_run e s index amount a :
  answering e -> rpc s <> None -> wallet_addresses s !! index = Some a ->
  _send_to_wallet index amount e s = (Ok tt, bumped (called (send_call s a amount) s)).
Proof.
  intros Hans Hrpc Ha. unfold _send_to_wallet, bind, address_at, faucet, gets.
  rewrite Ha. rewrite call_run.
  destruct (rpc s); [|contradiction].
  destruct (Hans (calls s)
              (Rpc.mk_call "sendtoaddress" [a; Json.Float amount]
                 (Some (dashd_wallet (config s))))) as [v ->].
  reflexivity.
Qed.

Lemma mine_blocks_run e s count :
  answering e -> rpc s <> None ->
  _mine_blocks count None e s =
  (Ok tt, called (Rpc.mk_call "generatetoaddress" [Json.Int count; mining_address_arg s] None) s).
Proof.
  intros Hans Hrpc. unfold _mine_blocks, bind, gets. rewrite call_run.
  destruct (rpc s); [|contradiction].
  destruct (Hans (calls s)
              (Rpc.mk_call "generatetoaddress" [Json.Int count; mining_address_arg s] None))
    as [v ->].
  reflexivity.
Qed.

Lemma place_boundary_above x b e s :
  current_height b < x -> place_boundary x b e s = (Ok b, s).
Proof.
  intros H. unfold place_boundary.
  destruct (Z.leb_spec x (current_height b)); [lia | reflexivity].
Qed.

Lemma place_boundary_unmarked x b e s :
  x <= current_height b -> 50 <= boundary_addr_index b ->
  place_boundary x b e s =
  (Ok (mk_bulk (current_height b) (Py.list_remove x (batch_boundaries b))
         (boundary_addr_index b) (next_periodic_height b) (periodic_counter b)), s).
Proof.
  intros Hx Hi. unfold place_boundary, NUM_ADDRESSES.
  destruct (Z.leb_spec x (current_height b)); [|lia].
  destruct (Z.ltb_spec (boundary_addr_index b) 50); [lia | reflexivity].
Qed.

Lemma place_boundary_marked x b e s a :
  x <= current_height b -> boundary_addr_index b < 50 ->
  answering e -> rpc s <> None ->
  wallet_addresses s !! boundary_addr_index b = Some a ->
  place_boundary x b e s =
  (Ok (mk_bulk (current_height b + 1) (Py.list_remove x (batch_boundaries b))
         (boundary_addr_index b + 1) (next_periodic_height b) (periodic_counter b)),
   after_marker a s).
Proof.
  intros Hx Hi Hans Hrpc Ha. unfold place_boundary, NUM_ADDRESSES.
  destruct (Z.leb_spec x (current_height b)); [|lia].
  destruct (Z.ltb_spec (boundary_addr_index b) 50); [|lia].
  unfold bind. rewrite (send_to_wallet_run e s _ _ a Hans Hrpc Ha).
  rewrite mine_blocks_run; [reflexivity | exact Hans | exact Hrpc].
Qed.

Lemma increasing_tail x l : Boundaries.increasing (x :: l) -> Boundaries.increasing l.
Proof. inversion 1; subst; [constructor | assumption]. Qed.

Lemma increasing_above c x l :
  Boundaries.increasing (x :: l) -> c < x -> Forall (fun y => c < y) (x :: l).
Proof.
  revert c x. induction l as [|y l IH]; intros c x Hinc Hc.
  - repeat constructor. exact Hc.
  - inversion Hinc; subst. constructor; [exact Hc|].
    apply IH; [assumption | lia].
Qed.

(** Boundaries above the current height are left in the schedule. *)
Lemma place_loop_above l b e s :
  Forall (fun y => current_height b < y) l ->
  for_each l place_boundary b e s = (Ok b, s).
Proof.
  induction 1 as [|x l Hx _ IH]; simpl; [reflexivity|].
  unfold bind. rewrite place_boundary_above by exact Hx. exact IH.
Qed.

Lemma marker_calls_ext s1 s idx k :
  wallet_addresses s1 = wallet_addresses s -> config s1 = config s ->
  mining_address s1 = mining_address s ->
  marker_calls s1 idx k = marker_calls s idx k.
Proof.
  intros Hw Hc Hm. unfold marker_calls, send_call, mine_one_call, mining_address_arg.
  now rewrite Hw, Hc, Hm.
Qed.

(** One pass over the schedule, when the node answers. *)
Lemma place_loop l : forall b e s,
  answering e -> rpc s <> None ->
  (forall i, 40 <= i < 50 -> is_Some (wallet_addresses s !! i)) ->
  40 <= boundary_addr_index b ->
  Boundaries.increasing l -> batch_boundaries b = l ->
  exists b' s' removed,
    for_each l place_boundary b e s = (Ok b', s') /\
    l = removed ++ batch_boundaries b' /\
    Forall (fun x => x <= current_height b') removed /\
    Forall (fun x => current_height b' < x) (batch_boundaries b') /\
    let k := Nat.min (length removed) (Z.to_nat (50 - boundary_addr_index b)) in
    current_height b' = current_height b + Z.of_nat k /\
    boundary_addr_index b' = boundary_addr_index b + Z.of_nat k /\
    next_periodic_height b' = next_periodic_height b /\
    periodic_counter b' = periodic_counter b /\
    calls s' = calls s ++ marker_calls s (boundary_addr_index b) k /\
    wallet_addresses s' = wallet_addresses s /\
    config s' = config s /\
    mining_address s' = mining_address s /\
    rpc s' = rpc s /\
    (forall j x, nth_error removed j = Some x ->
       (j < Z.to_nat (50 - boundary_addr_index b))%nat ->
       x <= current_height b + Z.of_nat j).
Proof.
  induction l as [|x l IH]; intros b e s Hans Hrpc Haddr Hidx Hinc Hb.
  - exists b, s, []. simpl. rewrite Hb.
    repeat split; try constructor; try lia; try (now rewrite app_nil_r).
    intros j y Hj. destruct j; discriminate Hj.
  - destruct (Z.lt_ge_cases (current_height b) x) as [Habove | Hpassed].
    + exists b, s, []. rewrite Hb.
      split; [apply place_loop_above; now apply increasing_above|].
      split; [reflexivity|]. split; [constructor|].
      split; [now apply increasing_above|].
      simpl. repeat split; try lia; try (now rewrite app_nil_r).
      intros j y Hj. destruct j; discriminate Hj.
    + simpl. unfold bind.
      destruct (Z.lt_ge_cases (boundary_addr_index b) 50) as [Hfree | Hused].
      * destruct (Haddr (boundary_addr_index b) ltac:(lia)) as [a Ha].
        rewrite (place_boundary_marked x b e s a Hpassed Hfree Hans Hrpc Ha).
        rewrite Hb. simpl. rewrite Z.eqb_refl.
        set (b1 := mk_bulk (current_height b + 1) l (boundary_addr_index b + 1)
                     (next_periodic_height b) (periodic_counter b)).
        destruct (IH b1 e (after_marker a s) Hans Hrpc Haddr ltac:(simpl; lia)
                    (increasing_tail _ _ Hinc) eq_refl)
          as (b' & s' & removed & Hrun & Hl & Hrem & Hkept & Hk).
        cbv zeta in Hk. simpl in Hk.
        destruct Hk as (Hcur & Hix & Hnp & Hpc & Hcalls & Hw & Hc & Hm & Hr & Htime).
        exists b', s', (x :: removed). cbv zeta.
        split; [exact Hrun|]. split; [simpl; now rewrite Hl at 1|].
        split. { constructor; [lia | exact Hrem]. }
        split; [exact Hkept|].
        replace (Z.to_nat (50 - boundary_addr_index b))
          with (S (Z.to_nat (50 - (boundary_addr_index b + 1)))) by lia.
        simpl length. rewrite <- Nat.succ_min_distr.
        split; [lia|]. split; [lia|]. split; [exact Hnp|]. split; [exact Hpc|].
        split.
        { rewrite Hcalls.
          rewrite (marker_calls_ext (after_marker a s) s) by reflexivity.
          unfold marker_calls at 2. simpl. rewrite Ha. simpl.
          rewrite <- !app_assoc. reflexivity. }
        split; [assumption|]. split; [assumption|]. split; [assumption|].
        split; [assumption|].
        intros j y Hj Hlt. destruct j as [|j]; simpl in Hj.
        -- inversion Hj; subst. lia.
        -- specialize (Htime j y Hj ltac:(lia)). lia.
      * rewrite (place_boundary_unmarked x b e s Hpassed Hused).
        rewrite Hb. simpl. rewrite Z.eqb_refl.
        set (b1 := mk_bulk (current_height b) l (boundary_addr_index b)
                     (next_periodic_height b) (periodic_counter b)).
        destruct (IH b1 e s Hans Hrpc Haddr ltac:(simpl; lia)
                    (increasing_tail _ _ Hinc) eq_refl)
          as (b' & s' & removed & Hrun & Hl & Hrem & Hkept & Hk).
        cbv zeta in Hk. simpl in Hk.
        destruct Hk as (Hcur & Hix & Hnp & Hpc & Hcalls & Hw & Hc & Hm & Hr & Htime).
        exists b', s', (x :: removed). cbv zeta.
        split; [exact Hrun|]. split; [simpl; now rewrite Hl at 1|].
        split. { constructor; [lia | exact Hrem]. }
        split; [exact Hkept|].
        replace (Z.to_nat (50 - boundary_addr_index b)) with 0%nat in * by lia.
        rewrite Nat.min_0_r in *.
        split; [assumption|]. split; [assumption|]. split; [assumption|].
        split; [assumption|]. split; [assumption|]. split; [assumption|].
        split; [assumption|]. split; [assumption|]. split; [assumption|].
        intros j y Hj Hlt. lia.
Qed.

End EngineBoundaryPass.

(** X12. One pass over the schedule (the loop [for boundary in
    list(batch_boundaries)] of the normal bulk-mining branch) goes through
    the schedule in order: with a node that answers, the pass returns; the
    boundaries it removes are a leading part of the schedule, each removed
    once, and are exactly those at or below the height the pass ends at,
    while those it keeps lie above that height.  For each removed boundary
    it places a marker (a send of 0.01 to the test-wallet address at the
    next boundary index, counted from 40, then one mined block) as long as
    that index is below 50; boundaries removed after the ten indices are
    used up get no marker.  The height and the index advance by the number
    of markers. *)
Theorem boundary_pass_spec (e : Generate.env) (s : Generate.state) (b : Generate.bulk) :
  Generate.answering e ->
  Generate.rpc s <> None ->
  (forall i, 40 <= i < 50 -> is_Some (Generate.wallet_addresses s !! i)) ->
  40 <= Generate.boundary_addr_index b ->
  Boundaries.increasing (Generate.batch_boundaries b) ->
  exists b' s' removed,
    Generate.place_boundaries b e s = (Errors.Ok b', s') /\
    Generate.batch_boundaries b = removed ++ Generate.batch_boundaries b' /\
    Forall (fun x => x <= Generate.current_height b') removed /\
    Forall (fun x => Generate.current_height b' < x) (Generate.batch_boundaries b') /\
    let k := Nat.min (length removed)
               (Z.to_nat (50 - Generate.boundary_addr_index b)) in
    Generate.current_height b' = Generate.current_height b + Z.of_nat k /\
    Generate.boundary_addr_index b' = Generate.boundary_addr_index b + Z.of_nat k /\
    Generate.calls s' =
      Generate.calls s ++ Generate.marker_calls s (Generate.boundary_addr_index b) k /\
    Generate.wallet_addresses s' = Generate.wallet_addresses s.
Proof.
  intros Hans Hrpc Haddr Hidx Hinc.
  destruct (place_loop (Generate.batch_boundaries b) b e s Hans Hrpc Haddr Hidx Hinc eq_refl)
    as (b' & s' & removed & Hrun & Hl & Hrem & Hkept & Hk).
  cbv zeta in Hk.
  destruct Hk as (Hcur & Hix & _ & _ & Hcalls & Hw & _).
  exists b', s', removed. cbv zeta. unfold Generate.place_boundaries.
  repeat split; assumption.
Qed.

Section EngineScenarios.

Import Generate.

Lemma regtest_node_answering h : answering (quiet_env (regtest_node h)).
Proof.
  intros log c. unfold quiet_env, regtest_node. simpl.
  repeat (destruct (String.eqb _ _); [eexists; reflexivity|]).
  eexists; reflexivity.
Qed.

Lemma test_addresses_present i :
  40 <= i < 50 -> is_Some (test_addresses !! i).
Proof.
  intros Hi.
  assert (H : i = 40 \/ i = 41 \/ i = 42 \/ i = 43 \/ i = 44 \/
              i = 45 \/ i = 46 \/ i = 47 \/ i = 48 \/ i = 49) by lia.
  repeat (destruct H as [-> | H]; [vm_compute; eauto|]).
  subst. vm_compute. eauto.
Qed.

End EngineScenarios.

Lemma boundary_pass_spec_witness :
  exists b' s' removed,
    Generate.place_boundaries
      (Generate.mk_bulk 10000 [4999; 9999; 14999] 49 10500 3)
      (Generate.quiet_env (Generate.regtest_node 190)) (Generate.prepared 20000)
    = (Errors.Ok b', s') /\
    [4999; 9999; 14999] = removed ++ Generate.batch_boundaries b' /\
    Forall (fun x => x <= Generate.current_height b') removed /\
    Forall (fun x => Generate.current_height b' < x) (Generate.batch_boundaries b') /\
    let k := Nat.min (length removed) (Z.to_nat (50 - 49)) in
    Generate.current_height b' = 10000 + Z.of_nat k /\
    Generate.boundary_addr_index b' = 49 + Z.of_nat k /\
    Generate.calls s' =
      Generate.calls (Generate.prepared 20000) ++
      Generate.marker_calls (Generate.prepared 20000) 49 k /\
    Generate.wallet_addresses s' = Generate.wallet_addresses (Generate.prepared 20000).
Proof.
  exact (boundary_pass_spec
           (Generate.quiet_env (Generate.regtest_node 190)) (Generate.prepared 20000)
           (Generate.mk_bulk 10000 [4999; 9999; 14999] 49 10500 3)
           (regtest_node_answering 190)
           ltac:(discriminate)
           test_addresses_present
           ltac:(simpl; lia)
           ltac:(repeat constructor)).
Defined.


(** The same loop up to 40000, the documented size of a run: the boundary
    at 39999 lies in the last 99 blocks, which the loop mines in one step
    that does not look at the schedule; it is still scheduled at the end
    and seven of the eight boundaries have a marker. *)
Example last_boundary_left_in_schedule :
  exists b s',
    Generate.bulk_generation_loop
      (Generate.quiet_env (Generate.regtest_node 190)) (Generate.prepared 40000)
    = (Errors.Ok (Some b), s') /\
    Generate.current_height b = 40000 /\
    Generate.batch_boundaries b = [39999] /\
    length (Generate.markers (Generate.calls s')) = 7%nat /\
    length (Boundaries._calculate_batch_boundaries 190 40000) = 8%nat.
Proof.
  eexists. eexists. split; [vm_compute; reflexivity|].
  repeat split; vm_compute; reflexivity.
Qed.

Section EngineExit.

Import Errors Run Generate.

Lemma guarded_interrupted (body : G unit) e s :
  interrupt_in_cleanup e = true ->
  (guarded body e s).1 = Raise KeyboardInterrupt.
Proof.
  intros Hi. unfold guarded. destruct (try_except _ _ _ e s) as [r s1].
  now rewrite Hi.
Qed.

Lemma main_exit_code script_dir a e w :
  120 <= blocks a ->
  (main script_dir a e w).1 = exit_code (generate e (initial script_dir a w)).1.
Proof.
  intros Hb. unfold main, initial.
  destruct (Z.ltb_spec (blocks a) 120); [lia|].
  destruct (generate e _). reflexivity.
Qed.

End EngineExit.

(** C9 (as the code has it). [main] maps what [generate] raises to exit
    codes: 0 on success, 1 for a configuration error, 2 for a node-connection
    error, 3 for insufficient funds, 4 for any other generator error, and
    130 for a [KeyboardInterrupt] that reaches [main].  [generate] turns a
    [KeyboardInterrupt] raised inside its workflow into
    [GeneratorError("User interrupted")], so such an interrupt exits with
    code 4; code 130 is what an interrupt gives that arrives outside the
    guarded workflow, as the clean-up starts. *)
Theorem interrupt_exit_codes (script_dir : string) (a : Generate.Args)
    (e : Generate.env) (w : DashdManager.world) :
  120 <= Generate.blocks a ->
  (Generate.interrupt_in_cleanup e = false ->
   (Generate.workflow e (Generate.initial script_dir a w)).1
     = Errors.Raise Errors.KeyboardInterrupt ->
   (Generate.generate e (Generate.initial script_dir a w)).1
     = Errors.Raise (Errors.GeneratorError "User interrupted") /\
   (Generate.main script_dir a e w).1 = 4) /\
  (Generate.interrupt_in_cleanup e = true ->
   (Generate.main script_dir a e w).1 = 130) /\
  (Generate.interrupt_in_cleanup e = false ->
   (Generate.main script_dir a e w).1 =
   match (Generate.workflow e (Generate.initial script_dir a w)).1 with
   | Errors.Ok _ => 0
   | Errors.Raise (Errors.ConfigError _) => 1
   | Errors.Raise (Errors.DashdConnectionError _) => 2
   | Errors.Raise (Errors.InsufficientFundsError _) => 3
   | Errors.Raise (Errors.GeneratorError _) => 4
   | Errors.Raise (Errors.RPCError _) => 4
   | Errors.Raise Errors.KeyboardInterrupt => 4
   | Errors.Raise _ => 1
   end) /\
  Generate.exit_code (Errors.Raise Errors.KeyboardInterrupt) = 130.
Proof.
  intros Hb. rewrite (main_exit_code script_dir a e w Hb).
  split; [|split; [|split]].
  - intros Hi Hw. unfold Generate.generate.
    rewrite (guarded_outcome _ _ _ Hi), Hw. split; reflexivity.
  - intros Hi. unfold Generate.generate. now rewrite guarded_interrupted.
  - intros Hi. unfold Generate.generate. rewrite (guarded_outcome _ _ _ Hi).
    destruct (Generate.workflow e (Generate.initial script_dir a w)).1 as [[]|ex];
      [reflexivity|].
    destruct ex; reflexivity.
  - reflexivity.
Qed.

Lemma interrupt_exit_codes_witness :
  120 <= Generate.blocks Generate.sample_args /\
  (Generate.main "/repo" Generate.sample_args
     (Generate.quiet_env (Generate.interrupted_after 40 (Generate.regtest_node 0)))
     DashdManager.world0).1 = 4.
Proof.
  split; [vm_compute; discriminate|].
  refine (proj2 (proj1 (interrupt_exit_codes "/repo" Generate.sample_args
    (Generate.quiet_env (Generate.interrupted_after 40 (Generate.regtest_node 0)))
    DashdManager.world0 _) eq_refl _)).
  - vm_compute; discriminate.
  - vm_compute. reflexivity.
Defined.

(** C9, as stated, fails: an interrupt that arrives while the addresses are
    being pre-generated ends the program with code 4. *)
Lemma interrupt_in_workflow_exits_4 :
  ~ Generate.interrupt_exits_130 "/repo" Generate.sample_args
      (Generate.quiet_env (Generate.interrupted_after 40 (Generate.regtest_node 0)))
      DashdManager.world0.
Proof.
  unfold Generate.interrupt_exits_130. intros H.
  assert (Hw : (Generate.workflow
                  (Generate.quiet_env (Generate.interrupted_after 40 (Generate.regtest_node 0)))
                  (Generate.initial "/repo" Generate.sample_args DashdManager.world0)).1
               = Errors.Raise Errors.KeyboardInterrupt)
    by (vm_compute; reflexivity).
  specialize (H Hw).
  assert (Hm : (Generate.main "/repo" Generate.sample_args
                  (Generate.quiet_env (Generate.interrupted_after 40 (Generate.regtest_node 0)))
                  DashdManager.world0).1 = 4)
    by (vm_compute; reflexivity).
  rewrite Hm in H. discriminate H.
Qed.

(** A whole run on the sample node: the program exits with code 0 at the
    target height. *)
Example full_run_succeeds :
  (Generate.main "/repo" Generate.sample_args
     (Generate.quiet_env (Generate.regtest_node 0)) DashdManager.world0).1 = 0.
Proof. vm_compute. reflexivity. Qed.

(* ================================================================== *)
(** ** Further properties of the sources *)
(* ================================================================== *)

(** X1. The scheduler returns exactly the heights one below a multiple of 5000
    that lie strictly between its two arguments, whatever their order or
    sign; in particular nothing when the target is not above the current
    height. *)
Theorem batch_boundaries_membership (current_height target h : Z) :
  (In h (Boundaries._calculate_batch_boundaries current_height target) <->
   current_height < h < target /\ (h + 1) mod 5000 = 0) /\
  (target <= current_height ->
   Boundaries._calculate_batch_boundaries current_height target = []).
Proof.
  split; [apply calculate_batch_boundaries_In|].
  intros Hle.
  destruct (Boundaries._calculate_batch_boundaries current_height target)
    as [|x l] eqn:E; [reflexivity|].
  assert (Hin : In x (Boundaries._calculate_batch_boundaries current_height target))
    by (rewrite E; now left).
  apply calculate_batch_boundaries_In in Hin. lia.
Qed.

Section PortFacts.

Import Errors DashdManager.

Lemma find_free_port_loop_spec e : forall n start w,
  match find_free_port_loop e (Py.range_from start 1 n) w with
  | (Ok (Some p), w') =>
      start <= p < start + Z.of_nat n /\
      port_in_range p = true /\
      port_free e p = true /\
      (forall q, start <= q < p -> port_in_range q = true /\ port_free e q = false) /\
      trace w' = trace w ++ map ProbePort (Py.range_from start 1 (Z.to_nat (p - start + 1)))
  | (Ok None, w') =>
      (forall q, start <= q < start + Z.of_nat n ->
         port_in_range q = true /\ port_free e q = false) /\
      trace w' = trace w ++ map ProbePort (Py.range_from start 1 n)
  | (Raise ex, w') =>
      ex = port_overflow /\
      exists p,
        start <= p < start + Z.of_nat n /\
        port_in_range p = false /\
        (forall q, start <= q < p -> port_in_range q = true /\ port_free e q = false) /\
        trace w' = trace w ++ map ProbePort (Py.range_from start 1 (Z.to_nat (p - start + 1)))
  end.
Proof.
  induction n as [|n IH]; intros start w.
  - simpl. split; [intros q Hq; lia | now rewrite app_nil_r].
  - cbn [Py.range_from find_free_port_loop]. unfold is_port_available.
    destruct (port_in_range start) eqn:Hr.
    + destruct (port_free e start) eqn:Hf.
      * split; [lia|]. split; [exact Hr|]. split; [exact Hf|].
        split; [intros q Hq; lia|].
        replace (start - start + 1) with 1 by lia. reflexivity.
      * specialize (IH (start + 1) (log (ProbePort start) w)).
        destruct (find_free_port_loop e (Py.range_from (start + 1) 1 n)
                    (log (ProbePort start) w)) as [[[p|]|ex] w'].
        -- destruct IH as (Hp & Hrp & Hfp & Hbelow & Htr).
           split; [lia|]. split; [exact Hrp|]. split; [exact Hfp|]. split.
           { intros q Hq. destruct (Z.eq_dec q start) as [-> | Hne]; [auto|].
             apply Hbelow. lia. }
           rewrite Htr. simpl. rewrite <- app_assoc. simpl.
           replace (Z.to_nat (p - start + 1))
             with (S (Z.to_nat (p - (start + 1) + 1))) by lia.
           reflexivity.
        -- destruct IH as (Hnone & Htr). split.
           { intros q Hq. destruct (Z.eq_dec q start) as [-> | Hne]; [auto|].
             apply Hnone. lia. }
           rewrite Htr. simpl. rewrite <- app_assoc. reflexivity.
        -- destruct IH as (Hex & p & Hp & Hrp & Hbelow & Htr).
           split; [exact Hex|]. exists p. split; [lia|]. split; [exact Hrp|]. split.
           { intros q Hq. destruct (Z.eq_dec q start) as [-> | Hne]; [auto|].
             apply Hbelow. lia. }
           rewrite Htr. simpl. rewrite <- app_assoc. simpl.
           replace (Z.to_nat (p - start + 1))
             with (S (Z.to_nat (p - (start + 1) + 1))) by lia.
           reflexivity.
    + split; [reflexivity|]. exists start. split; [lia|]. split; [exact Hr|].
      split; [intros q Hq; lia|].
      replace (start - start + 1) with 1 by lia. reflexivity.
Qed.

(** A port that [find_free_port] returns is one of those asked for, in
    range and free. *)
Lemma find_free_port_ok e start_port max_attempts w p w' :
  find_free_port e start_port max_attempts w = (Ok p, w') ->
  start_port <= p < start_port + max_attempts /\
  port_in_range p = true /\ port_free e p = true.
Proof.
  unfold find_free_port, Py.range3.
  replace ((start_port + max_attempts - start_port + 1 - 1) / 1) with max_attempts
    by (rewrite Z.div_1_r; lia).
  pose proof (find_free_port_loop_spec e (Z.to_nat max_attempts) start_port w) as H.
  destruct (find_free_port_loop e
              (Py.range_from start_port 1 (Z.to_nat max_attempts)) w) as [[[q|]|ex] w1];
    intros E; inversion E; subst.
  destruct H as (Hp & Hr & Hf & _). repeat split; try assumption; lia.
Qed.

End PortFacts.

(** X2. [find_free_port] returns the lowest free port among the
    [max_attempts] ports from [start_port] on, having probed every port up
    to it in order and none beyond.  It raises [DashdConnectionError] when
    none of them is free, after probing them all (at once when
    [max_attempts] is not positive).  When the search reaches a port
    outside 0..65535 before finding a free one, the [OverflowError] of the
    probe escapes instead, and the search stops at that port. *)
Theorem find_free_port_lowest (e : DashdManager.os_env) (start_port max_attempts : Z)
    (w : DashdManager.world) :
  match DashdManager.find_free_port e start_port max_attempts w with
  | (Errors.Ok p, w') =>
      start_port <= p < start_port + max_attempts /\
      DashdManager.port_in_range p = true /\
      DashdManager.port_free e p = true /\
      (forall q, start_port <= q < p ->
         DashdManager.port_in_range q = true /\ DashdManager.port_free e q = false) /\
      DashdManager.trace w' =
        DashdManager.trace w ++
        map DashdManager.ProbePort (Py.range_from start_port 1 (Z.to_nat (p - start_port + 1)))
  | (Errors.Raise ex, w') =>
      (Errors.isinstance ex Errors.CDashdConnectionError = true /\
       (forall q, start_port <= q < start_port + max_attempts ->
          DashdManager.port_in_range q = true /\ DashdManager.port_free e q = false) /\
       DashdManager.trace w' =
         DashdManager.trace w ++
         map DashdManager.ProbePort (Py.range_from start_port 1 (Z.to_nat max_attempts)))
      \/
      (ex = DashdManager.port_overflow /\
       exists p,
         start_port <= p < start_port + max_attempts /\
         DashdManager.port_in_range p = false /\
         (forall q, start_port <= q < p ->
            DashdManager.port_in_range q = true /\ DashdManager.port_free e q = false) /\
         DashdManager.trace w' =
           DashdManager.trace w ++
           map DashdManager.ProbePort
             (Py.range_from start_port 1 (Z.to_nat (p - start_port + 1))))
  end.
Proof.
  unfold DashdManager.find_free_port, Py.range3.
  replace ((start_port + max_attempts - start_port + 1 - 1) / 1) with max_attempts
    by (rewrite Z.div_1_r; lia).
  pose proof (find_free_port_loop_spec e (Z.to_nat max_attempts) start_port w) as H.
  destruct (DashdManager.find_free_port_loop e
              (Py.range_from start_port 1 (Z.to_nat max_attempts)) w) as [[[p|]|ex] w'].
  - destruct H as (Hp & Hr & Hf & Hb & Ht). repeat split; try assumption; try lia;
      apply Hb; assumption.
  - destruct H as (Hn & Ht). left. split; [reflexivity|]. split; [|exact Ht].
    intros q Hq. apply Hn. lia.
  - destruct H as (Hex & p & Hp & Hr & Hb & Ht). right. split; [exact Hex|].
    exists p. split; [lia|]. split; [exact Hr|]. split; [exact Hb | exact Ht].
Qed.

Section StartFacts.

Import Errors DashdManager.

(** The readiness loop touches neither the directories nor, as long as it
    answers [True], the set of live processes. *)
Lemma wait_loop_world m : forall obs w r w',
  wait_loop m obs w = (r, w') ->
  dirs w' = dirs w /\ (r = true -> live w' = live w).
Proof.
  induction obs as [|o obs IH]; intros w r w' H; simpl in H.
  - inversion H; subst. auto.
  - destruct (in_time o); simpl in H; [|inversion H; subst; auto].
    destruct (process m) as [pid|].
    + destruct (poll o).
      * inversion H; subst. split; [reflexivity | discriminate].
      * destruct (rpc_error o).
        -- apply IH in H. simpl in H. exact H.
        -- inversion H; subst. auto.
    + destruct (rpc_error o).
      * apply IH in H. simpl in H. exact H.
      * inversion H; subst. auto.
Qed.

(** When the loop answers [True], the observations start with passes in
    which the process is alive and silent, followed by a pass within the
    time limit in which it is alive and answers. *)
Lemma wait_loop_true m pid : forall obs w w',
  process m = Some pid ->
  wait_loop m obs w = (true, w') ->
  exists pre o rest,
    obs = pre ++ o :: rest /\ Forall waiting pre /\
    in_time o = true /\ poll o = None /\ rpc_error o = None /\
    w' = log (RpcGetblockcount (temp_dir m) (actual_port m))
           (log (Poll pid) (idle_rounds m pid (length pre) w)).
Proof.
  intros obs w w' Hp. revert w.
  induction obs as [|o obs IH]; intros w H; simpl in H; [discriminate|].
  destruct (in_time o) eqn:Ht; simpl in H; [|discriminate].
  rewrite Hp in H. destruct (poll o) eqn:Hpoll; [discriminate|].
  destruct (rpc_error o) eqn:Hr.
  - apply IH in H. destruct H as (pre & o' & rest & -> & Hpre & Ht' & Hp' & Hr' & ->).
    exists (o :: pre), o', rest. repeat split; try assumption.
    constructor; [|exact Hpre]. repeat split; try assumption. congruence.
  - inversion H; subst. exists [], o, obs. repeat split; try assumption. constructor.
Qed.

Lemma find_free_port_dirs e s n w :
  dirs (find_free_port e s n w).2 = dirs w /\
  live (find_free_port e s n w).2 = live w.
Proof.
  unfold find_free_port.
  assert (H : forall l w0, dirs (find_free_port_loop e l w0).2 = dirs w0 /\
                           live (find_free_port_loop e l w0).2 = live w0).
  { induction l as [|p l IH]; intros w0; simpl; [auto|].
    unfold is_port_available. destruct (port_in_range p); simpl; [|auto].
    destruct (port_free e p); simpl; [auto|]. apply (IH (log (ProbePort p) w0)). }
  specialize (H (Py.range3 s (s + n) 1) w).
  destruct (find_free_port_loop e _ w) as [[[p|]|ex] w']; exact H.
Qed.

Lemma resolve_rpc_port_dirs e m w :
  dirs (resolve_rpc_port e m w).2 = dirs w /\
  live (resolve_rpc_port e m w).2 = live w.
Proof.
  unfold resolve_rpc_port. destruct (requested_port m) as [p|].
  - destruct (Z.eqb p 0); [apply find_free_port_dirs|].
    unfold is_port_available. destruct (port_in_range p); simpl; [|auto].
    destruct (port_free e p); auto.
  - apply find_free_port_dirs.
Qed.

End StartFacts.

(** X3. When [start] returns, it returns the port and the directory it stored
    in the handle; the executable passed the check; the peer port is a free
    port above the control port, so the two differ; the directory is the
    fresh temporary one and exists together with its [regtest]
    subdirectory; the launched process is tracked by the handle and alive;
    the directory is marked for clean-up exactly when [keep_temp] is off;
    and the readiness wait ended with a liveness call that succeeded while
    the process was alive. *)
Theorem start_success (e : DashdManager.os_env) (keep_temp : bool)
    (m m' : DashdManager.t) (w w' : DashdManager.world) (port : Z) (dir : string) :
  DashdManager.start e keep_temp m w = (Errors.Ok (port, dir), m', w') ->
  DashdManager.verify_dashd_executable e m = true /\
  DashdManager.actual_port m' = Some port /\
  DashdManager.port_free e port = true /\
  (exists p2p, DashdManager.p2p_port m' = Some p2p /\ port < p2p <= port + 20 /\
               DashdManager.port_free e p2p = true) /\
  dir = DashdManager.mkdtemp e /\
  DashdManager.temp_dir m' = Some dir /\
  DashdManager.should_cleanup m' = negb keep_temp /\
  dir ∈ DashdManager.dirs w' /\
  (dir ++ "/regtest")%string ∈ DashdManager.dirs w' /\
  (exists pid, DashdManager.popen e = DashdManager.Launched pid /\
               DashdManager.process m' = Some pid /\
               pid ∈ DashdManager.live w') /\
  (exists pre o rest,
     DashdManager.ready e = pre ++ o :: rest /\
     Forall DashdManager.waiting pre /\
     DashdManager.in_time o = true /\ DashdManager.poll o = None /\
     DashdManager.rpc_error o = None).
Proof.
  unfold DashdManager.start.
  destruct (DashdManager.verify_dashd_executable e m) eqn:Hv; simpl; [|discriminate].
  destruct (DashdManager.resolve_rpc_port e m w) as [[actual|ex] w1] eqn:Er; [|discriminate].
  assert (Hactual : DashdManager.port_in_range actual = true /\
                    DashdManager.port_free e actual = true).
  { revert Er. unfold DashdManager.resolve_rpc_port.
    destruct (DashdManager.requested_port m) as [p|].
    - destruct (Z.eqb p 0).
      + intros Er. apply find_free_port_ok in Er. tauto.
      + unfold DashdManager.is_port_available.
        destruct (DashdManager.port_in_range p) eqn:Hr; [|discriminate].
        destruct (DashdManager.port_free e p) eqn:Hf; intros Er; inversion Er; subst.
        auto.
    - intros Er. apply find_free_port_ok in Er. tauto. }
  destruct (DashdManager.find_free_port e (actual + 1) 20 w1) as [[p2p|ex] w2] eqn:Ep;
    [|discriminate].
  destruct (find_free_port_ok _ _ _ _ _ _ Ep) as (Hrange & Hp2pr & Hfree).
  unfold DashdManager.launch.
  destruct (DashdManager.popen e) as [pid| |ex] eqn:Hpo; try discriminate.
  match goal with |- context [DashdManager._wait_for_ready e ?m2 ?w4] =>
    destruct (DashdManager._wait_for_ready e m2 w4) as [r w5] eqn:Ew end.
  destruct r.
  - intros H. inversion H; subst. clear H.
    unfold DashdManager._wait_for_ready in Ew.
    pose proof (wait_loop_world _ _ _ _ _ Ew) as (Hdirs & Hlive).
    specialize (Hlive eq_refl).
    apply (wait_loop_true _ pid) in Ew; [|reflexivity].
    destruct Ew as (pre & o & rest & Hobs & Hpre & Ht & Hpoll & Hr & _).
    split; [reflexivity|]. split; [reflexivity|]. split; [exact (proj2 Hactual)|].
    split. { exists p2p. simpl. repeat split; try assumption; lia. }
    split; [reflexivity|]. split; [reflexivity|]. split; [reflexivity|].
    split. { rewrite Hdirs. simpl. rewrite !elem_of_union, !elem_of_singleton. tauto. }
    split. { rewrite Hdirs. simpl. rewrite !elem_of_union, !elem_of_singleton. tauto. }
    split. { exists pid. repeat split. rewrite Hlive. simpl.
             rewrite elem_of_union, elem_of_singleton. tauto. }
    exists pre, o, rest. repeat split; assumption.
  - destruct (DashdManager.stop e _ w5). discriminate.
Qed.

Lemma start_success_witness :
  DashdManager.actual_port
    (DashdManager.start DashdManager.env_ready false DashdManager.fresh
       DashdManager.world0).1.2 = Some 19998.
Proof.
  exact (proj1 (proj2 (start_success DashdManager.env_ready false DashdManager.fresh
    (DashdManager.start DashdManager.env_ready false DashdManager.fresh
       DashdManager.world0).1.2
    DashdManager.world0
    (DashdManager.start DashdManager.env_ready false DashdManager.fresh
       DashdManager.world0).2
    19998 "/tmp/dash-testdata-k3" eq_refl))).
Defined.

(** X4. A requested control port (other than 0) that is taken makes [start]
    fail with [DashdConnectionError]: only that port is probed, there is no
    fall-back to the automatic search, and no directory or process is
    created.  A requested port outside 0..65535 is probed as well, and the
    [OverflowError] of the probe leaves [start] as it is, again before any
    directory or process is created. *)
Theorem start_requested_port_taken (e : DashdManager.os_env) (keep_temp : bool)
    (m : DashdManager.t) (w : DashdManager.world) (p : Z) :
  DashdManager.verify_dashd_executable e m = true ->
  DashdManager.requested_port m = Some p ->
  p <> 0 ->
  (DashdManager.port_in_range p = true -> DashdManager.port_free e p = false ->
   DashdManager.start e keep_temp m w =
   (Errors.Raise (Errors.DashdConnectionError
      ("Requested RPC port " ++ DashdManager.str_of_int p ++ " is not available")%string),
    m,
    DashdManager.log (DashdManager.ProbePort p) w)) /\
  (DashdManager.port_in_range p = false ->
   DashdManager.start e keep_temp m w =
   (Errors.Raise DashdManager.port_overflow, m,
    DashdManager.log (DashdManager.ProbePort p) w)).
Proof.
  intros Hv Hr Hp. unfold DashdManager.start, DashdManager.resolve_rpc_port.
  rewrite Hv, Hr. simpl.
  destruct (Z.eqb_spec p 0); [contradiction|].
  unfold DashdManager.is_port_available.
  split.
  - intros Hin Hf. rewrite Hin, Hf. reflexivity.
  - intros Hout. rewrite Hout. reflexivity.
Qed.

Lemma start_requested_port_taken_witness :
  (DashdManager.start DashdManager.env_port_taken false
     (DashdManager.__init__ "dashd" (Some 19998) []) DashdManager.world0).1.1
  = Errors.Raise (Errors.DashdConnectionError "Requested RPC port 19998 is not available").
Proof.
  rewrite (proj1 (start_requested_port_taken DashdManager.env_port_taken false
             (DashdManager.__init__ "dashd" (Some 19998) []) DashdManager.world0 19998
             eq_refl eq_refl ltac:(discriminate)) eq_refl eq_refl).
  reflexivity.
Defined.

(** X5. A requested control port of 65535 that is free is accepted, but the
    search for the peer port then starts at 65536: the probe raises
    [OverflowError], which is no [DashdConnectionError] and leaves [start]
    after two probes, with the control port stored in the handle and no
    directory or process created. *)
Theorem start_peer_port_overflow (e : DashdManager.os_env) (keep_temp : bool)
    (m : DashdManager.t) (w : DashdManager.world) :
  DashdManager.verify_dashd_executable e m = true ->
  DashdManager.requested_port m = Some 65535 ->
  DashdManager.port_free e 65535 = true ->
  DashdManager.start e keep_temp m w =
  (Errors.Raise DashdManager.port_overflow,
   DashdManager.set_actual_port (Some 65535) m,
   DashdManager.log (DashdManager.ProbePort 65536)
     (DashdManager.log (DashdManager.ProbePort 65535) w)) /\
  Errors.isinstance DashdManager.port_overflow Errors.CDashdConnectionError = false.
Proof.
  intros Hv Hr Hf. split; [|reflexivity].
  unfold DashdManager.start, DashdManager.resolve_rpc_port.
  rewrite Hv, Hr. simpl. rewrite Hf. reflexivity.
Qed.

Lemma start_peer_port_overflow_witness :
  (DashdManager.start DashdManager.env_early_exit false
     (DashdManager.__init__ "dashd" (Some 65535) []) DashdManager.world0).1.1
  = Errors.Raise DashdManager.port_overflow.
Proof.
  rewrite (proj1 (start_peer_port_overflow DashdManager.env_early_exit false
             (DashdManager.__init__ "dashd" (Some 65535) []) DashdManager.world0
             eq_refl eq_refl eq_refl)).
  reflexivity.
Defined.

Section CleanupFacts.

Import Errors Run Generate.

Lemma remove_temp_dir_effect clear e s m :
  dashd_manager s = Some m ->
  exists m',
    dashd_manager (remove_temp_dir clear e s).2 = Some m' /\
    DashdManager.process m' = DashdManager.process m /\
    (forall d, DashdManager.temp_dir m = Some d -> DashdManager.should_cleanup m = true ->
       In (DashdManager.Rmtree d) (DashdManager.trace (os (remove_temp_dir clear e s).2)) /\
       (DashdManager.rmtree_removes (os_env e) = true ->
        d ∉ DashdManager.dirs (os (remove_temp_dir clear e s).2))).
Proof.
  intros Hm. unfold remove_temp_dir. rewrite Hm.
  destruct (DashdManager.temp_dir m) as [d|] eqn:Etd.
  - destruct (DashdManager.should_cleanup m) eqn:Esc; simpl.
    + exists (if clear then DashdManager.set_temp_dir None m else m).
      split; [reflexivity|]. split; [now destruct clear|].
      intros d0 Hd _. inversion Hd; subst d0. split.
      * destruct (DashdManager.rmtree_removes (os_env e)); simpl;
          apply in_or_app; right; now left.
      * intros ->. apply remove_tree_gone.
    + exists m. rewrite Hm. split; [reflexivity|]. split; [reflexivity|].
      intros d0 _ H. discriminate.
  - exists m. simpl. rewrite Hm. split; [reflexivity|]. split; [reflexivity|].
    intros d0 H. discriminate.
Qed.

Lemma cleanup_effect e s m :
  dashd_manager s = Some m ->
  exists m',
    dashd_manager (cleanup e s).2 = Some m' /\
    DashdManager.process m' = None /\
    (forall d, DashdManager.temp_dir m = Some d -> DashdManager.should_cleanup m = true ->
       In (DashdManager.Rmtree d) (DashdManager.trace (os (cleanup e s).2)) /\
       (DashdManager.rmtree_removes (os_env e) = true ->
        d ∉ DashdManager.dirs (os (cleanup e s).2))).
Proof.
  intros Hm. unfold cleanup. rewrite Hm.
  destruct (DashdManager.process m) as [pid|] eqn:Ep.
  - pose proof (stop_process_cleared (os_env e) m (os s)) as Hc.
    pose proof (stop_removes_dir (os_env e) m (os s)) as Hd.
    destruct (DashdManager.stop (os_env e) m (os s)) as [m1 w1]. simpl in *.
    exists m1. split; [reflexivity|]. split; [exact Hc|].
    intros d Htd Hsc. apply (Hd d Htd Hsc).
  - destruct (remove_temp_dir_effect false e s m Hm) as (m' & H1 & H2 & H3).
    exists m'. split; [exact H1|]. split; [congruence | exact H3].
Qed.

End CleanupFacts.

(** Where the [finally] block of [generate] leaves the generator. *)
Lemma guarded_final_state (body : Generate.G unit) (e : Generate.env)
    (s : Generate.state) :
  Generate.interrupt_in_cleanup e = false ->
  (Generate.guarded body e s).2 = (Generate.cleanup e (body e s).2).2.
Proof.
  intros Hi. unfold Generate.guarded, Run.try_except, Run.raise. rewrite Hi.
  destruct (body e s) as [[a|ex] s1]; cbv beta iota zeta delta [snd].
  - now destruct (Generate.cleanup e s1).
  - destruct (Errors.isinstance ex Errors.CKeyboardInterrupt);
      cbv beta iota zeta delta [snd]; now destruct (Generate.cleanup e s1).
Qed.

(** X6. Whatever the workflow does, returning or raising, [generate] leaves no
    process tracked by the manager the workflow ended with, and, when that
    manager holds a temporary directory marked for clean-up, the removal of
    the directory has been issued (and the directory is gone once the
    operating system carried it out); without a manager the [finally]
    block does nothing.  This holds unless an interrupt arrives as the
    [finally] block starts. *)
Theorem generate_always_cleans_up (body : Generate.G unit) (e : Generate.env)
    (s : Generate.state) :
  Generate.interrupt_in_cleanup e = false ->
  let after_body := (body e s).2 in
  let final := (Generate.guarded body e s).2 in
  (forall m, Generate.dashd_manager after_body = Some m ->
     exists m',
       Generate.dashd_manager final = Some m' /\
       DashdManager.process m' = None /\
       (forall d, DashdManager.temp_dir m = Some d ->
          DashdManager.should_cleanup m = true ->
          In (DashdManager.Rmtree d) (DashdManager.trace (Generate.os final)) /\
          (DashdManager.rmtree_removes (Generate.os_env e) = true ->
           d ∉ DashdManager.dirs (Generate.os final)))) /\
  (Generate.dashd_manager after_body = None -> final = after_body).
Proof.
  intros Hi after_body final. subst after_body final.
  rewrite (guarded_final_state body e s Hi).
  split.
  - intros m Hm. exact (cleanup_effect e _ m Hm).
  - intros Hn. unfold Generate.cleanup. now rewrite Hn.
Qed.

Lemma generate_always_cleans_up_witness :
  (Generate.guarded Generate.workflow
     (Generate.quiet_env (Generate.regtest_node 0))
     (Generate.initial "/repo" Generate.sample_args DashdManager.world0)).2
  = (Generate.workflow
       (Generate.quiet_env (Generate.regtest_node 0))
       (Generate.initial "/repo" Generate.sample_args DashdManager.world0)).2.
Proof.
  refine (proj2 (generate_always_cleans_up Generate.workflow
    (Generate.quiet_env (Generate.regtest_node 0))
    (Generate.initial "/repo" Generate.sample_args DashdManager.world0) eq_refl) _).
  vm_compute. reflexivity.
Defined.

Section LaunchFailure.

Import Errors Run Generate.

Lemma launch_file_not_found e keep_temp actual p2p m w :
  DashdManager.popen e = DashdManager.FileNotFound ->
  exists msg m1 w1,
    DashdManager.launch e keep_temp actual p2p m w =
      (Raise (DashdConnectionError msg), m1, w1) /\
    DashdManager.temp_dir m1 = Some (DashdManager.mkdtemp e) /\
    DashdManager.should_cleanup m1 = negb keep_temp /\
    DashdManager.process m1 = DashdManager.process m /\
    DashdManager.mkdtemp e ∈ DashdManager.dirs w1 /\
    ~ In (DashdManager.Rmtree (DashdManager.mkdtemp e))
         (skipn (length (DashdManager.trace w)) (DashdManager.trace w1)).
Proof.
  intros Hpo. unfold DashdManager.launch. rewrite Hpo.
  eexists. eexists. eexists. split; [reflexivity|]. simpl.
  split; [reflexivity|]. split; [reflexivity|]. split; [reflexivity|]. split.
  - rewrite !elem_of_union, !elem_of_singleton. tauto.
  - rewrite <- !app_assoc. rewrite skipn_app, skipn_all, Nat.sub_diag. simpl.
    intros [H | [H | [H | []]]]; discriminate.
Qed.

End LaunchFailure.

(** X7. When the executable passes the check and the ports are free (a
    requested port leaving room for the peer port) but the launch itself
    fails with [FileNotFoundError], [start] has already
    created the temporary directory and does not remove it; the [finally]
    block of [generate] does.  The run ends with [DashdConnectionError],
    exit code 2, no tracked process, and the directory removed. *)
Theorem failed_launch_directory_removed (e : Generate.env) (s : Generate.state) :
  Generate.auto_start_dashd (Generate.config s) = true ->
  Generate.keep_temp s = false ->
  DashdManager.verify_dashd_executable (Generate.os_env e)
    (DashdManager.__init__ (Generate.dashd_executable (Generate.config s))
       (Generate.rpc_port (Generate.config s))
       (Generate.extra_dashd_args (Generate.config s))) = true ->
  (forall p, DashdManager.port_free (Generate.os_env e) p = true) ->
  match Generate.rpc_port (Generate.config s) with
  | Some port => 0 <= port < 65535
  | None => True
  end ->
  DashdManager.popen (Generate.os_env e) = DashdManager.FileNotFound ->
  DashdManager.rmtree_removes (Generate.os_env e) = true ->
  Generate.interrupt_in_cleanup e = false ->
  let d := DashdManager.mkdtemp (Generate.os_env e) in
  (exists m1, Generate.dashd_manager (Generate._ensure_dashd_running e s).2 = Some m1 /\
              DashdManager.temp_dir m1 = Some d /\
              d ∈ DashdManager.dirs (Generate.os (Generate._ensure_dashd_running e s).2)) /\
  Generate.exit_code (Generate.generate e s).1 = 2 /\
  (d ∉ DashdManager.dirs (Generate.os (Generate.generate e s).2)) /\
  (exists m', Generate.dashd_manager (Generate.generate e s).2 = Some m' /\
              DashdManager.process m' = None).
Proof.
  intros Hauto Hkeep Hv Hfree Hreq Hpo Hrm Hi d. subst d.
  assert (Hens : exists msg m1 w1,
            Generate._ensure_dashd_running e s =
              (Errors.Raise (Errors.DashdConnectionError msg),
               Generate.set_os w1 (Generate.set_dashd_manager (Some m1) s)) /\
            DashdManager.temp_dir m1 = Some (DashdManager.mkdtemp (Generate.os_env e)) /\
            DashdManager.should_cleanup m1 = true /\
            DashdManager.mkdtemp (Generate.os_env e) ∈ DashdManager.dirs w1).
  { unfold Generate._ensure_dashd_running. rewrite Hauto, Hkeep. simpl.
    destruct (ports_found (Generate.os_env e)
                (DashdManager.__init__ (Generate.dashd_executable (Generate.config s))
                   (Generate.rpc_port (Generate.config s))
                   (Generate.extra_dashd_args (Generate.config s)))
                (Generate.os s) Hfree Hreq)
      as (actual & w1 & p2p & w0 & Hrpc & Hp2p).
    rewrite (start_reaches_launch (Generate.os_env e) false _ (Generate.os s)
               actual p2p w1 w0 Hv Hrpc Hp2p).
    match goal with |- context [DashdManager.launch _ _ _ _ ?m0 _] =>
      destruct (launch_file_not_found (Generate.os_env e) false actual p2p m0 w0 Hpo)
        as (msg & m1 & w1' & -> & Htd & Hsc & _ & Hd & _) end.
    exists msg, m1, w1'. repeat split; assumption. }
  destruct Hens as (msg & m1 & w1 & Hens & Htd & Hsc & Hd).
  assert (Hwf : Generate.workflow e s =
                (Errors.Raise (Errors.DashdConnectionError msg),
                 Generate.set_os w1 (Generate.set_dashd_manager (Some m1) s))).
  { unfold Generate.workflow. rewrite bind_run, Hens. reflexivity. }
  split.
  { exists m1. rewrite Hens. simpl. auto. }
  split.
  { unfold Generate.generate. rewrite (guarded_outcome _ _ _ Hi), Hwf. reflexivity. }
  unfold Generate.generate.
  rewrite (guarded_final_state Generate.workflow e s Hi), Hwf. simpl.
  destruct (cleanup_effect e (Generate.set_os w1 (Generate.set_dashd_manager (Some m1) s))
              m1 eq_refl) as (m' & Hm' & Hp & Hrem).
  split.
  { apply (Hrem _ Htd Hsc). exact Hrm. }
  exists m'. split; assumption.
Qed.

Lemma failed_launch_directory_removed_witness :
  Generate.exit_code
    (Generate.generate Generate.env_no_launch
       (Generate.initial "/repo" Generate.auto_start_args DashdManager.world0)).1 = 2.
Proof.
  exact (proj1 (proj2 (failed_launch_directory_removed Generate.env_no_launch
    (Generate.initial "/repo" Generate.auto_start_args DashdManager.world0)
    eq_refl eq_refl eq_refl (fun _ => eq_refl) I eq_refl eq_refl eq_refl))).
Defined.

(** X8. The export stops the node with [terminate] and a wait of ten seconds
    and, unlike [stop], never kills: when the node does not exit in time
    (or the calls fail), the handle is dropped while the process is still
    alive, and the [finally] block of [generate], which looks only at the
    handle, leaves it alive too. *)
Theorem export_stop_never_kills (e : Generate.env) (s : Generate.state)
    (m : DashdManager.t) (pid : Z) :
  Generate.dashd_manager s = Some m ->
  DashdManager.process m = Some pid ->
  pid ∈ DashdManager.live (Generate.os s) ->
  DashdManager.stop_try (Generate.os_env e) <> DashdManager.Exited ->
  let s1 := (Generate.stop_for_copy e s).2 in
  (exists m1, Generate.dashd_manager s1 = Some m1 /\ DashdManager.process m1 = None) /\
  pid ∈ DashdManager.live (Generate.os s1) /\
  ~ In (DashdManager.Kill pid)
       (skipn (length (DashdManager.trace (Generate.os s)))
          (DashdManager.trace (Generate.os s1))) /\
  pid ∈ DashdManager.live (Generate.os (Generate.cleanup e s1).2).
Proof.
  intros Hm Hp Hlive Hstop s1. subst s1.
  unfold Generate.stop_for_copy. rewrite Hm, Hp.
  unfold Run.bind, Generate.fs_call, Run.ret.
  match goal with |- context [Generate.fs e ?f ?a] => destruct (Generate.fs e f a) end;
    simpl;
    (split; [eexists; split; reflexivity|]);
    (destruct (DashdManager.stop_try (Generate.os_env e)) eqn:Es; [contradiction| | |]);
    simpl; (split; [exact Hlive|]);
    (split;
     [ rewrite <- ?app_assoc; rewrite skipn_app, skipn_all, Nat.sub_diag; simpl;
       intuition discriminate
     | unfold Generate.cleanup, Generate.remove_temp_dir; simpl;
       destruct (DashdManager.temp_dir m); simpl;
       [destruct (DashdManager.should_cleanup m); simpl;
        [destruct (DashdManager.rmtree_removes (Generate.os_env e)); simpl|]|];
       exact Hlive ]).
Qed.

Lemma export_stop_never_kills_witness :
  4242 ∈ DashdManager.live
    (Generate.os
       (Generate.cleanup Generate.env_stubborn_node
          (Generate.stop_for_copy Generate.env_stubborn_node Generate.started).2).2).
Proof.
  refine (proj2 (proj2 (proj2 (export_stop_never_kills Generate.env_stubborn_node
    Generate.started Generate.started_manager 4242 _ _ _ _)))).
  - vm_compute. reflexivity.
  - vm_compute. reflexivity.
  - apply (bool_decide_unpack _). vm_compute. exact I.
  - vm_compute. discriminate.
Defined.

Section WalletStatsAbsorb.

Import Errors Run Rpc WalletExport.

(** A [try] block whose handler returns a value lets no exception of the
    handled class out. *)
Lemma try_absorbs {E S A} (body : M E S A) cls (v : A) e s ex :
  (try_except body cls (fun _ => ret v) e s).1 = Raise ex ->
  isinstance ex cls = false.
Proof.
  unfold try_except, ret. destruct (body e s) as [[a|ex0] s1]; simpl; [discriminate|].
  destruct (isinstance ex0 cls) eqn:Ei; simpl; [discriminate|].
  intros H. inversion H; subst. exact Ei.
Qed.

Lemma collect_wallet_stats_raises name nd log ex :
  (collect_wallet_stats name nd log).1 = Raise ex ->
  isinstance ex CRPCError = false.
Proof.
  unfold collect_wallet_stats. rewrite bind_run.
  destruct (collect_transactions name nd log) as [[txs|ex1] log1] eqn:E1.
  - rewrite bind_run.
    destruct (collect_utxos name nd log1) as [[ub|ex2] log2] eqn:E2.
    + rewrite bind_run.
      destruct (collect_mnemonic name nd log2) as [[mn|ex3] log3] eqn:E3.
      * discriminate.
      * simpl. intros H. inversion H; subst.
        unfold collect_mnemonic in E3. apply (f_equal fst) in E3. simpl in E3.
        exact (try_absorbs _ _ _ _ _ _ E3).
    + simpl. intros H. inversion H; subst.
      unfold collect_utxos in E2. apply (f_equal fst) in E2. simpl in E2.
      exact (try_absorbs _ _ _ _ _ _ E2).
  - simpl. intros H. inversion H; subst.
    unfold collect_transactions in E1. apply (f_equal fst) in E1. simpl in E1.
    exact (try_absorbs _ _ _ _ _ _ E1).
Qed.

End WalletStatsAbsorb.

(** X9. [collect_wallet_stats] never raises an [RPCError]: each of its three
    queries is guarded.  When the node rejects all three, it returns the
    empty statistics (no transactions, no UTXOs, balance 0.0, empty
    recovery phrase) after exactly the three calls, in the order
    [listtransactions], [listunspent], [dumphdinfo]. *)
Theorem collect_wallet_stats_absorbs_rpc_errors (name : string) (nd : Rpc.node)
    (log : list Rpc.call) :
  (forall msg, (WalletExport.collect_wallet_stats name nd log).1
               <> Errors.Raise (Errors.RPCError msg)) /\
  ((forall l c, exists msg, nd l c = Rpc.Raises (Errors.RPCError msg)) ->
   WalletExport.collect_wallet_stats name nd log =
   (Errors.Ok (WalletExport.mk_stats name (Json.Str "") [] [] (Json.Float 0)),
    log ++
    [Rpc.mk_call "listtransactions"
       [Json.Str "*"; Json.Int 999999999; Json.Int 0; Json.Bool true] (Some name);
     Rpc.mk_call "listunspent" [Json.Int 1; Json.Int 9999999; Json.List []] (Some name);
     Rpc.mk_call "dumphdinfo" [] (Some name)])).
Proof.
  split.
  - intros msg H. apply collect_wallet_stats_raises in H. discriminate.
  - intros Hall.
    unfold WalletExport.collect_wallet_stats, WalletExport.collect_transactions,
      WalletExport.collect_utxos, WalletExport.collect_mnemonic.
    unfold Run.bind, Run.try_except, Rpc.rpc_call, Run.ret.
    destruct (Hall log (Rpc.mk_call "listtransactions"
                [Json.Str "*"; Json.Int 999999999; Json.Int 0; Json.Bool true]
                (Some name))) as [m1 ->]. simpl.
    destruct (Hall (log ++ [Rpc.mk_call "listtransactions"
                [Json.Str "*"; Json.Int 999999999; Json.Int 0; Json.Bool true]
                (Some name)])
                (Rpc.mk_call "listunspent" [Json.Int 1; Json.Int 9999999; Json.List []]
                   (Some name))) as [m2 ->]. simpl.
    match goal with |- context [nd ?l ?c] => destruct (Hall l c) as [m3 ->] end. simpl.
    rewrite <- !app_assoc. reflexivity.
Qed.

Create HintDb frame.

Section Frame.

Import Errors Run Generate.

Context {B : Type} (f : state -> B).

Lemma preserves_ret {A} (a : A) : preserves f (ret a).
Proof. intros e s. reflexivity. Qed.

Lemma preserves_raise {A} ex : preserves f (raise ex : G A).
Proof. intros e s. reflexivity. Qed.

Lemma preserves_lift {A} (o : outcome A) : preserves f (lift o).
Proof. intros e s. reflexivity. Qed.

Lemma preserves_gets {A} (g : state -> A) : preserves f (gets g).
Proof. intros e s. reflexivity. Qed.

Lemma preserves_modify (g : state -> state) :
  (forall s, f (g s) = f s) -> preserves f (modify g).
Proof. intros H e s. apply H. Qed.

Lemma preserves_bind {A C} (m : G A) (k : A -> G C) :
  preserves f m -> (forall a, preserves f (k a)) -> preserves f (bind m k).
Proof.
  intros Hm Hk e s. unfold bind. specialize (Hm e s).
  destruct (m e s) as [[a|ex] s1]; simpl in *; [|exact Hm].
  now rewrite Hk.
Qed.

Lemma preserves_try {A} (body : G A) cls (handler : exn -> G A) :
  preserves f body -> (forall ex, preserves f (handler ex)) ->
  preserves f (try_except body cls handler).
Proof.
  intros Hb Hh e s. unfold try_except. specialize (Hb e s).
  destruct (body e s) as [[a|ex] s1]; simpl in *; [exact Hb|].
  destruct (isinstance ex cls); [|exact Hb]. now rewrite Hh.
Qed.

Lemma preserves_for_each {A C} (l : list A) (body : A -> C -> G C) acc :
  (forall x c, preserves f (body x c)) -> preserves f (for_each l body acc).
Proof.
  intros Hb. revert acc. induction l as [|x l IH]; intros acc; simpl.
  - apply preserves_ret.
  - apply preserves_bind; [apply Hb | exact IH].
Qed.

Lemma preserves_map_m {A C} (g : A -> G C) (l : list A) :
  (forall x, preserves f (g x)) -> preserves f (map_m g l).
Proof.
  intros Hg. induction l as [|x l IH]; simpl.
  - apply preserves_ret.
  - apply preserves_bind; [apply Hg|]. intros y.
    apply preserves_bind; [exact IH|]. intros ys. apply preserves_ret.
Qed.

Lemma preserves_address_at i : preserves f (address_at i).
Proof. intros e s. unfold address_at. destruct (wallet_addresses s !! i); reflexivity. Qed.

(** From here on [f] does not look at the call log, the counters or the
    number of random draws. *)
Hypothesis Hcalls : forall v s, f (set_calls v s) = f s.
Hypothesis Hstats : forall v s, f (set_stats v s) = f s.
Hypothesis Hdraws : forall v s, f (set_draws v s) = f s.

Lemma preserves_call cmd args w : preserves f (call cmd args w).
Proof.
  intros e s. rewrite call_run. destruct (rpc s); [|reflexivity]. simpl. apply Hcalls.
Qed.

Lemma preserves_draw : preserves f draw.
Proof. intros e s. unfold draw. simpl. apply Hdraws. Qed.

Hint Resolve preserves_ret preserves_raise preserves_lift preserves_gets
  preserves_call preserves_address_at preserves_draw : frame.

Ltac frame_step :=
  cbv zeta;
  match goal with
  | |- preserves _ (bind _ _) => apply preserves_bind; [|intros]
  | |- preserves _ (try_except _ _ _) => apply preserves_try; [|intros]
  | |- preserves _ (for_each _ _ _) => apply preserves_for_each; intros
  | |- preserves _ (map_m _ _) => apply preserves_map_m; intros
  | |- preserves _ (modify _) => apply preserves_modify; intros; apply Hstats
  | |- preserves _ (if ?c then _ else _) => destruct c
  | |- preserves _ (match ?x with _ => _ end) => destruct x
  | |- preserves _ _ => solve [auto with frame]
  end.

Ltac frame := repeat frame_step.

Lemma preserves_faucet : preserves f faucet.
Proof. unfold faucet. frame. Qed.
Hint Resolve preserves_faucet : frame.

Lemma preserves_send index amount : preserves f (_send_to_wallet index amount).
Proof. unfold _send_to_wallet, bump_transactions_created. frame. Qed.
Hint Resolve preserves_send : frame.

Lemma preserves_mine count address : preserves f (_mine_blocks count address).
Proof. unfold _mine_blocks. frame. Qed.
Hint Resolve preserves_mine : frame.

Lemma preserves_mine_and_log count : preserves f (_mine_and_log count).
Proof. unfold _mine_and_log. frame. Qed.
Hint Resolve preserves_mine_and_log : frame.

Lemma preserves_phase_normal_activity : preserves f _phase_normal_activity.
Proof. unfold _phase_normal_activity, bump_transactions_created. frame. Qed.

Lemma preserves_phase_gap_limit_boundary : preserves f _phase_gap_limit_boundary.
Proof. unfold _phase_gap_limit_boundary. frame. Qed.

Lemma preserves_phase_beyond_gap_limit : preserves f _phase_beyond_gap_limit.
Proof. unfold _phase_beyond_gap_limit. frame. Qed.

Lemma preserves_phase_transaction_variety : preserves f _phase_transaction_variety.
Proof.
  unfold _phase_transaction_variety, consolidate, keyed_by_amount, raw_input,
    bump_transactions_created.
  frame.
Qed.

Lemma preserves_bulk_iteration target a b : preserves f (bulk_iteration target a b).
Proof.
  unfold bulk_iteration, coinbase_blocks, place_boundaries, place_boundary,
    periodic_send, occasional_self_send, add_coinbase_rewards.
  frame.
Qed.

Lemma preserves_bulk_loop fuel target a b : preserves f (bulk_loop fuel target a b).
Proof.
  revert b. induction fuel as [|k IH]; intros b; simpl; [apply preserves_ret|].
  destruct (current_height b <? target)%Z; [|apply preserves_ret].
  apply preserves_bind; [apply preserves_bulk_iteration | exact IH].
Qed.
Hint Resolve preserves_bulk_loop : frame.

Lemma preserves_phase_bulk_generation : preserves f _phase_bulk_generation.
Proof. unfold _phase_bulk_generation, bulk_generation_loop. frame. Qed.

Hint Resolve preserves_phase_normal_activity preserves_phase_gap_limit_boundary
  preserves_phase_beyond_gap_limit preserves_phase_transaction_variety
  preserves_phase_bulk_generation : frame.

Lemma preserves_generate_blocks : preserves f _generate_blocks.
Proof. unfold _generate_blocks, set_blocks_generated. frame. Qed.

End Frame.

(** X10. The block generation (phases 2 to 6) only talks to the node, bumps the
    counters and draws random numbers: whether it returns or raises, the
    configuration, the process manager, the client, the wallet records,
    the output directory, the mining address, the address mapping, the
    operating system and the file system are as they were. *)
Theorem generate_blocks_frame (e : Generate.env) (s : Generate.state) :
  let s' := (Generate._generate_blocks e s).2 in
  s' = Generate.mk_state (Generate.config s) (Generate.keep_temp s)
         (Generate.dashd_manager s) (Generate.rpc s) (Generate.wallets s)
         (Generate.output_dir s) (Generate.mining_address s) (Generate.stats s')
         (Generate.wallet_addresses s) (Generate.calls s') (Generate.draws s')
         (Generate.os s) (Generate.files s).
Proof.
  intros s'. subst s'.
  pose proof (preserves_generate_blocks
    (fun x => (Generate.config x, Generate.keep_temp x, Generate.dashd_manager x,
               Generate.rpc x, Generate.wallets x, Generate.output_dir x,
               Generate.mining_address x, Generate.wallet_addresses x,
               Generate.os x, Generate.files x))
    ltac:(reflexivity) ltac:(reflexivity) ltac:(reflexivity) e s) as H.
  destruct ((Generate._generate_blocks e s).2). simpl in *.
  inversion H. reflexivity.
Qed.

Section ExportFrame.

Import Errors Run Generate.

Lemma collect_stats_state name e s :
  exists c, (collect_stats name e s).2 = set_calls c s.
Proof.
  unfold collect_stats. destruct (rpc s).
  - unfold zoom. destruct (WalletExport.collect_wallet_stats name (node e) (calls s))
      as [r c]. exists c. reflexivity.
  - exists (calls s). simpl. now destruct s.
Qed.

Lemma nth_error_lookup {A} (l : list A) i : nth_error l i = l !! i.
Proof. revert i. induction l as [|x l IH]; intros [|i]; simpl; auto. Qed.

Lemma kept_collect_into_wallet i u : preserves kept_by_export (collect_into_wallet i u).
Proof.
  intros e s. unfold collect_into_wallet, bind, gets.
  destruct (nth_error (wallets s) i) as [w|] eqn:Ew; [|reflexivity].
  destruct (collect_stats_state (wallet_name w) e s) as [c Hc].
  destruct (collect_stats (wallet_name w) e s) as [[st|ex] s1]; simpl in *; subst s1;
    [|reflexivity].
  unfold kept_by_export. simpl. f_equal. f_equal. f_equal. f_equal. f_equal. f_equal.
  f_equal.
  rewrite list_fmap_insert. apply list_insert_id.
  rewrite list_lookup_fmap, <- nth_error_lookup, Ew. reflexivity.
Qed.

Lemma kept_fs_call a : preserves kept_by_export (fs_call a).
Proof. intros e s. unfold fs_call. destruct (fs e (files s) a); reflexivity. Qed.

Lemma kept_call cmd args w : preserves kept_by_export (call cmd args w).
Proof. apply preserves_call. reflexivity. Qed.

Lemma kept_stop_for_copy : preserves kept_by_export stop_for_copy.
Proof.
  intros e s. unfold stop_for_copy.
  destruct (dashd_manager s) as [m|]; [|reflexivity].
  unfold bind, fs_call, ret.
  destruct (DashdManager.process m); simpl;
    match goal with |- context [fs e ?x ?a] => destruct (fs e x a) end; reflexivity.
Qed.

Lemma kept_remove_temp_dir clear : preserves kept_by_export (remove_temp_dir clear).
Proof.
  intros e s. unfold remove_temp_dir.
  destruct (dashd_manager s) as [m|]; [|reflexivity].
  destruct (DashdManager.temp_dir m); [|reflexivity].
  destruct (DashdManager.should_cleanup m); reflexivity.
Qed.

Hint Resolve preserves_ret preserves_gets kept_collect_into_wallet kept_fs_call
  kept_call kept_stop_for_copy kept_remove_temp_dir : frame.

Ltac kept_step :=
  cbv zeta;
  match goal with
  | |- preserves _ (bind _ _) => apply preserves_bind; [|intros]
  | |- preserves _ (for_each _ _ _) => apply preserves_for_each; intros
  | |- preserves _ (modify _) => apply preserves_modify; intros; reflexivity
  | |- preserves _ (if ?c then _ else _) => destruct c
  | |- preserves _ (match ?x with _ => _ end) => destruct x
  | |- preserves _ _ => solve [auto with frame]
  end.

Lemma kept_collect_wallet_statistics : preserves kept_by_export _collect_wallet_statistics.
Proof. unfold _collect_wallet_statistics. repeat kept_step. Qed.

Lemma kept_export_data : preserves kept_by_export _export_data.
Proof.
  unfold _export_data, _save_wallet_files, save_one_wallet, _copy_dashd_datadir,
    look_for_wallet_dir.
  repeat kept_step. apply kept_collect_wallet_statistics.
Qed.

End ExportFrame.

(** X11. The export, whether it returns or raises, keeps for every wallet record
    its position, name, pre-generated address list and role (so the
    statistics it collects never replace or reorder a wallet), and leaves
    the counters, the configuration, the mining address, the address
    mapping and the client as they were. *)
Theorem export_keeps_wallet_identity (e : Generate.env) (s : Generate.state) :
  let s' := (Generate._export_data e s).2 in
  map Generate.identity (Generate.wallets s') = map Generate.identity (Generate.wallets s) /\
  length (Generate.wallets s') = length (Generate.wallets s) /\
  Generate.stats s' = Generate.stats s /\
  Generate.config s' = Generate.config s /\
  Generate.mining_address s' = Generate.mining_address s /\
  Generate.wallet_addresses s' = Generate.wallet_addresses s /\
  Generate.rpc s' = Generate.rpc s.
Proof.
  intros s'. subst s'.
  pose proof (kept_export_data e s) as H. unfold Generate.kept_by_export in H.
  inversion H as [[Hid Hst Hc Hm Hw Hr Hd Hk]].
  repeat split; try assumption.
  apply (f_equal (@length _)) in Hid. now rewrite !length_map in Hid.
Qed.

Section BulkLoop.

Import Errors Run Generate.














End BulkLoop.

Section PeriodicSends.

Import Errors Run Generate.



End PeriodicSends.



(* ------------------------------------------------------------------ *)
(** *** Phase 6: the markers of a whole run *)
(* ------------------------------------------------------------------ *)

Section BulkMarkers.

Import Errors Run Generate.










Lemma is_marker_send s a : is_marker (send_call s a 0.01) = true.
Proof. reflexivity. Qed.























End BulkMarkers.


